(** * skillscore: the evaluation engine, embedded and verified

    A shallow embedding of [src/rubric.ts] (the rubric table, its load-time
    weight check and the grade mapper) and of [src/scorer.ts] (the eight
    category scorers, the path/URL classifier and the aggregator), then the
    vocabulary the properties are stated with, then the properties the
    specification states about the engine, each proved or, where the code
    does otherwise, shown false on an input and proved as the code has it.

    Around the engine, the pure functions of what feeds it and of what
    prints its result are embedded the same way: of the parser
    [src/parsers/skillParser.ts] the analysis of the file list, the front
    matter, the name and the description; of [src/cli.ts] the GitHub
    shorthand and the batch summary; of the reporters the bars, the colours,
    the selection of findings and the JSON report.  Their properties, and
    further properties of the engine, follow those of the specification.

    Modelling conventions.
    - A JavaScript string is a sequence of UTF-16 code units.  Documents are
      modelled as [string]s of Rocq, whose characters are the code units
      0..255 (Latin-1); on that range [toLowerCase] is closed and is written
      out below.
    - A JavaScript [number] is modelled as a rational [Q].  Every raw score
      is a sum of the constants 0.25, 0.5, 1, 2 and 3, which binary64
      represents exactly, so the category scores are exact.  The weights
      (0.15, 0.20, ...) are decimal fractions: their products and sums are
      taken in exact arithmetic, the roundings of binary64 left out.  Two
      closed facts about the binary64 values themselves are checked with the
      primitive floats at the end of the file.
    - The scorers mutate a local [score] and push onto a local [findings]
      array; this is modelled by explicit state passing over the pair.
    - [new Date()] reads the wall clock: the clock value is an argument. *)

From Stdlib Require Import QArith Qminmax Qround Qabs Lqa Lia ZArith.
From Stdlib Require Import List String Ascii Bool DecimalString.
From Stdlib Require Floats.
Import ListNotations.

Open Scope string_scope.
Open Scope bool_scope.

(** ** Strings: the built-ins of [String.prototype] the engine calls *)

Module JsString.

(** Code unit of a character. *)
Definition code (c : ascii) : N := N_of_ascii c.

Definition between (lo hi : N) (c : ascii) : bool :=
  (lo <=? code c)%N && (code c <=? hi)%N.

Definition isUpperAZ (c : ascii) : bool := between 65 90 c.
Definition isLowerAZ (c : ascii) : bool := between 97 122 c.
Definition isDigit (c : ascii) : bool := between 48 57 c.
Definition isAlnum (c : ascii) : bool := isUpperAZ c || isLowerAZ c || isDigit c.

(** [\w] of a regular expression without the [u] flag: [A-Za-z0-9_]. *)
Definition isWordChar (c : ascii) : bool := isAlnum c || Ascii.eqb c "_".

(** [\s] on the Latin-1 range: TAB, LF, VT, FF, CR, space and NBSP. *)
Definition isSpace (c : ascii) : bool :=
  between 9 13 c || Ascii.eqb c " " || (code c =? 160)%N.

(** [toLowerCase] of one code unit: A-Z, and the Latin-1 capitals
    U+00C0..U+00DE except the multiplication sign U+00D7, move up by 32. *)
Definition lowerChar (c : ascii) : ascii :=
  if isUpperAZ c || (between 192 222 c && negb (code c =? 215)%N)
  then ascii_of_N (code c + 32)
  else c.

Fixpoint toLowerCase (s : string) : string :=
  match s with
  | EmptyString => EmptyString
  | String c r => String (lowerChar c) (toLowerCase r)
  end.

(** Canonicalisation of the [i] flag (no [u] flag) restricted to what the
    patterns of this program need: they are ASCII letters, and no code unit
    outside ASCII canonicalises to an ASCII letter. *)
Definition upperAZ (c : ascii) : ascii :=
  if isLowerAZ c then ascii_of_N (code c - 32) else c.

(** [s.startsWith(p)]. *)
Definition startsWith (s p : string) : bool := prefix p s.

(** [s.includes(p)]: [p] occurs in [s] at some index. *)
Fixpoint includes (s p : string) : bool :=
  prefix p s ||
  match s with
  | EmptyString => false
  | String _ r => includes r p
  end.

(** [s.split(sep)] for a separator of one character. *)
Fixpoint splitChar (sep : ascii) (s : string) : list string :=
  match s with
  | EmptyString => [EmptyString]
  | String c r =>
      if Ascii.eqb c sep then EmptyString :: splitChar sep r
      else match splitChar sep r with
           | [] => [String c EmptyString]
           | w :: ws => String c w :: ws
           end
  end.

(** [s.split(/\s+/)]: a run of white space is one separator; a run at either
    end leaves an empty first or last piece, and the empty string splits into
    one empty piece.  [inRun] says that the previous character was white
    space, so that a run separates once. *)
Fixpoint splitSpaces (inRun : bool) (s : string) : list string :=
  match s with
  | EmptyString => [EmptyString]
  | String c r =>
      if isSpace c then
        if inRun then splitSpaces true r
        else EmptyString :: splitSpaces true r
      else match splitSpaces false r with
           | [] => [String c EmptyString]
           | w :: ws => String c w :: ws
           end
  end.

(** [arr.includes(x)] on an array of strings. *)
Definition arrayIncludes (arr : list string) (x : string) : bool :=
  existsb (String.eqb x) arr.

(** [arr.join(sep)]. *)
Definition join (sep : string) (arr : list string) : string :=
  String.concat sep arr.

(** [arr.slice(0, n)]. *)
Definition slice0 {A : Type} (n : nat) (arr : list A) : list A := firstn n arr.

(** A non-negative integer as a template literal prints it. *)
Definition ofNat (n : nat) : string := NilEmpty.string_of_uint (Nat.to_uint n).

(** The double quote, as a one-character string. *)
Definition dquote : string := String "034"%char EmptyString.

End JsString.

(** ** Regular expressions: a backtracking matcher, shallowly embedded

    A regular expression is a matcher in continuation-passing style: given
    what must match after it, it tries its own ways to match in the order of
    ECMAScript (first alternative first, greedy quantifiers longest first,
    lazy ones shortest first) and hands each end position to the
    continuation until one succeeds.  A position is the character before it
    (for [\b]) and the rest of the input; the result is the text matched
    from the position on. *)

Module Regex.
Import JsString.

Definition position : Type := option ascii * string.
Definition cont : Type := position -> option string.
Definition re : Type := cont -> cont.

Definition orElse (a b : option string) : option string :=
  match a with Some x => Some x | None => b end.

(** The character [c] was matched before what [m] holds. *)
Definition consumed (c : ascii) (m : option string) : option string :=
  match m with Some x => Some (String c x) | None => None end.

(** One character of a class. *)
Definition chr (P : ascii -> bool) : re := fun k p =>
  match snd p with
  | String c r => if P c then consumed c (k (Some c, r)) else None
  | EmptyString => None
  end.

(** [[\s\S]]. *)
Definition anyChar : ascii -> bool := fun _ => true.

(** A literal character, and the same under the [i] flag. *)
Definition isChar (x : ascii) : ascii -> bool := Ascii.eqb x.
Definition isCharCI (x : ascii) : ascii -> bool :=
  fun c => Ascii.eqb (upperAZ c) (upperAZ x).

Definition eps : re := fun k => k.
Definition seq (r1 r2 : re) : re := fun k => r1 (r2 k).
Definition alt (r1 r2 : re) : re := fun k p => orElse (r1 k p) (r2 k p).

(** [r?]. *)
Definition opt (r : re) : re := alt r eps.

(** A literal string, and the same under the [i] flag. *)
Fixpoint lit (s : string) : re :=
  match s with
  | EmptyString => eps
  | String c r => seq (chr (isChar c)) (lit r)
  end.

Fixpoint litCI (s : string) : re :=
  match s with
  | EmptyString => eps
  | String c r => seq (chr (isCharCI c)) (litCI r)
  end.

(** [[class]*] (greedy) and [[class]*?] (lazy) from a position whose rest is
    [s] and whose previous character is [prev]. *)
Fixpoint starFrom (P : ascii -> bool) (k : cont) (prev : option ascii) (s : string)
  : option string :=
  match s with
  | String c r =>
      if P c then orElse (consumed c (starFrom P k (Some c) r)) (k (prev, s))
      else k (prev, s)
  | EmptyString => k (prev, s)
  end.

Fixpoint lazyStarFrom (P : ascii -> bool) (k : cont) (prev : option ascii) (s : string)
  : option string :=
  orElse (k (prev, s))
    match s with
    | String c r => if P c then consumed c (lazyStarFrom P k (Some c) r) else None
    | EmptyString => None
    end.

Definition star (P : ascii -> bool) : re := fun k p => starFrom P k (fst p) (snd p).
Definition lazyStar (P : ascii -> bool) : re := fun k p => lazyStarFrom P k (fst p) (snd p).
Definition plus (P : ascii -> bool) : re := seq (chr P) (star P).

(** The assertions [$] (no [m] flag) and [\b]. *)
Definition eol : re := fun k p =>
  match snd p with EmptyString => k p | String _ _ => None end.

Definition isWordAt (c : option ascii) : bool :=
  match c with Some x => isWordChar x | None => false end.

Definition nextChar (s : string) : option ascii :=
  match s with String c _ => Some c | EmptyString => None end.

Definition wordBoundary : re := fun k p =>
  if xorb (isWordAt (fst p)) (isWordAt (nextChar (snd p))) then k p else None.

(** The match anchored at a position: the matched text, if any. *)
Definition execAt (r : re) (prev : option ascii) (s : string) : option string :=
  r (fun _ => Some EmptyString) (prev, s).

(** [regex.test(s)], also the truth value of [s.match(regex)]: some index of
    [s], the end included, starts a match. *)
Fixpoint testFrom (r : re) (prev : option ascii) (s : string) : bool :=
  match execAt r prev s with
  | Some _ => true
  | None =>
      match s with
      | String c rest => testFrom r (Some c) rest
      | EmptyString => false
      end
  end.

Definition test (r : re) (s : string) : bool := testFrom r None s.

(** [/^.../.test(s)]: the match must start at index 0. *)
Definition testAtStart (r : re) (s : string) : bool :=
  match execAt r None s with Some _ => true | None => false end.

(** [s.match(regex)] with the [g] flag: the matches from left to right, the
    search resuming where the previous match ended.  [skip] counts the
    characters of the last match still to be passed over.  Every pattern of
    this program used with [g] matches at least one character, so the end of
    the input starts no match and the index always advances. *)
Fixpoint matchAllFrom (r : re) (skip : nat) (prev : option ascii) (s : string)
  : list string :=
  match s with
  | EmptyString => []
  | String c rest =>
      match skip with
      | S n => matchAllFrom r n (Some c) rest
      | O =>
          match execAt r prev s with
          | Some m => m :: matchAllFrom r (length m - 1) (Some c) rest
          | None => matchAllFrom r 0 (Some c) rest
          end
      end
  end.

Definition matchAll (r : re) (s : string) : list string := matchAllFrom r 0 None s.

End Regex.

(** ** [src/rubric.ts] *)

Module ScoringCategory.
Record t : Type := mk {
  id : string;
  name : string;
  description : string;
  weight : Q;   (* Percentage as decimal (0.15 for 15%) *)
  maxScore : Q
}.
End ScoringCategory.

Module Rubric.

Definition SCORING_CATEGORIES : list ScoringCategory.t := [
  ScoringCategory.mk "structure" "Structure"
    "SKILL.md exists, clear name/description, follows conventions, clean file organization"
    0.15 10;
  ScoringCategory.mk "clarity" "Clarity"
    "Specific actionable instructions, no ambiguity, logical order, agent knows what to do"
    0.20 10;
  ScoringCategory.mk "safety" "Safety"
    "No destructive commands without confirmation, no secret exfiltration, no unbounded loops, respects permissions"
    0.20 10;
  ScoringCategory.mk "dependencies" "Dependencies"
    "Lists required tools/APIs, checks before running, install instructions, states env vars"
    0.10 10;
  ScoringCategory.mk "errorHandling" "Error Handling"
    "Failure instructions, fallbacks, no silent failures, edge cases"
    0.10 10;
  ScoringCategory.mk "scope" "Scope"
    "Single responsibility, accurate description, specific triggers, no conflicts"
    0.10 10;
  ScoringCategory.mk "documentation" "Documentation"
    "Usage examples, expected I/O, edge cases, troubleshooting"
    0.10 10;
  ScoringCategory.mk "portability" "Portability"
    "Cross-platform, no hardcoded paths, notes limitations, relative paths"
    0.05 10
].

(** [cats.reduce((sum, cat) => sum + cat.weight, 0)]. *)
Definition totalWeight (cats : list ScoringCategory.t) : Q :=
  fold_left (fun sum cat => sum + ScoringCategory.weight cat) cats 0.

(** The value the module throws.  The message of the source ends in the
    printed total; the total itself is kept instead of its decimal print. *)
Inductive exn : Type :=
| Error (message : string) (got : Q).

(** [a > b] on numbers. *)
Definition gt (a b : Q) : bool := negb (Qle_bool a b).
(** [a >= b] on numbers. *)
Definition ge (a b : Q) : bool := Qle_bool b a.
(** [a <= b] on numbers. *)
Definition le (a b : Q) : bool := Qle_bool a b.


Definition getLetterGrade (score : Q) : string :=
  if ge score 97 then "A+" else
  if ge score 93 then "A" else
  if ge score 90 then "A-" else
  if ge score 87 then "B+" else
  if ge score 83 then "B" else
  if ge score 80 then "B-" else
  if ge score 77 then "C+" else
  if ge score 73 then "C" else
  if ge score 70 then "C-" else
  if ge score 67 then "D+" else
  if ge score 65 then "D" else
  if ge score 60 then "D-" else
  "F".

(** The order of the grades, from the failing grade up; a string that is no
    grade ranks with the failing grade. *)
Definition gradeRank (g : string) : nat :=
  if String.eqb g "A+" then 12 else
  if String.eqb g "A" then 11 else
  if String.eqb g "A-" then 10 else
  if String.eqb g "B+" then 9 else
  if String.eqb g "B" then 8 else
  if String.eqb g "B-" then 7 else
  if String.eqb g "C+" then 6 else
  if String.eqb g "C" then 5 else
  if String.eqb g "C-" then 4 else
  if String.eqb g "D+" then 3 else
  if String.eqb g "D" then 2 else
  if String.eqb g "D-" then 1 else
  0.

End Rubric.

(** ** The parsed document ([src/parsers/skillParser.ts], the types only) *)

Module FileStructure.
Record t : Type := mk {
  hasSkillMd : bool;
  hasReadme : bool;
  hasPackageJson : bool;
  hasScripts : bool;
  totalFiles : nat;                     (* [files.length] *)
  directories : list string;
  fileTypes : list (string * nat)       (* the extension histogram *)
}.
End FileStructure.

Module ParsedSkill.
(** [metadata: any] is the parsed front matter; the scorers never read it,
    and it is kept as the list of its string entries. *)
Record t : Type := mk {
  skillPath : string;
  skillMdExists : bool;
  skillMdContent : string;
  name : string;
  description : string;
  files : list string;
  metadata : list (string * string);
  structure : FileStructure.t
}.
End ParsedSkill.

(** ** [src/scorer.ts]: the records *)

Module Finding.
Inductive kind : Type := pass | fail | warning | info.
Record t : Type := mk {
  type : kind;
  message : string;
  points : Q
}.
End Finding.

(** The pair [{ score, findings }] a category scorer returns, which is also
    the pair of locals it updates while it runs. *)
Module ScoreResult.
Record t : Type := mk {
  score : Q;
  findings : list Finding.t
}.
End ScoreResult.

Module CategoryScore.
Record t : Type := mk {
  category : ScoringCategory.t;
  score : Q;
  maxScore : Q;
  percentage : Q;
  findings : list Finding.t;
  weightedScore : Q
}.
End CategoryScore.

(** A [Date] is the clock value it was built from (milliseconds). *)
Definition Date : Type := Z.

Module SkillScore.
Record t : Type := mk {
  skill : ParsedSkill.t;
  categoryScores : list CategoryScore.t;
  totalScore : Q;
  maxTotalScore : Q;
  percentage : Q;
  letterGrade : string;
  timestamp : Date
}.
End SkillScore.

(** ** Statements over the locals [score] and [findings] *)

Module Stmt.

Definition t : Type := ScoreResult.t -> ScoreResult.t.

(** [let score = 0; const findings = [];] *)
Definition start : ScoreResult.t := ScoreResult.mk 0 [].

(** [score += q;] *)
Definition addScore (q : Q) : t := fun st =>
  ScoreResult.mk (ScoreResult.score st + q) (ScoreResult.findings st).

(** [findings.push({ type, message, points });] *)
Definition push (ty : Finding.kind) (message : string) (points : Q) : t := fun st =>
  ScoreResult.mk (ScoreResult.score st)
                 (ScoreResult.findings st ++ [Finding.mk ty message points]).

Definition seq (a b : t) : t := fun st => b (a st).

(** [return { score: Math.min(score, 10), findings };] *)
Definition result (st : ScoreResult.t) : ScoreResult.t :=
  ScoreResult.mk (Qmin (ScoreResult.score st) 10) (ScoreResult.findings st).

(** A scorer: its statements run from the initial locals, then the return. *)
Definition run (body : t) : ScoreResult.t := result (body start).

End Stmt.

Declare Scope stmt_scope.
Delimit Scope stmt_scope with stmt.
Bind Scope stmt_scope with Stmt.t.
Notation "a ;; b" := (Stmt.seq a b) (at level 61, right associativity) : stmt_scope.

Declare Scope regex_scope.
Delimit Scope regex_scope with regex.
Bind Scope regex_scope with Regex.re.
Notation "a >> b" := (Regex.seq a b) (at level 41, right associativity) : regex_scope.
Notation "a <|> b" := (Regex.alt a b) (at level 42, right associativity) : regex_scope.

(** ** [src/scorer.ts]: the category scorers *)

Module Scorer.
Import JsString Regex Finding Stmt.
Import Rubric.

(** A string used as a condition: the empty string is falsy. *)
Definition truthy (s : string) : bool := negb (String.eqb s "").

(** [Math.round]: to the nearest integer, a tie going up. *)
Definition round (x : Q) : Q := inject_Z (Qfloor (x + 0.5)).

(** [patterns.some(p => content.includes(p))]. *)
Definition someIncluded (content : string) (patterns : list string) : bool :=
  existsb (fun p => includes content p) patterns.

(** [patterns.filter(p => content.includes(p))]. *)
Definition filterIncluded (content : string) (patterns : list string) : list string :=
  filter (fun p => includes content p) patterns.

(** The statements of [scoreStructure] before its [return]. *)
Definition structureChecks (skill : ParsedSkill.t) : Stmt.t :=
  let name := ParsedSkill.name skill in
  let description := ParsedSkill.description skill in
  let files := ParsedSkill.files skill in
  let skillMdContent := ParsedSkill.skillMdContent skill in
  let totalFiles := FileStructure.totalFiles (ParsedSkill.structure skill) in
  let directories := FileStructure.directories (ParsedSkill.structure skill) in
  (
    (* SKILL.md exists (3 points) *)
    (if ParsedSkill.skillMdExists skill then
       addScore 3 ;;
       push pass "SKILL.md file exists" 3
     else
       push fail "SKILL.md file is missing" 0) ;;

    (* Has name (2 points) *)
    (if truthy name && (0 <? String.length name)%nat then
       addScore 2 ;;
       push pass ("Clear skill name: " ++ dquote ++ name ++ dquote) 2
     else
       push fail "No clear skill name found" 0) ;;

    (* Has description (2 points) *)
    (if truthy description && (20 <? String.length description)%nat then
       addScore 2 ;;
       push pass "Clear description provided" 2
     else if truthy description && (0 <? String.length description)%nat then
       addScore 1 ;;
       push warning "Description is very brief" 1
     else
       push fail "No description found" 0) ;;

    (* File organization (1 point) *)
    (let orgScore := 0%Q in
     let orgScore := if (totalFiles <=? 20)%nat then (orgScore + 0.25)%Q else orgScore in
     let orgScore := if (List.length directories <=? 5)%nat then (orgScore + 0.25)%Q else orgScore in
     let orgScore :=
       if negb (existsb (fun f => includes f "tmp" || includes f "temp" || includes f ".log") files)
       then (orgScore + 0.5)%Q else orgScore in
     let orgPoints := Qmin (round (orgScore * 2) / 2) 1 in
     addScore orgPoints ;;
     push (if ge orgScore 0.75 then pass else if ge orgScore 0.5 then warning else fail)
          ("File organization: " ++ ofNat totalFiles ++ " files, "
             ++ ofNat (List.length directories) ++ " directories")
          orgPoints) ;;

    (* Artifact output spec (1 point) *)
    (let outputPatterns := ["output"; "artifact"; "write to"; "save to"; "generates";
                            "produces"; "/output"; "result file"; "deliverable"] in
     let hasOutputSpec := someIncluded (toLowerCase skillMdContent) outputPatterns in
     if hasOutputSpec then
       addScore 1 ;;
       push pass "Defines output location or artifacts" 1
     else
       push fail "No output/artifact specification found" 0) ;;

    (* Follows conventions (1 point) *)
    (let conventionScore := 0%Q in
     let conventionScore :=
       if ParsedSkill.skillMdExists skill then (conventionScore + 0.5)%Q else conventionScore in
     let conventionScore :=
       if includes skillMdContent "# " || includes skillMdContent "## "
       then (conventionScore + 0.5)%Q else conventionScore in
     addScore conventionScore ;;
     push (if ge conventionScore 0.5 then pass else warning)
          ("Convention compliance: "
             ++ (if ge conventionScore 0.5 then "follows" else "partially follows")
             ++ " standard format")
          conventionScore)
  )%stmt.

Definition scoreStructure (skill : ParsedSkill.t) : ScoreResult.t :=
  run (structureChecks skill).

(** [/\d+\./] *)
Definition numberedStep : re := (plus isDigit >> lit ".")%regex.

(** The statements of [scoreClarity] before its [return]. *)
Definition clarityChecks (skill : ParsedSkill.t) : Stmt.t :=
  let content := toLowerCase (ParsedSkill.skillMdContent skill) in
  (
    (* Specific instructions (3 points) *)
    (let hasSteps := includes content "step" || includes content "1." || includes content "-" in
     let hasCommands := includes content "`" || includes content "exec" || includes content "run" in
     if hasSteps && hasCommands then
       addScore 3 ;;
       push pass "Contains specific step-by-step instructions with commands" 3
     else if hasSteps || hasCommands then
       addScore 2 ;;
       push warning "Has some specific instructions but could be clearer" 2
     else
       push fail "Instructions lack specificity and clear steps" 0) ;;

    (* No ambiguity (3 points) *)
    (let ambiguousWords := ["maybe"; "might"; "could"; "perhaps"; "possibly"; "sometimes"] in
     let ambiguityCount := List.length (filterIncluded content ambiguousWords) in
     if (ambiguityCount =? 0)%nat then
       addScore 3 ;;
       push pass "No ambiguous language detected" 3
     else if (ambiguityCount <=? 2)%nat then
       addScore 2 ;;
       push warning ("Some ambiguous language detected (" ++ ofNat ambiguityCount ++ " instances)") 2
     else
       addScore 1 ;;
       push fail ("Multiple ambiguous words found (" ++ ofNat ambiguityCount ++ " instances)") 1) ;;

    (* Logical order (2 points) *)
    (let hasNumberedSteps := test numberedStep (ParsedSkill.skillMdContent skill) in
     let hasOrderWords := includes content "first" || includes content "then" || includes content "next" in
     if hasNumberedSteps || hasOrderWords then
       addScore 2 ;;
       push pass "Instructions follow logical order" 2
     else
       addScore 1 ;;
       push warning "Could benefit from clearer ordering of steps" 1) ;;

    (* Agent understanding (2 points) *)
    (let hasTriggers := includes content "when" || includes content "if" || includes content "trigger" in
     let hasSuccessCriteria :=
       includes content "success" || includes content "complete" || includes content "done" in
     if hasTriggers && hasSuccessCriteria then
       addScore 2 ;;
       push pass "Clear triggers and success criteria defined" 2
     else if hasTriggers || hasSuccessCriteria then
       addScore 1 ;;
       push warning "Has some clarity for agents but could be improved" 1
     else
       push fail "Lacks clear triggers or success criteria for agents" 0)
  )%stmt.

Definition scoreClarity (skill : ParsedSkill.t) : ScoreResult.t :=
  run (clarityChecks skill).

(** The five sub-checks of [scoreSafety], in the order of the source, each
    named after the comment that introduces it there; [content] is the
    lower-cased text.  They are named because the properties of the Safety
    tiers speak of them one by one. *)

(* Destructive commands (3 points) *)
Definition destructiveCheck (content : string) : Stmt.t :=
  (let destructiveCommands := ["rm -rf"; "rm -f"; "del /f"; "format"; "fdisk"; "dd if="] in
   let destructiveFound :=
     filter (fun cmd => includes content (toLowerCase cmd)) destructiveCommands in
   if (List.length destructiveFound =? 0)%nat then
     addScore 3 ;;
     push pass "No dangerous destructive commands found" 3
   else
     let hasConfirmation :=
       includes content "confirm" || includes content "ask" || includes content "prompt" in
     if hasConfirmation then
       addScore 2 ;;
       push warning ("Destructive commands found but with confirmation: "
                       ++ join ", " destructiveFound) 2
     else
       push fail ("Dangerous commands without confirmation: "
                    ++ join ", " destructiveFound) 0)%stmt.

(* Secret exfiltration (3 points) *)
Definition secretCheck (content : string) : Stmt.t :=
  (let secretPatterns := ["password"; "secret"; "token"; "api_key"; "private_key";
                          "ssh_key"; "credential"; "auth"; ".env"] in
   let exfilPatterns := ["curl"; "wget"; "http"; "upload"; "send"; "post"] in
   let hasSecrets := someIncluded content secretPatterns in
   let hasExfil := someIncluded content exfilPatterns in
   if negb hasSecrets || negb hasExfil then
     addScore 3 ;;
     push pass "No obvious secret exfiltration risks" 3
   else
     let hasProtection :=
       includes content "sanitize" || includes content "redact" || includes content "mask" in
     if hasProtection then
       addScore 2 ;;
       push warning "Potential secret handling with protection measures" 2
     else
       addScore 1 ;;
       push warning "Potential secret exfiltration risk detected" 1)%stmt.

(* Unbounded loops (1 point) *)
Definition loopCheck (content : string) : Stmt.t :=
  (let loopPatterns := ["while true"; "for (;;)"; "infinite"; "forever"] in
   let unboundedLoops := filterIncluded content loopPatterns in
   if (List.length unboundedLoops =? 0)%nat then
     addScore 1 ;;
     push pass "No unbounded loops detected" 1
   else
     let hasBreakCondition :=
       includes content "break" || includes content "exit" || includes content "timeout" in
     if hasBreakCondition then
       addScore 1 ;;
       push warning "Potential unbounded loops with break conditions" 1
     else
       push fail ("Unbounded loops without exit conditions: " ++ join ", " unboundedLoops) 0)%stmt.

(* Network containment (1 point) *)
Definition networkCheck (content : string) : Stmt.t :=
  (let networkTerms := ["curl"; "wget"; "fetch"; "http"; "https"; "api"; "endpoint"; "request"] in
   let hasNetwork := someIncluded content networkTerms in
   if hasNetwork then
     let containmentTerms := ["allowlist"; "whitelist"; "restrict"; "domain"; "scope";
                              "trusted"; "untrusted"; "sanitize"; "validate response"] in
     let hasContainment := someIncluded content containmentTerms in
     if hasContainment then
       addScore 1 ;;
       push pass "Network usage with containment measures" 1
     else
       push fail "Network usage without containment measures" 0
   else
     addScore 1 ;;
     push pass "No network usage detected (containment N/A)" 1)%stmt.

(* Permissions (2 points) *)
Definition permissionCheck (content : string) : Stmt.t :=
  (let privEscalation := ["sudo"; "su -"; "chmod 777"; "chown root"] in
   let privFound := filterIncluded content privEscalation in
   if (List.length privFound =? 0)%nat then
     addScore 2 ;;
     push pass "No privilege escalation commands found" 2
   else
     let hasJustification :=
       includes content "require" || includes content "need" || includes content "admin" in
     if hasJustification then
       addScore 1 ;;
       push warning ("Privilege escalation with justification: " ++ join ", " privFound) 1
     else
       push fail ("Privilege escalation without justification: " ++ join ", " privFound) 0)%stmt.

(** The statements of [scoreSafety] before its [return]. *)
Definition safetyChecks (skill : ParsedSkill.t) : Stmt.t :=
  let content := toLowerCase (ParsedSkill.skillMdContent skill) in
  (destructiveCheck content ;;
   secretCheck content ;;
   loopCheck content ;;
   networkCheck content ;;
   permissionCheck content)%stmt.

Definition scoreSafety (skill : ParsedSkill.t) : ScoreResult.t :=
  run (safetyChecks skill).

(** The statements of [scoreDependencies] before its [return]. *)
Definition dependenciesChecks (skill : ParsedSkill.t) : Stmt.t :=
  let content := toLowerCase (ParsedSkill.skillMdContent skill) in
  (
    (* Lists tools (3 points) *)
    (let toolKeywords := ["require"; "depend"; "need"; "install"; "tool"; "api"; "library"] in
     let hasToolSection := someIncluded content toolKeywords in
     if hasToolSection then
       addScore 3 ;;
       push pass "Tools and dependencies are documented" 3
     else
       push fail "No clear documentation of required tools or dependencies" 0) ;;

    (* Checks before running (2 points) *)
    (let checkPatterns := ["check"; "verify"; "validate"; "test"; "ensure"; "command -v"] in
     let hasChecks := someIncluded content checkPatterns in
     if hasChecks then
       addScore 2 ;;
       push pass "Includes validation or checking of dependencies" 2
     else
       push warning "Could benefit from dependency checking before execution" 0) ;;

    (* Install instructions (3 points) *)
    (let installPatterns := ["install"; "setup"; "brew"; "apt"; "npm install"; "pip install"] in
     let hasInstallInstructions := someIncluded content installPatterns in
     if hasInstallInstructions then
       addScore 3 ;;
       push pass "Installation instructions provided" 3
     else
       push fail "Missing installation instructions for dependencies" 0) ;;

    (* Environment variables (2 points) *)
    (let envPatterns := ["env"; "environment"; "variable"; "$"; "export"; "set"] in
     let hasEnvDocs := someIncluded content envPatterns in
     if hasEnvDocs then
       addScore 2 ;;
       push pass "Environment variables documented" 2
     else
       push info "No environment variables documented (may not be needed)" 0)
  )%stmt.

Definition scoreDependencies (skill : ParsedSkill.t) : ScoreResult.t :=
  run (dependenciesChecks skill).

(** The statements of [scoreErrorHandling] before its [return]. *)
Definition errorHandlingChecks (skill : ParsedSkill.t) : Stmt.t :=
  let content := toLowerCase (ParsedSkill.skillMdContent skill) in
  (
    (* Failure instructions (3 points) *)
    (let errorKeywords := ["error"; "fail"; "exception"; "problem"; "issue"; "troubleshoot"] in
     let hasErrorHandling := someIncluded content errorKeywords in
     if hasErrorHandling then
       addScore 3 ;;
       push pass "Error handling and failure scenarios documented" 3
     else
       push fail "No error handling or failure scenarios documented" 0) ;;

    (* Fallbacks (3 points) *)
    (let fallbackKeywords := ["fallback"; "alternative"; "backup"; "retry"; "recover"; "plan b"] in
     let hasFallbacks := someIncluded content fallbackKeywords in
     if hasFallbacks then
       addScore 3 ;;
       push pass "Fallback strategies documented" 3
     else
       push warning "No fallback strategies documented" 0) ;;

    (* No silent failures (2 points) *)
    (let validationKeywords := ["validate"; "check"; "verify"; "status"; "confirm"] in
     let hasValidation := someIncluded content validationKeywords in
     if hasValidation then
       addScore 2 ;;
       push pass "Validation and status checking included" 2
     else
       push warning "Could benefit from validation to prevent silent failures" 0) ;;

    (* Edge cases (2 points) *)
    (let edgeKeywords := ["edge"; "boundary"; "limit"; "special case"; "exception"; "corner case"] in
     let hasEdgeCases := someIncluded content edgeKeywords in
     if hasEdgeCases then
       addScore 2 ;;
       push pass "Edge cases and boundary conditions documented" 2
     else
       push info "Edge cases not specifically documented" 0)
  )%stmt.

Definition scoreErrorHandling (skill : ParsedSkill.t) : ScoreResult.t :=
  run (errorHandlingChecks skill).

(** [/\b(and|or|also|plus|additionally)\b/gi] *)
Definition multipleVerbs : re :=
  (wordBoundary
     >> (litCI "and" <|> litCI "or" <|> litCI "also" <|> litCI "plus" <|> litCI "additionally")
     >> wordBoundary)%regex.

(** [[a-z_-]] *)
Definition toolNameChar (c : ascii) : bool :=
  isLowerAZ c || Ascii.eqb c "_" || Ascii.eqb c "-".

(** [/`[a-z_-]+`/] *)
Definition backtickedName : re := (lit "`" >> plus toolNameChar >> lit "`")%regex.

(** The statements of [scoreScope] before its [return]. *)
Definition scopeChecks (skill : ParsedSkill.t) : Stmt.t :=
  let content := toLowerCase (ParsedSkill.skillMdContent skill) in
  let name := ParsedSkill.name skill in
  let description := ParsedSkill.description skill in
  (
    (* Single responsibility (2 points) *)
    (let wordCount := List.length (splitChar " " description) in
     let hasMultipleVerbs := test multipleVerbs description in
     if (wordCount <=? 50)%nat && negb hasMultipleVerbs then
       addScore 2 ;;
       push pass "Clear single responsibility focus" 2
     else if (wordCount <=? 100)%nat then
       addScore 1 ;;
       push warning "Mostly focused but could be more specific" 1
     else
       push fail "Scope appears too broad or unfocused" 0) ;;

    (* Accurate description (2 points) *)
    (let nameWords := splitSpaces false (toLowerCase name) in
     let descWords := splitSpaces false (toLowerCase description) in
     let overlap := List.length (filter (fun word => arrayIncludes descWords word) nameWords) in
     if (1 <=? overlap)%nat || (0 <? String.length description)%nat then
       addScore 2 ;;
       push pass "Description aligns with skill name" 2
     else
       push warning "Description may not accurately reflect functionality" 0) ;;

    (* Specific triggers (2 points) *)
    (let triggerWords := ["when"; "if"; "trigger"; "activate"; "invoke"; "call"; "execute"] in
     let hasTriggers := someIncluded content triggerWords in
     if hasTriggers then
       addScore 2 ;;
       push pass "Clear trigger conditions specified" 2
     else
       addScore 1 ;;
       push warning "Trigger conditions could be more specific" 1) ;;

    (* Negative examples / routing boundaries (2 points) *)
    (let negativePatterns := ["don't use"; "do not use"; "not for"; "don't call"; "instead use";
                              "not when"; "don't use when"; "avoid using this"] in
     let hasNegativeExamples := someIncluded content negativePatterns in
     if hasNegativeExamples then
       addScore 2 ;;
       push pass "Has negative routing examples (what NOT to use this for)" 2
     else
       push fail "No negative routing examples found" 0) ;;

    (* Routing-quality description (1 point) *)
    (let hasUseWhen := includes content "use when" || includes content "use this when" in
     let hasToolNames :=
       includes content "curl" || includes content "npm" || includes content "pip"
       || includes content "brew" || test backtickedName content in
     let hasIOSignals :=
       includes content "input" || includes content "output" || includes content "returns"
       || includes content "produces" in
     if hasUseWhen || (hasToolNames && hasIOSignals) then
       addScore 1 ;;
       push pass "Description has concrete routing signals" 1
     else
       push fail "Description lacks concrete routing signals" 0) ;;

    (* No conflicts (2 points) *)
    (let conflictIndicators := ["override"; "replace"; "conflict"; "interfere"] in
     let hasConflictWarnings := someIncluded content conflictIndicators in
     if negb hasConflictWarnings then
       addScore 1 ;;
       push pass "No obvious conflict indicators" 1
     else
       push warning "Potential conflicts mentioned" 0)
  )%stmt.

Definition scoreScope (skill : ParsedSkill.t) : ScoreResult.t :=
  run (scopeChecks skill).

(** [/```/g] *)
Definition fence : re := lit "```".

(** [/```[\s\S]*?(json|yaml|xml|{[\s\S]*?}|\[[\s\S]*?\])[\s\S]*?```/] *)
Definition structuredOutput : re :=
  (lit "```" >> lazyStar anyChar
     >> (lit "json" <|> lit "yaml" <|> lit "xml"
         <|> (lit "{" >> lazyStar anyChar >> lit "}")
         <|> (lit "[" >> lazyStar anyChar >> lit "]"))
     >> lazyStar anyChar >> lit "```")%regex.

(** The statements of [scoreDocumentation] before its [return]. *)
Definition documentationChecks (skill : ParsedSkill.t) : Stmt.t :=
  let content := toLowerCase (ParsedSkill.skillMdContent skill) in
  let skillMdContent := ParsedSkill.skillMdContent skill in
  (
    (* Usage examples (3 points) *)
    (let exampleKeywords := ["example"; "usage"; "```"; "sample"; "demo"] in
     let hasExamples := someIncluded content exampleKeywords in
     if hasExamples then
       addScore 3 ;;
       push pass "Usage examples provided" 3
     else
       push fail "No usage examples found" 0) ;;

    (* Input/Output (2 points) *)
    (let ioKeywords := ["input"; "output"; "parameter"; "return"; "result"] in
     let hasIODocs := someIncluded content ioKeywords in
     if hasIODocs then
       addScore 2 ;;
       push pass "Input/output documented" 2
     else
       push warning "Input/output not clearly documented" 0) ;;

    (* Edge case documentation (2 points) *)
    (let limitationKeywords := ["limitation"; "constraint"; "caveat"; "note"; "warning"; "caution"] in
     let hasLimitations := someIncluded content limitationKeywords in
     if hasLimitations then
       addScore 2 ;;
       push pass "Limitations and caveats documented" 2
     else
       push warning "Limitations not documented" 0) ;;

    (* Troubleshooting (1 point) *)
    (let troubleshootKeywords := ["troubleshoot"; "debug"; "faq"; "common issue"; "problem"] in
     let hasTroubleshooting := someIncluded content troubleshootKeywords in
     if hasTroubleshooting then
       addScore 1 ;;
       push pass "Troubleshooting guidance provided" 1
     else
       push info "No troubleshooting section found" 0) ;;

    (* Embedded templates / worked examples (2 points) *)
    (let codeBlockCount :=
       (inject_Z (Z.of_nat (List.length (matchAll fence skillMdContent))) / 2)%Q in
     let templateKeywords := ["template"; "format"; "example output"; "sample output";
                              "expected output"] in
     let hasTemplateKeywords := someIncluded content templateKeywords in
     let hasStructuredOutput := test structuredOutput skillMdContent in
     if ge codeBlockCount 2 && (hasTemplateKeywords || hasStructuredOutput) then
       addScore 2 ;;
       push pass "Has embedded templates or worked examples with expected output" 2
     else if ge codeBlockCount 1 then
       addScore 1 ;;
       push warning "Has code blocks but no clear template/output examples" 1
     else
       push fail "No embedded templates or worked examples" 0)
  )%stmt.

Definition scoreDocumentation (skill : ParsedSkill.t) : ScoreResult.t :=
  run (documentationChecks skill).

(** *** The path/URL classifier *)

(** [[a-zA-Z0-9\/_.-]] *)
Definition unixPathChar (c : ascii) : bool :=
  isAlnum c || Ascii.eqb c "/" || Ascii.eqb c "_" || Ascii.eqb c "." || Ascii.eqb c "-".

(** [[a-zA-Z0-9\\._-]] *)
Definition windowsPathChar (c : ascii) : bool :=
  isAlnum c || Ascii.eqb c "\" || Ascii.eqb c "." || Ascii.eqb c "_" || Ascii.eqb c "-".

(** [/\/[a-zA-Z0-9][a-zA-Z0-9\/_.-]*|[A-Z]:\\[a-zA-Z0-9\\._-]*/g] *)
Definition potentialPath : re :=
  ((lit "/" >> chr isAlnum >> star unixPathChar)
   <|> (chr isUpperAZ >> lit ":\" >> star windowsPathChar))%regex.

(** [[\w.-]] *)
Definition hostChar (c : ascii) : bool :=
  isWordChar c || Ascii.eqb c "." || Ascii.eqb c "-".

(** [new RegExp(`https?://[\\w.-]+${path.replace(/[.*+?^${}()|[\]\\]/g, '\\$&')}`)].
    The replacement puts a backslash before every character of [path] that
    is special in a pattern, so that the pattern built from the result
    matches [path] literally: the escaped path is the literal [path]. *)
Definition urlPattern (path : string) : re :=
  (lit "http" >> opt (lit "s") >> lit "://" >> plus hostChar >> lit path)%regex.

(** [[a-z0-9]] *)
Definition lowerAlnum (c : ascii) : bool := isLowerAZ c || isDigit c.

(** [/\/[a-z0-9]+\/[a-z0-9]+$/] *)
Definition twoLowerSegments : re :=
  (lit "/" >> plus lowerAlnum >> lit "/" >> plus lowerAlnum >> eol)%regex.

(** [/^[A-Z]:\\/] (the anchor is in [testAtStart]). *)
Definition driveLetter : re := (chr isUpperAZ >> lit ":\")%regex.

(** The body of the loop of [findHardcodedPaths] for one candidate: [true]
    when the candidate is pushed, [false] when one of the three [continue]s
    is taken or the last test fails. *)
Definition isHardcodedPath (content path : string) : bool :=
  (* Skip URLs (http://, https://, ftp://, etc.) *)
  if testAtStart (lit "//") path || includes content ("http:" ++ path)
     || includes content ("https:" ++ path) || includes content ("ftp:" ++ path)
  then false
  (* Skip URL paths that are clearly part of URLs *)
  else if (includes content "http://" || includes content "https://")
          && test (urlPattern path) content
  then false
  (* Skip common non-filesystem patterns *)
  else if startsWith path "/api/" || startsWith path "/v1/" || startsWith path "/v2/"
          || (includes path "/data/" && includes content "api")
          || (test twoLowerSegments path && includes content ".com")
          || (String.length path <? 4)%nat  (* Too short to be meaningful *)
  then false
  (* These look like real filesystem paths *)
  else
    startsWith path "/home/" || startsWith path "/Users/"
    || startsWith path "/usr/" || startsWith path "/opt/"
    || startsWith path "/etc/" || startsWith path "/var/"
    || startsWith path "/tmp/" || startsWith path "/bin/"
    || startsWith path "/sbin/" || testAtStart driveLetter path
    || includes path "/.".  (* Hidden files/dirs *)

(** The candidates are visited in the order of the text and the kept ones
    pushed in that order. *)
Definition findHardcodedPaths (content : string) : list string :=
  let potentialPaths := matchAll potentialPath content in
  filter (isHardcodedPath content) potentialPaths.

(** [/\.\//g] *)
Definition dotSlash : re := lit "./".

(** The statements of [scorePortability] before its [return]. *)
Definition portabilityChecks (skill : ParsedSkill.t) : Stmt.t :=
  let content := ParsedSkill.skillMdContent skill in
  let hardcodedPaths := findHardcodedPaths content in
  (
    (* Cross-platform (3 points) *)
    (let osSpecific := ["/home/"; "/Users/"; "C:\"; "cmd.exe"; ".exe"; "/usr/local"] in
     let hasOSSpecific := someIncluded content osSpecific in
     if negb hasOSSpecific then
       addScore 3 ;;
       push pass "No OS-specific paths or commands detected" 3
     else
       addScore 1 ;;
       push warning "Contains OS-specific elements" 1) ;;

    (* No hardcoded paths (2 points) - Fixed to exclude URL fragments *)
    (if (List.length hardcodedPaths =? 0)%nat then
       addScore 2 ;;
       push pass "No hardcoded absolute paths found" 2
     else
       push fail ("Hardcoded paths found: " ++ join ", " (slice0 3 hardcodedPaths)) 0) ;;

    (* Notes limitations (3 points) *)
    (let platformKeywords := ["platform"; "system"; "os"; "linux"; "mac"; "windows"; "require"] in
     let hasPlatformNotes := someIncluded (toLowerCase content) platformKeywords in
     if hasPlatformNotes then
       addScore 3 ;;
       push pass "Platform requirements or limitations noted" 3
     else
       push warning "Platform compatibility not discussed" 0) ;;

    (* Relative paths (2 points) *)
    (let relativePaths := matchAll dotSlash content in
     let hasRelativePaths := (0 <? List.length relativePaths)%nat in
     if hasRelativePaths || (List.length hardcodedPaths =? 0)%nat then
       addScore 2 ;;
       push pass "Uses relative paths appropriately" 2
     else
       push warning "Could benefit from using relative paths" 0)
  )%stmt.

Definition scorePortability (skill : ParsedSkill.t) : ScoreResult.t :=
  run (portabilityChecks skill).

(** *** The aggregator *)

Definition scoreCategory (skill : ParsedSkill.t) (category : ScoringCategory.t)
  : CategoryScore.t :=
  let id := ScoringCategory.id category in
  let r :=
    if String.eqb id "structure" then scoreStructure skill
    else if String.eqb id "clarity" then scoreClarity skill
    else if String.eqb id "safety" then scoreSafety skill
    else if String.eqb id "dependencies" then scoreDependencies skill
    else if String.eqb id "errorHandling" then scoreErrorHandling skill
    else if String.eqb id "scope" then scoreScope skill
    else if String.eqb id "documentation" then scoreDocumentation skill
    else if String.eqb id "portability" then scorePortability skill
    else ScoreResult.mk 0 [] in
  let score := ScoreResult.score r in
  let findings := ScoreResult.findings r in
  let percentage := ((score / ScoringCategory.maxScore category) * 100)%Q in
  let weightedScore := (score * ScoringCategory.weight category)%Q in
  CategoryScore.mk category score (ScoringCategory.maxScore category)
                   percentage findings weightedScore.

(** [scoreSkill] over a rubric table [table] and with the clock reading
    [now] that [new Date()] returns. *)
Definition scoreSkillWith (table : list ScoringCategory.t)
  (skill : ParsedSkill.t) (now : Date) : SkillScore.t :=
  let categoryScores := map (fun category => scoreCategory skill category) table in
  let totalWeightedScore :=
    fold_left (fun sum cat => (sum + CategoryScore.weightedScore cat)%Q) categoryScores 0%Q in
  let percentage := ((totalWeightedScore / 10) * 100)%Q in
  SkillScore.mk skill categoryScores totalWeightedScore 10 percentage
                (getLetterGrade percentage) now.

Definition scoreSkill (skill : ParsedSkill.t) (now : Date) : SkillScore.t :=
  scoreSkillWith SCORING_CATEGORIES skill now.


End Scorer.

(** ** More built-ins: strings, arrays and [Math.round]

    What the parser, the command line and the reporters call besides the
    built-ins above. *)

Module JsBuiltins.
Import JsString.

(** [s.endsWith(p)]. *)
Fixpoint endsWith (s p : string) : bool :=
  String.eqb s p
  || match s with
     | EmptyString => false
     | String _ r => endsWith r p
     end.

(** [s.trim()]: the white space and line terminators of both ends removed;
    on the Latin-1 range they are the characters of [\s]. *)
Fixpoint trimStart (s : string) : string :=
  match s with
  | String c r => if isSpace c then trimStart r else s
  | EmptyString => EmptyString
  end.

Fixpoint trimEnd (s : string) : string :=
  match s with
  | EmptyString => EmptyString
  | String c r =>
      match trimEnd r with
      | EmptyString => if isSpace c then EmptyString else String c EmptyString
      | r' => String c r'
      end
  end.

Definition trim (s : string) : string := trimEnd (trimStart s).

(** A string that has code units beyond Latin-1, such as the block glyphs
    of a progress bar, is the list of its code units. *)
Definition ustring : Type := list N.

(** [glyph.repeat(count)] for a string of one code unit and an integral
    count: a negative count throws a [RangeError], which is [None]. *)
Definition repeatGlyph (glyph : N) (count : Z) : option ustring :=
  if (count <? 0)%Z then None else Some (List.repeat glyph (Z.to_nat count)).

(** [a + b] on two such strings, either of which may have thrown. *)
Definition concatGlyphs (a b : option ustring) : option ustring :=
  match a, b with
  | Some x, Some y => Some (x ++ y)%list
  | _, _ => None
  end.

(** [Math.round(x)], as an integer. *)
Definition roundZ (x : Q) : Z := Qfloor (x + 0.5).

End JsBuiltins.

(** ** [path] of Node.js on POSIX: [basename], [dirname], [extname]

    The three functions of the standard library the parser and the command
    line call, after the documentation of Node.js: the last portion of a
    path is what follows its last slash, trailing slashes left aside. *)

Module Path.
Import JsString.

(** The pieces of the path between slashes that are not empty. *)
Definition portions (path : string) : list string :=
  filter (fun p => negb (String.eqb p "")) (splitChar "/" path).

(** [path.basename(p)]: the last portion, the empty string if there is
    none. *)
Definition basename (path : string) : string := last (portions path) "".

(** The path without its trailing slashes. *)
Fixpoint dropTrailingSlashes (path : string) : string :=
  match path with
  | EmptyString => EmptyString
  | String c r =>
      match dropTrailingSlashes r with
      | EmptyString => if Ascii.eqb c "/" then EmptyString else String c EmptyString
      | r' => String c r'
      end
  end.

(** What precedes the last slash of [path], if it has one. *)
Fixpoint beforeLastSlash (path : string) : option string :=
  match path with
  | EmptyString => None
  | String c r =>
      match beforeLastSlash r with
      | Some d => Some (String c d)
      | None => if Ascii.eqb c "/" then Some EmptyString else None
      end
  end.

(** [path.dirname(p)]: what precedes the slash before the last portion;
    ["."] for a path of one portion and no root, ["/"] for one under the
    root, and ["//"] when the slash found is the second character of a
    rooted path. *)
Definition dirname (path : string) : string :=
  match path with
  | EmptyString => "."
  | String c0 rest =>
      let hasRoot := Ascii.eqb c0 "/" in
      (* the search for the slash never looks at the first character *)
      match beforeLastSlash (dropTrailingSlashes rest) with
      | None => if hasRoot then "/" else "."
      | Some d =>
          if hasRoot && String.eqb d "" then "//" else String c0 d
      end
  end.

(** The part of [s] from its last dot on, if it has a dot. *)
Fixpoint fromLastDot (s : string) : option string :=
  match s with
  | EmptyString => None
  | String c r =>
      match fromLastDot r with
      | Some e => Some e
      | None => if Ascii.eqb c "." then Some s else None
      end
  end.

(** [path.extname(p)]: the last portion from its last dot on; the empty
    string when the portion has no dot, when its only dot is its first
    character, and for the portion [..]. *)
Definition extname (path : string) : string :=
  let part := basename path in
  match fromLastDot part with
  | None => ""
  | Some e =>
      if String.eqb e part then ""            (* the last dot starts the portion *)
      else if String.eqb part ".." then ""
      else e
  end.

End Path.

(** ** Regular expressions with one capture group

    The patterns of the parser have one group each, and the parser reads
    nothing of a match but the text of the group, or what follows the
    match.  With the matcher above, whose result is the text of the
    characters it has recorded, the group is written with the recording
    combinators [chr], [star], ... and what is outside the group with the
    ones below, which match the same way and record nothing.  The last
    continuation says what is returned at the end of the match. *)

Module RegexGroup.
Import JsString Regex.

(** One character of a class, not recorded. *)
Definition skipChr (P : ascii -> bool) : re := fun k p =>
  match snd p with
  | String c r => if P c then k (Some c, r) else None
  | EmptyString => None
  end.

(** A literal string, not recorded. *)
Fixpoint skipLit (s : string) : re :=
  match s with
  | EmptyString => eps
  | String c r => seq (skipChr (isChar c)) (skipLit r)
  end.

(** [[class]*] (greedy), not recorded. *)
Fixpoint skipStarFrom (P : ascii -> bool) (k : cont) (prev : option ascii) (s : string)
  : option string :=
  match s with
  | String c r =>
      if P c then orElse (skipStarFrom P k (Some c) r) (k (prev, s))
      else k (prev, s)
  | EmptyString => k (prev, s)
  end.

Definition skipStar (P : ascii -> bool) : re := fun k p => skipStarFrom P k (fst p) (snd p).

(** The line terminators of the Latin-1 range: LF and CR. *)
Definition isLineTerminator (c : ascii) : bool :=
  (code c =? 10)%N || (code c =? 13)%N.

(** [.] without the [s] flag: any character but a line terminator. *)
Definition dot (c : ascii) : bool := negb (isLineTerminator c).

(** [[^\n]] *)
Definition notLineFeed (c : ascii) : bool := negb (code c =? 10)%N.

(** [^] and [$] under the [m] flag: at either end of the input, and after,
    respectively before, a line terminator. *)
Definition bolM : re := fun k p =>
  match fst p with
  | None => k p
  | Some c => if isLineTerminator c then k p else None
  end.

Definition eolM : re := fun k p =>
  match snd p with
  | EmptyString => k p
  | String c _ => if isLineTerminator c then k p else None
  end.

(** [(.+?)] under the [s] flag, recorded. *)
Definition lazyPlusAny : re := seq (chr anyChar) (lazyStar anyChar).

(** The end of a match of [s.match(regex)]: the recorded text is the
    group. *)
Definition group : cont := fun _ => Some EmptyString.

(** The end of a match of [s.replace(regex, '')] for a pattern that can
    only match at index 0 and records nothing: what follows the match is
    the result. *)
Definition remainder : cont := fun p => Some (snd p).

(** [s.match(regex)[1]] for a pattern without the [g] flag: the group of
    the first match, searched from index 0 on. *)
Fixpoint groupFrom (r : re) (prev : option ascii) (s : string) : option string :=
  match r group (prev, s) with
  | Some g => Some g
  | None =>
      match s with
      | String c rest => groupFrom r (Some c) rest
      | EmptyString => None
      end
  end.

Definition matchGroup (r : re) (s : string) : option string := groupFrom r None s.

(** The same for a pattern that starts with [^] and has no [m] flag: the
    match starts at index 0. *)
Definition matchGroupAtStart (r : re) (s : string) : option string := r group (None, s).

(** [s.replace(/\n/g, ' ')]. *)
Fixpoint replaceLineFeeds (s : string) : string :=
  match s with
  | EmptyString => EmptyString
  | String c r => String (if (code c =? 10)%N then " "%char else c) (replaceLineFeeds r)
  end.

End RegexGroup.

(** ** [src/parsers/skillParser.ts] *)

Module SkillParser.
Import JsString JsBuiltins.

(** [fileTypes[ext] = (fileTypes[ext] || 0) + 1], the object being the list
    of its entries in the order they were created. *)
Fixpoint countExt (ext : string) (fileTypes : list (string * nat)) : list (string * nat) :=
  match fileTypes with
  | [] => [(ext, 1%nat)]
  | (k, n) :: rest =>
      if String.eqb k ext then (k, S n) :: rest
      else (k, n) :: countExt ext rest
  end.

(** [directories.add(firstDir)], the set being the list of its elements in
    the order they were added. *)
Definition addDirectory (firstDir : string) (directories : list string) : list string :=
  if arrayIncludes directories firstDir then directories
  else directories ++ [firstDir].

(** The body of the loop of [analyzeStructure] for one file, on the pair of
    [fileTypes] and [directories]. *)
Definition analyzeFile (st : list (string * nat) * list string) (file : string)
  : list (string * nat) * list string :=
  let '(fileTypes, directories) := st in
  let ext := toLowerCase (Path.extname file) in
  let fileTypes := countExt ext fileTypes in
  let dir := Path.dirname file in
  let directories :=
    if negb (String.eqb dir ".") then
      let firstDir := hd "" (splitChar "/" dir) in
      if Scorer.truthy firstDir then addDirectory firstDir directories
      else directories
    else directories in
  (fileTypes, directories).

Definition analyzeStructure (files : list string) : FileStructure.t :=
  let '(fileTypes, directories) := fold_left analyzeFile files ([], []) in
  FileStructure.mk
    (arrayIncludes files "SKILL.md")
    (existsb (fun f => startsWith (toLowerCase f) "readme") files)
    (arrayIncludes files "package.json")
    (existsb (fun f => endsWith f ".py" || endsWith f ".js" || endsWith f ".sh") files)
    (List.length files)
    directories
    fileTypes.

(** *** Name and description *)

Import Regex RegexGroup.

(** The line feed, as a one-character string. *)
Definition LF : string := String "010"%char EmptyString.

(** [frontmatter.key] for the parsed front matter as the list of its
    entries: [undefined], which is [None], when there is no such key. *)
Definition field (frontmatter : list (string * string)) (key : string) : option string :=
  match find (fun entry => String.eqb (fst entry) key) frontmatter with
  | Some entry => Some (snd entry)
  | None => None
  end.

(** An optional string used as a condition: [undefined] and the empty
    string are falsy. *)
Definition present (v : option string) : bool :=
  match v with
  | Some s => Scorer.truthy s
  | None => false
  end.

(** [/^---\n(.*?)\n---/s] *)
Definition frontmatterBlock : re :=
  (skipLit "---" >> skipLit LF >> lazyStar anyChar >> skipLit LF >> skipLit "---")%regex.

Section ParseFrontmatter.

(** [yaml.parse(text) || {}] inside its [try]: the entries of the mapping
    the text denotes; no entry when the parser throws or returns something
    falsy. *)
Variable yamlParse : string -> list (string * string).

Definition parseFrontmatter (content : string) : list (string * string) :=
  if negb (Scorer.truthy content) then []
  else
    match matchGroupAtStart frontmatterBlock content with
    | Some g => if Scorer.truthy g then yamlParse g else []
    | None => []
    end.

End ParseFrontmatter.

(** [/^# (.+)$/m] *)
Definition headingLine : re := (bolM >> skipLit "# " >> plus dot >> eolM)%regex.

(** [/^name:\s*(.+)$/m] *)
Definition nameLine : re :=
  (bolM >> skipLit "name:" >> skipStar isSpace >> plus dot >> eolM)%regex.

Definition extractName (content skillPath : string) (frontmatter : list (string * string))
  : string :=
  if negb (Scorer.truthy content) then Path.basename skillPath
  else
    let headingMatch := matchGroup headingLine content in
    if present headingMatch then trim (match headingMatch with Some g => g | None => "" end)
    else if present (field frontmatter "name")
    then match field frontmatter "name" with Some v => v | None => "" end
    else
      let nameMatch := matchGroup nameLine content in
      if present nameMatch then trim (match nameMatch with Some g => g | None => "" end)
      else Path.basename skillPath.

(** [/^description:\s*(.+)$/m] *)
Definition descriptionLine : re :=
  (bolM >> skipLit "description:" >> skipStar isSpace >> plus dot >> eolM)%regex.

(** [/^#[^\n]*\n\s*\n/] *)
Definition headingAndBlank : re :=
  (skipLit "#" >> skipStar notLineFeed >> skipLit LF >> skipStar isSpace >> skipLit LF)%regex.

(** [/^(.+?)(?:\n\s*\n|\n#|$)/s] *)
Definition firstParagraph : re :=
  (lazyPlusAny
     >> ((skipLit LF >> skipStar isSpace >> skipLit LF)
         <|> (skipLit LF >> skipLit "#")
         <|> eol))%regex.

Definition extractDescription (content : string) (frontmatter : list (string * string))
  : string :=
  if negb (Scorer.truthy content) then ""
  else if present (field frontmatter "description")
  then match field frontmatter "description" with Some v => v | None => "" end
  else
    let descMatch := matchGroup descriptionLine content in
    if present descMatch then trim (match descMatch with Some g => g | None => "" end)
    else
      let afterHeading :=
        match headingAndBlank remainder (None, content) with
        | Some rest => rest
        | None => content
        end in
      let paragraphMatch := matchGroupAtStart firstParagraph afterHeading in
      if present paragraphMatch
      then replaceLineFeeds (trim (match paragraphMatch with Some g => g | None => "" end))
      else "".

Section ParseSkill.

Variable yamlParse : string -> list (string * string).

(** [parseSkill] after its reads of the file system, whose results are the
    arguments: the resolved path, whether [SKILL.md] exists, its content
    (the empty string when it does not exist) and the files [glob]
    lists. *)
Definition parseSkill (absolutePath : string) (skillMdExists : bool)
    (skillMdContent : string) (files : list string) : ParsedSkill.t :=
  let structure := analyzeStructure files in
  let frontmatter := parseFrontmatter yamlParse skillMdContent in
  ParsedSkill.mk absolutePath skillMdExists skillMdContent
    (extractName skillMdContent absolutePath frontmatter)
    (extractDescription skillMdContent frontmatter)
    files frontmatter structure.

End ParseSkill.

End SkillParser.

(** ** [src/cli.ts]: GitHub addresses and the batch summary *)

Module Cli.
Import JsString JsBuiltins Regex.

(** [[a-zA-Z0-9_.-]] *)
Definition shorthandChar (c : ascii) : bool :=
  isAlnum c || Ascii.eqb c "_" || Ascii.eqb c "." || Ascii.eqb c "-".

(** [/^[a-zA-Z0-9_.-]+\/[a-zA-Z0-9_.-]+/] (the anchor is in [testAtStart]). *)
Definition shorthandPattern : re :=
  (plus shorthandChar >> lit "/" >> plus shorthandChar)%regex.

Definition isGitHubUrl (input : string) (githubFlag : bool) : bool :=
  (* Full GitHub URLs - always recognized *)
  if startsWith input "https://github.com/" || startsWith input "http://github.com/"
  then true
  (* Shorthand format (user/repo/path) only when --github flag is set *)
  else if negb githubFlag then false
  (* Don't treat local/relative paths as GitHub URLs even with --github *)
  else if startsWith input "./" || startsWith input "../" || startsWith input "/"
          || includes input "\"
  then false
  (* Shorthand format: user/repo or user/repo/path *)
  else testAtStart shorthandPattern input.

(** The value [parseGitHubUrl] throws. *)
Inductive exn : Type :=
| Error (message : string).

(** The object [parseGitHubUrl] returns; [subPath] is [undefined] or a
    string. *)
Module GitHubRepo.
Record t : Type := mk {
  repoUrl : string;
  subPath : option string
}.
End GitHubRepo.

Section ParseGitHubUrl.

(** [new URL(input).pathname], for an input that starts with
    [https://github.com/] or [http://github.com/]. *)
Variable pathnameOf : string -> string.

Definition parseGitHubUrl (input : string) : exn + GitHubRepo.t :=
  if startsWith input "https://github.com/" || startsWith input "http://github.com/" then
    (* Full URL format *)
    let pathParts := filter Scorer.truthy (splitChar "/" (pathnameOf input)) in
    if (List.length pathParts <? 2)%nat then
      inl (Error "Invalid GitHub URL: missing user/repo")
    else
      let user := nth 0 pathParts "" in
      let repo := nth 1 pathParts "" in
      let repoUrl := "https://github.com/" ++ user ++ "/" ++ repo ++ ".git" in
      (* Check for tree/branch/subpath *)
      let subPath :=
        if (2 <? List.length pathParts)%nat && String.eqb (nth 2 pathParts "") "tree" then
          (* Format: github.com/user/repo/tree/branch/path/to/skill *)
          if (4 <? List.length pathParts)%nat then Some (join "/" (skipn 4 pathParts))
          else None
        else None in
      inr (GitHubRepo.mk repoUrl subPath)
  else
    (* Shorthand format: user/repo or user/repo/path *)
    match splitChar "/" input with
    | user :: repo :: pathParts =>
        let repoUrl := "https://github.com/" ++ user ++ "/" ++ repo ++ ".git" in
        let subPath :=
          if (0 <? List.length pathParts)%nat then Some (join "/" pathParts) else None in
        inr (GitHubRepo.mk repoUrl subPath)
    | _ =>
        (* parts.length < 2 *)
        inl (Error "Invalid shorthand format: expected user/repo or user/repo/path")
    end.

End ParseGitHubUrl.

(** *** Batch mode *)

(** An entry of [results]: [{ path, score }] or [{ path, error }]. *)
Module BatchResult.
Record t : Type := mk {
  path : string;
  score : option SkillScore.t;
  error : option string
}.
End BatchResult.

Section ExecuteBatchScore.

(** [resolveSkillPath] followed by [parseSkill], which read the file
    system and may clone a repository: the parsed skill, or the message of
    what was thrown. *)
Variable resolveAndParse : string -> string + ParsedSkill.t.

(** The clock reading [new Date()] returns while a path is scored. *)
Variable clock : string -> Date.

(** The array [results] at the end of the loop of [executeBatchScore]. *)
Definition executeBatchScore (skillPaths : list string) : list BatchResult.t :=
  flat_map
    (fun skillPath =>
       if negb (Scorer.truthy skillPath) then
         (* Invalid skill path: continue *)
         []
       else
         match resolveAndParse skillPath with
         | inr skill =>
             [BatchResult.mk skillPath
                (Some (Scorer.scoreSkill skill (clock skillPath))) None]
         | inl message =>
             [BatchResult.mk skillPath None (Some message)]
         end)
    skillPaths.

End ExecuteBatchScore.

(** [r.score] and [r.error] used as conditions. *)
Definition hasScore (r : BatchResult.t) : bool :=
  match BatchResult.score r with Some _ => true | None => false end.

Definition hasError (r : BatchResult.t) : bool :=
  match BatchResult.error r with Some message => Scorer.truthy message | None => false end.

(** The summary stats of [printComparisonTable]. *)
Definition successful (results : list BatchResult.t) : nat :=
  List.length (filter hasScore results).

Definition failed (results : list BatchResult.t) : nat :=
  List.length (filter hasError results).

Definition avgScore (results : list BatchResult.t) : Q :=
  let scoresWithData := filter hasScore results in
  if (0 <? List.length scoresWithData)%nat then
    (fold_left
       (fun sum r =>
          sum + match BatchResult.score r with
                | Some score => SkillScore.percentage score
                | None => 0
                end)
       scoresWithData 0
     / inject_Z (Z.of_nat (List.length scoresWithData)))%Q
  else 0%Q.

End Cli.

(** ** [src/rubric.ts]: the criteria of the categories *)

Module Criterion.
Record t : Type := mk {
  description : string;
  points : Q;
  checks : list string
}.
End Criterion.

Module RubricCriteria.











End RubricCriteria.

(** ** [src/reporters/terminalReporter.ts]: colours, progress bars and
    what a category block lists *)

Module Chalk.
(** A style of [chalk]: a colour, or a style made bold ([chalk.green.bold]
    is [bold green]).  A styled text is the pair of the style and the
    text. *)
Inductive t : Type :=
| green | yellow | red | blue | magenta | gray
| bold (style : t).
End Chalk.

Module TerminalReporter.
Import JsString JsBuiltins Rubric.

Definition getScoreColor (percentage : Q) : Chalk.t :=
  if ge percentage 80 then Chalk.green
  else if ge percentage 60 then Chalk.yellow
  else Chalk.red.

Definition getGradeColor (grade : string) : Chalk.t :=
  if startsWith grade "A" then Chalk.bold Chalk.green
  else if startsWith grade "B" then Chalk.bold Chalk.blue
  else if startsWith grade "C" then Chalk.bold Chalk.yellow
  else if startsWith grade "D" then Chalk.bold Chalk.magenta
  else Chalk.bold Chalk.red.

(** The code units of the two glyphs of a bar: U+2588 FULL BLOCK and U+2591
    LIGHT SHADE. *)
Definition fullBlock : N := 9608.
Definition lightShade : N := 9617.

(** [createProgressBar(percentage, width)]; [None] when one of the two
    [repeat]s throws. *)
Definition createProgressBar (percentage : Q) (width : Z) : option (Chalk.t * ustring) :=
  let filled := roundZ ((percentage / 100) * inject_Z width) in
  let empty := (width - filled)%Z in
  match concatGlyphs (repeatGlyph fullBlock filled) (repeatGlyph lightShade empty) with
  | None => None
  | Some bar =>
      Some (if ge percentage 80 then (Chalk.green, bar)
            else if ge percentage 60 then (Chalk.yellow, bar)
            else (Chalk.red, bar))
  end.

(** The default of the parameter [width]. *)
Definition defaultWidth : Z := 20.

(** [f.type === 'fail' || (f.type === 'pass' && f.points > 0)] *)
Definition isImportant (f : Finding.t) : bool :=
  match Finding.type f with
  | Finding.fail => true
  | Finding.pass => gt (Finding.points f) 0
  | _ => false
  end.

(** The local [findingsToShow] of [formatCategory]. *)
Definition findingsToShow (verbose : bool) (findings : list Finding.t) : list Finding.t :=
  if verbose then
    (* Show all findings in verbose mode *)
    findings
  else
    (* Show only important findings, truncated *)
    slice0 3 (filter isImportant findings).

(** The local [remaining] of [formatCategory], when the line that prints it
    is pushed: not in verbose mode, and when there are more findings than
    are shown. *)
Definition remaining (verbose : bool) (findings : list Finding.t) : option nat :=
  let shown := findingsToShow verbose findings in
  if negb verbose && (List.length shown <? List.length findings)%nat
  then Some (List.length findings - List.length shown)%nat
  else None.

End TerminalReporter.

(** ** [src/reporters/jsonReporter.ts] *)

Module JsonReport.

Module Overall.
Record t : Type := mk {
  percentage : Q;
  letterGrade : string;
  totalScore : Q;
  maxScore : Q
}.
End Overall.

Module Category.
Record t : Type := mk {
  id : string;
  name : string;
  description : string;
  weight : Q;
  score : Q;
  maxScore : Q;
  percentage : Q;
  weightedScore : Q;
  findings : list Finding.t
}.
End Category.

Module Metadata.
(** [timestamp] is the ISO text of the date; the date is kept. *)
Record t : Type := mk {
  timestamp : Date;
  version : string;
  fileCount : nat;
  hasSkillMd : bool
}.
End Metadata.

Record t : Type := mk {
  skillName : string;
  skillPath : string;
  description : string;
  overallScore : Overall.t;
  categories : list Category.t;
  metadata : Metadata.t
}.

End JsonReport.

Module JsonReporter.



End JsonReporter.

(** * Vocabulary of the properties

    The notions the properties below are stated with: sums of points,
    checklists of sub-checks, the documents of the scenarios, what a text
    mentions, and what a match is made of. *)

Import JsString Regex Rubric Scorer.

Open Scope Q_scope.

(** ** Grades *)

(** The band a percentage lies in, by the inclusive lower bounds of the
    table, with the grade [getLetterGrade] returns there. *)
Definition inBand (p : Q) : Prop :=
  (97 <= p /\ getLetterGrade p = "A+")
  \/ (93 <= p < 97 /\ getLetterGrade p = "A")
  \/ (90 <= p < 93 /\ getLetterGrade p = "A-")
  \/ (87 <= p < 90 /\ getLetterGrade p = "B+")
  \/ (83 <= p < 87 /\ getLetterGrade p = "B")
  \/ (80 <= p < 83 /\ getLetterGrade p = "B-")
  \/ (77 <= p < 80 /\ getLetterGrade p = "C+")
  \/ (73 <= p < 77 /\ getLetterGrade p = "C")
  \/ (70 <= p < 73 /\ getLetterGrade p = "C-")
  \/ (67 <= p < 70 /\ getLetterGrade p = "D+")
  \/ (65 <= p < 67 /\ getLetterGrade p = "D")
  \/ (60 <= p < 65 /\ getLetterGrade p = "D-")
  \/ (p < 60 /\ getLetterGrade p = "F").

(** ** Checklists of sub-checks *)

(** The sum of the [points] fields of a list of findings. *)
Definition sumPoints (fs : list Finding.t) : Q :=
  fold_right (fun f acc => Finding.points f + acc) 0 fs.

(** The sum of a list of numbers. *)
Definition sumQ (l : list Q) : Q := fold_right Qplus 0 l.

(** The points of a finding lie between the two bounds. *)
Definition within (b : Q * Q) (f : Finding.t) : Prop :=
  fst b <= Finding.points f <= snd b.

(** A statement that pushes one finding and adds its points, which lie
    between [lo] and [hi], to the score. *)
Definition awardsOne (lo hi : Q) (s : Stmt.t) : Prop :=
  forall st, exists f,
    ScoreResult.findings (s st) = (ScoreResult.findings st ++ [f])%list
    /\ ScoreResult.score (s st) == ScoreResult.score st + Finding.points f
    /\ lo <= Finding.points f <= hi.

(** A sequence of such statements, with the bounds of each in order. *)
Definition awardsList (bs : list (Q * Q)) (s : Stmt.t) : Prop :=
  forall st, exists fs,
    ScoreResult.findings (s st) = (ScoreResult.findings st ++ fs)%list
    /\ ScoreResult.score (s st) == ScoreResult.score st + sumPoints fs
    /\ Forall2 within bs fs.

(** What a scorer returns: one finding per sub-check within its bounds, and
    a score that is the sum of the points of the findings. *)
Definition checklist (bs : list (Q * Q)) (r : ScoreResult.t) : Prop :=
  Forall2 within bs (ScoreResult.findings r)
  /\ ScoreResult.score r == sumPoints (ScoreResult.findings r).

(** For each scorer, the least and the most points each of its sub-checks
    gives, in the order of the sub-checks. *)
Definition structureBounds : list (Q * Q) :=
  [(0, 3); (0, 2); (0, 2); (0, 1); (0, 1); (0, 1)].

Definition clarityBounds : list (Q * Q) := [(0, 3); (1, 3); (1, 2); (0, 2)].

Definition safetyBounds : list (Q * Q) := [(0, 3); (1, 3); (0, 1); (0, 1); (0, 2)].

Definition dependenciesBounds : list (Q * Q) := [(0, 3); (0, 2); (0, 3); (0, 2)].

Definition errorHandlingBounds : list (Q * Q) := [(0, 3); (0, 3); (0, 2); (0, 2)].

Definition scopeBounds : list (Q * Q) := [(0, 2); (0, 2); (1, 2); (0, 2); (0, 1); (0, 1)].

Definition documentationBounds : list (Q * Q) := [(0, 3); (0, 2); (0, 2); (0, 1); (0, 2)].

Definition portabilityBounds : list (Q * Q) := [(1, 3); (0, 2); (0, 3); (0, 2)].

(** The rubric as a table of checklists, in the order of
    [SCORING_CATEGORIES]: the [id] of the category, the statements of its
    scorer, and the bounds of its sub-checks. *)
Definition rubricChecks : list (string * (ParsedSkill.t -> Stmt.t) * list (Q * Q)) :=
  [ ("structure", structureChecks, structureBounds);
    ("clarity", clarityChecks, clarityBounds);
    ("safety", safetyChecks, safetyBounds);
    ("dependencies", dependenciesChecks, dependenciesBounds);
    ("errorHandling", errorHandlingChecks, errorHandlingBounds);
    ("scope", scopeChecks, scopeBounds);
    ("documentation", documentationChecks, documentationBounds);
    ("portability", portabilityChecks, portabilityBounds) ].

(** The [CategoryScore] that [scoreCategory] builds from what a scorer
    returned. *)
Definition categoryScoreOf (category : ScoringCategory.t) (r : ScoreResult.t)
  : CategoryScore.t :=
  CategoryScore.mk category (ScoreResult.score r) (ScoringCategory.maxScore category)
    ((ScoreResult.score r / ScoringCategory.maxScore category) * 100)
    (ScoreResult.findings r)
    (ScoreResult.score r * ScoringCategory.weight category).

(** What every row of [rubricChecks] gives for every skill. *)
Definition rowHolds (skill : ParsedSkill.t)
  (row : string * (ParsedSkill.t -> Stmt.t) * list (Q * Q)) : Prop :=
  let '(_, body, bounds) := row in
  sumQ (map snd bounds) == 10
  /\ 0 <= sumQ (map fst bounds)
  /\ checklist bounds (Stmt.run (body skill))
  /\ ScoreResult.score (Stmt.run (body skill)) = ScoreResult.score (body skill Stmt.start).

(** ** Category scores and their total *)

(** The sum over the categories of score times weight. *)
Definition weightedSum (cs : list CategoryScore.t) : Q :=
  sumQ (map (fun c => CategoryScore.score c * ScoringCategory.weight (CategoryScore.category c)) cs).

(** A category score as the specification describes it: a raw score between
    0 and 10 with the percentage and the weighted score computed from it. *)
Definition wellFormedCategory (c : CategoryScore.t) : Prop :=
  0 <= CategoryScore.score c <= 10
  /\ CategoryScore.maxScore c == 10
  /\ CategoryScore.percentage c == CategoryScore.score c / CategoryScore.maxScore c * 100
  /\ CategoryScore.weightedScore c
     == CategoryScore.score c * ScoringCategory.weight (CategoryScore.category c)
  /\ 0 <= ScoringCategory.weight (CategoryScore.category c).

(** What a returned category score has to do with the row of its category
    in [rubricChecks]: the maxima of the sub-checks total 10; the findings
    are one per sub-check, each within its bounds; the score is the sum of
    their points; and the score and the findings are those of the locals
    before [Math.min(score, 10)] was applied. *)
Definition scoredByRow (skill : ParsedSkill.t)
  (row : string * (ParsedSkill.t -> Stmt.t) * list (Q * Q)) (c : CategoryScore.t) : Prop :=
  let '(id, body, bounds) := row in
  ScoringCategory.id (CategoryScore.category c) = id
  /\ sumQ (map snd bounds) == 10
  /\ Forall2 within bounds (CategoryScore.findings c)
  /\ CategoryScore.score c == sumPoints (CategoryScore.findings c)
  /\ CategoryScore.score c = ScoreResult.score (body skill Stmt.start)
  /\ CategoryScore.findings c = ScoreResult.findings (body skill Stmt.start).

(** ** Documents and what they mention *)




(** The text mentions a token, letter case apart. *)
Definition mentions (text token : string) : bool := includes (toLowerCase text) token.

(** A destructive command token. *)
Definition hasDestructiveToken (text : string) : bool :=
  existsb (mentions text) ["rm -rf"; "rm -f"; "del /f"; "format"; "fdisk"; "dd if="].

(** Confirmation language. *)
Definition hasConfirmationLanguage (text : string) : bool :=
  existsb (mentions text) ["confirm"; "ask"; "prompt"].


(** The three tiers of the destructive-operation sub-check: full credit
    without a destructive token, partial credit with one and confirmation
    language, none with one and no confirmation language. *)
Definition destructiveTier (text : string) : Q :=
  if hasDestructiveToken text then
    if hasConfirmationLanguage text then 2 else 0
  else 3.

(** The points a sub-check adds. *)
Definition pointsOf (s : Stmt.t) : Q := ScoreResult.score (s Stmt.start).


(** The text of a documented clean-up skill that runs [rm -rf /* ]. *)
Definition cleanupText : string :=
"# Cleanup Tool

Use when the build output must be removed. Not for source files.

## Steps

1. First check the install: `rm -rf /* ` is run when required.
2. Note the error limit, then debug. Success is the expected output example.

```sh
echo $HOME
```

```sh
echo template
```
".

(** The clean-up skill as the parser hands it over: the name is the heading
    of the text, the description its first paragraph. *)
Definition cleanupSkill : ParsedSkill.t :=
  ParsedSkill.mk "/skills/cleanup" true cleanupText "Cleanup Tool"
    "Use when the build output must be removed. Not for source files."
    ["SKILL.md"] []
    (FileStructure.mk true false false false 1 [] [(".md", 1%nat)]).

(** ** Texts and matches *)

(** Some proper, non-empty end of [p] starts [t]: an occurrence of [p] could
    begin before [t] and end inside it. *)
Fixpoint straddles (p t : string) : bool :=
  match p with
  | EmptyString => false
  | String _ p' => (negb (String.eqb p' "") && prefix p' t) || straddles p' t
  end.

(** [p] can neither occur in [t] nor run into it from the left. *)
Definition freshIn (t p : string) : bool :=
  negb (includes t p) && negb (straddles p t) && negb (String.eqb p "").

(** A statement that adds the same points whatever the locals are. *)
Definition framed (s : Stmt.t) : Prop :=
  forall st, ScoreResult.score (s st) == ScoreResult.score st + pointsOf s.

(** The points of the four Safety sub-checks other than the
    destructive-operation one. *)
Definition otherSafetyPoints (text : string) : Q :=
  let content := toLowerCase text in
  pointsOf (secretCheck content) + pointsOf (loopCheck content)
  + pointsOf (networkCheck content) + pointsOf (permissionCheck content).

(** A skill directory that holds one [SKILL.md] with the given text; the
    scorers of Safety, Error Handling and Portability read nothing but the
    text. *)
Definition documentOf (text : string) : ParsedSkill.t :=
  ParsedSkill.mk "/skills/doc" true text "doc" "" ["SKILL.md"] []
    (FileStructure.mk true false false false 1 [] [(".md", 1%nat)]).

(** Every character of [m] is in the class [A]. *)
Fixpoint allChars (A : ascii -> bool) (m : string) : bool :=
  match m with
  | EmptyString => true
  | String c r => A c && allChars A r
  end.

(** Whenever [r] succeeds, it has consumed a text [m] of characters of [A]
    at the front of the input and its continuation has succeeded on what
    follows; the result is [m] followed by the result of the continuation. *)
Definition consumesOnly (A : ascii -> bool) (r : re) : Prop :=
  forall (k : cont) (prev : option ascii) (s res : string),
    r k (prev, s) = Some res ->
    exists m s' prev' res',
      s = (m ++ s')%string /\ allChars A m = true
      /\ k (prev', s') = Some res' /\ res = (m ++ res')%string.

(** The characters a candidate path can be made of. *)
Definition pathAlphabet (c : ascii) : bool :=
  unixPathChar c || windowsPathChar c || Ascii.eqb c ":".

(** ** The weights and the totals as binary64 numbers *)

Module Binary64.
Import Floats.

#[local] Set Warnings "-inexact-float".

(** The [weight] fields of [SCORING_CATEGORIES], as the literals of the
    source are read. *)
Definition weights : list float :=
  [0.15; 0.20; 0.20; 0.10; 0.10; 0.10; 0.10; 0.05]%float.

(** [SCORING_CATEGORIES.reduce((sum, cat) => sum + cat.weight, 0)] *)
Definition totalWeight : float :=
  fold_left (fun sum weight => (sum + weight)%float) weights 0%float.

(** [Math.abs(totalWeight - 1.0) > 0.001] *)
Definition weightCheckFails : bool :=
  PrimFloat.ltb 0.001%float (PrimFloat.abs (totalWeight - 1.0)%float).

(** The total of eight category scores of 10:
    [reduce((sum, cat) => sum + cat.weightedScore, 0)] with
    [weightedScore = 10 * weight]. *)
Definition totalOfFullScores : float :=
  fold_left (fun sum weight => (sum + 10 * weight)%float) weights 0%float.

(** [(totalWeightedScore / 10) * 100] *)
Definition percentageOf (total : float) : float := ((total / 10) * 100)%float.

Definition one : float := 1%float.
Definition ten : float := 10%float.
Definition hundred : float := 100%float.

End Binary64.

(** ** Floors, full marks and tables other than the rubric *)


(** The text of a skill that gets every point of every sub-check. *)
Definition perfectText : string :=
"# Build Helper

Use when the build output must be listed. Not for source files.

## Steps

1. First check the install: `make list` is run when required.
2. Note the error limit, then debug or retry. Success is the expected output example.

```sh
echo $HOME
```

```sh
echo template
```
".

(** That skill as the parser hands it over: the name is the heading of the
    text, the description its first paragraph. *)
Definition perfectSkill : ParsedSkill.t :=
  ParsedSkill.mk "/skills/build-helper" true perfectText "Build Helper"
    "Use when the build output must be listed. Not for source files."
    ["SKILL.md"] []
    (FileStructure.mk true false false false 1 [] [(".md", 1%nat)]).

(** The skill with another text in its [SKILL.md]. *)
Definition withContent (skill : ParsedSkill.t) (text : string) : ParsedSkill.t :=
  ParsedSkill.mk (ParsedSkill.skillPath skill) (ParsedSkill.skillMdExists skill) text
    (ParsedSkill.name skill) (ParsedSkill.description skill) (ParsedSkill.files skill)
    (ParsedSkill.metadata skill) (ParsedSkill.structure skill).

(** ** The criteria of the rubric *)




(** No character of the text is a slash or a backslash. *)
Definition noSeparator (text : string) : bool :=
  allChars (fun c => negb (Ascii.eqb c "/") && negb (Ascii.eqb c "\")) text.

(** ** Numbers with one binary digit after the point *)

(** Twice the number is an integer. *)
Definition halfIntegral (q : Q) : Prop := exists z : Z, q == z # 2.

(** Every finding carries a half-integral number of points. *)
Definition halfPoints (fs : list Finding.t) : Prop :=
  Forall (fun f => halfIntegral (Finding.points f)) fs.

(** A statement that keeps the findings so. *)
Definition keepsHalves (s : Stmt.t) : Prop :=
  forall st, halfPoints (ScoreResult.findings st) -> halfPoints (ScoreResult.findings (s st)).

(** A bar of [filled] full blocks followed by light shades up to [width]
    cells. *)
Definition barOf (filled width : nat) : JsBuiltins.ustring :=
  (List.repeat TerminalReporter.fullBlock filled
   ++ List.repeat TerminalReporter.lightShade (width - filled))%list.

(** ** The JSON report beside the score it prints *)


(** The score of a category as [scoreSkill] returns it: half-integral,
    between 0 and 10, the percentage ten times the score. *)
Definition halfScored (c : CategoryScore.t) : Prop :=
  halfIntegral (CategoryScore.score c)
  /\ 0 <= CategoryScore.score c <= 10
  /\ CategoryScore.percentage c == 10 * CategoryScore.score c.

(** ** The file structure *)

(** The extension a file is counted under. *)
Definition extensionOf (file : string) : string := toLowerCase (Path.extname file).

(** [fileTypes[ext] || 0]: the count of an extension, 0 when the object has
    no such key. *)
Definition countOf (fileTypes : list (string * nat)) (ext : string) : nat :=
  match find (fun entry => String.eqb (fst entry) ext) fileTypes with
  | Some entry => snd entry
  | None => 0
  end.

(** The sum of the counts of an extension histogram. *)
Definition countTotal (fileTypes : list (string * nat)) : nat :=
  fold_right (fun entry acc => (snd entry + acc)%nat) 0%nat fileTypes.

(** The number of files of a list that are counted under an extension. *)
Definition filesWithExtension (files : list string) (ext : string) : nat :=
  List.length (filter (fun file => String.eqb (extensionOf file) ext) files).

(** Not a slash. *)
Definition notSlash (c : ascii) : bool := negb (Ascii.eqb c "/").

(** The directory the loop of [analyzeStructure] adds for a file, if it
    adds one: the first piece of [path.dirname(file)]. *)
Definition topDirectory (file : string) : option string :=
  let dir := Path.dirname file in
  if negb (String.eqb dir ".") then
    let firstDir := hd "" (splitChar "/" dir) in
    if truthy firstDir then Some firstDir else None
  else None.

(** ** Letter case *)

(** Two texts of the same length that have their digits and their full
    stops at the same places. *)
Fixpoint sameDigitsAndStops (s t : string) : bool :=
  match s, t with
  | EmptyString, EmptyString => true
  | String a s', String b t' =>
      Bool.eqb (isDigit a) (isDigit b) && Bool.eqb (Ascii.eqb "." a) (Ascii.eqb "." b)
      && sameDigitsAndStops s' t'
  | _, _ => false
  end.

(** Whether a match was found. *)
Definition found (m : option string) : bool :=
  match m with Some _ => true | None => false end.

(** ** Lines of a document *)

(** The last character of a text. *)
Fixpoint lastChar (s : string) : option ascii :=
  match s with
  | EmptyString => None
  | String c r =>
      match r with
      | EmptyString => Some c
      | String _ _ => lastChar r
      end
  end.

(** What follows the text starts a line: the text is empty or ends with a
    line terminator. *)
Definition startsLine (pre : string) : bool :=
  match lastChar pre with
  | None => true
  | Some c => RegexGroup.isLineTerminator c
  end.

(** The text ends a line: it is empty or starts with a line terminator. *)
Definition endsLine (post : string) : bool :=
  match post with
  | EmptyString => true
  | String c _ => RegexGroup.isLineTerminator c
  end.

(** A paragraph whose line feeds are each followed, within it, by a
    character that is neither white space nor [#]: no line of it is blank
    and none starts a heading. *)
Fixpoint tightLines (s : string) : bool :=
  match s with
  | EmptyString => true
  | String c r =>
      (if Ascii.eqb c "010"
       then match r with
            | EmptyString => false
            | String d _ => negb (isSpace d) && negb (Ascii.eqb d "#")
            end
       else true)
      && tightLines r
  end.

(** The text after a paragraph ends it: nothing, a blank line, or a line
    that starts with [#]. *)
Definition endsParagraph (post : string) : bool :=
  match post with
  | EmptyString => true
  | String c r =>
      Ascii.eqb c "010" && (startsWith r SkillParser.LF || startsWith r "#")
  end.

(** The text starts with a character that is not white space. *)
Definition startsWithText (s : string) : bool :=
  match s with
  | EmptyString => false
  | String c _ => negb (isSpace c)
  end.

(** What is outside the group adds nothing to the result. *)
Definition silent (k : Regex.cont) : Prop := forall p res, k p = Some res -> res = "".

(** What may follow the first paragraph, as the pattern has it. *)
Definition afterParagraph : Regex.cont :=
  ((RegexGroup.skipLit SkillParser.LF >> RegexGroup.skipStar isSpace >> RegexGroup.skipLit SkillParser.LF) <|> (RegexGroup.skipLit SkillParser.LF >> RegexGroup.skipLit "#") <|> Regex.eol)%regex
    RegexGroup.group.

(** ** The front matter block *)

(** The line that opens the block, with its line feed, and the line feed
    and the dashes that close it. *)
Definition opening : string := "---" ++ SkillParser.LF.
Definition closing : string := SkillParser.LF ++ "---".

(** What follows the lazy group of the front matter pattern. *)
Definition afterBlock : Regex.cont :=
  (RegexGroup.skipLit SkillParser.LF >> RegexGroup.skipLit "---")%regex RegexGroup.group.

(** ** Batch results *)

(** A result whose error message is the empty string. *)
Definition hasEmptyError (r : Cli.BatchResult.t) : bool :=
  match Cli.BatchResult.error r with
  | Some message => String.eqb message ""
  | None => false
  end.

(** The percentage of a result that has a score is between 0 and 100. *)
Definition inRange (r : Cli.BatchResult.t) : Prop :=
  match Cli.BatchResult.score r with
  | Some score => 0 <= SkillScore.percentage score <= 100
  | None => True
  end.

(** * Properties *)

(** ** Comparisons of numbers *)

Lemma ge_true (a b : Q) : ge a b = true <-> b <= a.
Proof. unfold ge. apply Qle_bool_iff. Qed.

Lemma ge_false (a b : Q) : ge a b = false <-> a < b.
Proof.
  unfold ge. split; intro H.
  - apply Qnot_le_lt. intro L. apply Qle_bool_iff in L. congruence.
  - destruct (Qle_bool b a) eqn:E; [|reflexivity].
    apply Qle_bool_iff in E. exfalso. apply (Qlt_not_le _ _ H E).
Qed.



(** Case analysis on one comparison [ge a b] of the goal, each branch
    keeping the inequality it stands for. *)
Ltac case_ge a b :=
  let E := fresh "E" in
  destruct (ge a b) eqn:E;
  [ apply ge_true in E | apply ge_false in E ].

(** ** The rubric table and its load-time check (C3) *)

Lemma totalWeight_SCORING_CATEGORIES : totalWeight SCORING_CATEGORIES == 1.
Proof. reflexivity. Qed.




(** ** The grade mapper (C4) *)

Ltac grade_cases p :=
  unfold getLetterGrade;
  case_ge p 97; [|case_ge p 93; [|case_ge p 90; [|case_ge p 87; [|case_ge p 83;
  [|case_ge p 80; [|case_ge p 77; [|case_ge p 73; [|case_ge p 70; [|case_ge p 67;
  [|case_ge p 65; [|case_ge p 60]]]]]]]]]]].

Lemma getLetterGrade_inBand (p : Q) : inBand p.
Proof.
  unfold inBand. grade_cases p.
  all: repeat (first [ left; split; [ first [ assumption | split; assumption ] | reflexivity ]
                     | right ]).
  split; [assumption|reflexivity].
Qed.

Lemma getLetterGrade_monotone (p1 p2 : Q) :
  p1 <= p2 -> (gradeRank (getLetterGrade p1) <= gradeRank (getLetterGrade p2))%nat.
Proof.
  intro H.
  grade_cases p1; grade_cases p2;
    try (exfalso; lra);
    vm_compute; repeat constructor.
Qed.

(** C4. Every percentage lies in exactly one band of the table, the lower
    bound of a band included, and [getLetterGrade] returns the grade of that
    band, everything below 60 getting F; 97 maps to A+ and 96.999 to A; and
    a larger percentage never gets a lower-ranked grade. *)
Theorem getLetterGrade_total_monotone :
  (forall p : Q, inBand p)
  /\ getLetterGrade 97 = "A+"
  /\ getLetterGrade 96.999 = "A"
  /\ (forall p1 p2 : Q, p1 <= p2 ->
        (gradeRank (getLetterGrade p1) <= gradeRank (getLetterGrade p2))%nat).
Proof.
  split; [exact getLetterGrade_inBand|].
  split; [reflexivity|].
  split; [reflexivity|].
  exact getLetterGrade_monotone.
Qed.

(** 59.9 is below 60: the grades F and D- are ranked in that order. *)
Lemma getLetterGrade_total_monotone_witness :
  59.9 <= 60
  /\ (gradeRank (getLetterGrade 59.9) <= gradeRank (getLetterGrade 60))%nat.
Proof.
  assert (H : 59.9 <= 60) by (unfold Qle; simpl; lia).
  split; [exact H|].
  exact (proj2 (proj2 (proj2 getLetterGrade_total_monotone)) 59.9 60 H).
Defined.

(** ** Determinism of the aggregator (C1) *)

(** C1. Two evaluations of [scoreSkill] on the same parsed skill, at any two
    clock readings, agree on [categoryScores] (scores, findings and all),
    [totalScore], [maxTotalScore], [percentage] and [letterGrade]; the clock
    reading ends up in [timestamp] and nowhere else. *)
Theorem scoreSkill_deterministic (skill : ParsedSkill.t) (t1 t2 : Date) :
  let r1 := scoreSkill skill t1 in
  let r2 := scoreSkill skill t2 in
  SkillScore.skill r1 = SkillScore.skill r2
  /\ SkillScore.categoryScores r1 = SkillScore.categoryScores r2
  /\ SkillScore.totalScore r1 = SkillScore.totalScore r2
  /\ SkillScore.maxTotalScore r1 = SkillScore.maxTotalScore r2
  /\ SkillScore.percentage r1 = SkillScore.percentage r2
  /\ SkillScore.letterGrade r1 = SkillScore.letterGrade r2
  /\ SkillScore.timestamp r1 = t1
  /\ SkillScore.timestamp r2 = t2.
Proof.
  cbv zeta. unfold scoreSkill, scoreSkillWith. cbn [SkillScore.skill
    SkillScore.categoryScores SkillScore.totalScore SkillScore.maxTotalScore
    SkillScore.percentage SkillScore.letterGrade SkillScore.timestamp].
  repeat split.
Qed.

(** ** Scorers as checklists

    Every scorer runs its sub-checks in a fixed order; each sub-check pushes
    one finding and adds the points of that finding to [score]. *)

Lemma awardsOne_add_push (lo hi q : Q) (k : Finding.kind) (m : string) :
  lo <= q <= hi -> awardsOne lo hi (Stmt.addScore q ;; Stmt.push k m q)%stmt.
Proof.
  intros H st. exists (Finding.mk k m q). cbn.
  split; [reflexivity|]. split; [reflexivity | exact H].
Qed.

Lemma awardsOne_push (lo hi : Q) (k : Finding.kind) (m : string) :
  lo <= 0 <= hi -> awardsOne lo hi (Stmt.push k m 0).
Proof.
  intros H st. exists (Finding.mk k m 0). cbn.
  split; [reflexivity|]. split; [ring | exact H].
Qed.

Lemma awardsList_one (lo hi : Q) (s : Stmt.t) :
  awardsOne lo hi s -> awardsList [(lo, hi)] s.
Proof.
  intros H st. destruct (H st) as (f & Hf & Hs & Hb).
  exists [f]. split; [exact Hf|]. split.
  - rewrite Hs. change (sumPoints [f]) with (Finding.points f + 0). ring.
  - constructor; [exact Hb | constructor].
Qed.

Lemma awardsList_seq (lo hi : Q) (bs : list (Q * Q)) (a b : Stmt.t) :
  awardsOne lo hi a -> awardsList bs b -> awardsList ((lo, hi) :: bs) (a ;; b)%stmt.
Proof.
  intros Ha Hb st. unfold Stmt.seq.
  destruct (Ha st) as (f & Hf & Hs & Hw).
  destruct (Hb (a st)) as (fs & Hfs & Hss & Hws).
  exists (f :: fs). split; [|split].
  - rewrite Hfs, Hf, <- app_assoc. reflexivity.
  - rewrite Hss, Hs.
    change (sumPoints (f :: fs)) with (Finding.points f + sumPoints fs). ring.
  - constructor; assumption.
Qed.

Lemma within_sum (bs : list (Q * Q)) (fs : list Finding.t) :
  Forall2 within bs fs ->
  sumQ (map fst bs) <= sumPoints fs <= sumQ (map snd bs).
Proof.
  induction 1 as [|b f bs fs [Hlo Hhi] _ [IHlo IHhi]].
  - split; apply Qle_refl.
  - change (sumQ (map fst (b :: bs))) with (fst b + sumQ (map fst bs)).
    change (sumQ (map snd (b :: bs))) with (snd b + sumQ (map snd bs)).
    change (sumPoints (f :: fs)) with (Finding.points f + sumPoints fs).
    split; apply Qplus_le_compat; assumption.
Qed.

(** [Math.min(score, 10)] returns [score] itself when it is at most 10. *)
Lemma Qmin_10_id (x : Q) : x <= 10 -> Qmin x 10 = x.
Proof.
  intro H. unfold Qmin, GenericMinMax.gmin.
  destruct (x ?= 10) eqn:E; try reflexivity.
  exfalso. apply Qgt_alt in E. apply (Qlt_not_le _ _ E H).
Qed.

Lemma run_checklist (bs : list (Q * Q)) (body : Stmt.t) :
  awardsList bs body ->
  sumQ (map snd bs) <= 10 ->
  checklist bs (Stmt.run body)
  /\ ScoreResult.score (Stmt.run body) = ScoreResult.score (body Stmt.start).
Proof.
  intros H Hmax. destruct (H Stmt.start) as (fs & Hfs & Hs & Hw).
  change (ScoreResult.findings Stmt.start) with (@nil Finding.t) in Hfs.
  change (ScoreResult.score Stmt.start) with 0 in Hs.
  cbn [app] in Hfs.
  assert (Hle : ScoreResult.score (body Stmt.start) <= 10).
  { rewrite Hs. destruct (within_sum _ _ Hw) as [_ Hhi]. lra. }
  unfold Stmt.run, Stmt.result, checklist.
  cbn [ScoreResult.score ScoreResult.findings].
  rewrite (Qmin_10_id _ Hle), Hfs.
  split; [split|reflexivity]; [exact Hw | rewrite Hs; ring ].
Qed.

(** Bounds on numbers that are closed once the conditions in them are
    decided. *)
Ltac q_closed :=
  repeat match goal with
         | |- context [if ?c then _ else _] => destruct c
         end;
  vm_compute; split; discriminate.

(** One sub-check: the conditions decided one after the other, each branch
    pushing one finding with the points it adds. *)
Ltac subcheck :=
  repeat match goal with
         | |- awardsOne _ _ (if ?c then _ else _) => destruct c
         end;
  first [ apply awardsOne_add_push | apply awardsOne_push ];
  q_closed.

(** A whole body: its sub-checks in sequence. *)
Ltac checks :=
  repeat (apply awardsList_seq; [subcheck|]);
  apply awardsList_one; subcheck.

Lemma structureChecks_awards (skill : ParsedSkill.t) :
  awardsList structureBounds (structureChecks skill).
Proof. unfold structureChecks, structureBounds. cbv zeta. checks. Qed.

Lemma clarityChecks_awards (skill : ParsedSkill.t) :
  awardsList clarityBounds (clarityChecks skill).
Proof. unfold clarityChecks, clarityBounds. cbv zeta. checks. Qed.

Lemma safetyChecks_awards (skill : ParsedSkill.t) :
  awardsList safetyBounds (safetyChecks skill).
Proof.
  unfold safetyChecks, safetyBounds, destructiveCheck, secretCheck, loopCheck,
    networkCheck, permissionCheck.
  cbv zeta. checks.
Qed.

Lemma dependenciesChecks_awards (skill : ParsedSkill.t) :
  awardsList dependenciesBounds (dependenciesChecks skill).
Proof. unfold dependenciesChecks, dependenciesBounds. cbv zeta. checks. Qed.

Lemma errorHandlingChecks_awards (skill : ParsedSkill.t) :
  awardsList errorHandlingBounds (errorHandlingChecks skill).
Proof. unfold errorHandlingChecks, errorHandlingBounds. cbv zeta. checks. Qed.

Lemma scopeChecks_awards (skill : ParsedSkill.t) :
  awardsList scopeBounds (scopeChecks skill).
Proof. unfold scopeChecks, scopeBounds. cbv zeta. checks. Qed.

Lemma documentationChecks_awards (skill : ParsedSkill.t) :
  awardsList documentationBounds (documentationChecks skill).
Proof. unfold documentationChecks, documentationBounds. cbv zeta. checks. Qed.

Lemma portabilityChecks_awards (skill : ParsedSkill.t) :
  awardsList portabilityBounds (portabilityChecks skill).
Proof. unfold portabilityChecks, portabilityBounds. cbv zeta. checks. Qed.

Lemma scoreSkill_categoryScores (skill : ParsedSkill.t) (now : Date) :
  SkillScore.categoryScores (scoreSkill skill now)
  = map (fun '(category, (_, body, _)) => categoryScoreOf category (Stmt.run (body skill)))
        (combine SCORING_CATEGORIES rubricChecks).
Proof. reflexivity. Qed.

Lemma rubricChecks_hold (skill : ParsedSkill.t) : Forall (rowHolds skill) rubricChecks.
Proof.
  unfold rubricChecks.
  repeat (apply Forall_cons; [unfold rowHolds; split; [reflexivity|split; [discriminate|]]|]).
  9: apply Forall_nil.
  - apply (run_checklist _ _ (structureChecks_awards skill)). discriminate.
  - apply (run_checklist _ _ (clarityChecks_awards skill)). discriminate.
  - apply (run_checklist _ _ (safetyChecks_awards skill)). discriminate.
  - apply (run_checklist _ _ (dependenciesChecks_awards skill)). discriminate.
  - apply (run_checklist _ _ (errorHandlingChecks_awards skill)). discriminate.
  - apply (run_checklist _ _ (scopeChecks_awards skill)). discriminate.
  - apply (run_checklist _ _ (documentationChecks_awards skill)). discriminate.
  - apply (run_checklist _ _ (portabilityChecks_awards skill)). discriminate.
Qed.

(** ** Score bounds (C2) *)

Lemma checklist_bounds (bs : list (Q * Q)) (r : ScoreResult.t) :
  checklist bs r -> sumQ (map snd bs) == 10 -> 0 <= sumQ (map fst bs) ->
  0 <= ScoreResult.score r <= 10.
Proof.
  intros [Hw Hs] Hhi Hlo. rewrite Hs.
  destruct (within_sum _ _ Hw) as [L U]. split; lra.
Qed.

Lemma rowHolds_wellFormed (skill : ParsedSkill.t) (category : ScoringCategory.t)
  (id : string) (body : ParsedSkill.t -> Stmt.t) (bounds : list (Q * Q)) :
  rowHolds skill (id, body, bounds) ->
  ScoringCategory.maxScore category == 10 ->
  0 <= ScoringCategory.weight category ->
  wellFormedCategory (categoryScoreOf category (Stmt.run (body skill))).
Proof.
  intros (Hhi & Hlo & Hc & _) Hmax Hw.
  unfold wellFormedCategory, categoryScoreOf.
  cbn [CategoryScore.score CategoryScore.maxScore CategoryScore.percentage
       CategoryScore.weightedScore CategoryScore.category].
  split; [exact (checklist_bounds _ _ Hc Hhi Hlo)|].
  split; [exact Hmax|].
  split; [reflexivity|].
  split; [reflexivity|exact Hw].
Qed.

Lemma scoreSkill_wellFormed (skill : ParsedSkill.t) (now : Date) :
  Forall wellFormedCategory (SkillScore.categoryScores (scoreSkill skill now)).
Proof.
  rewrite scoreSkill_categoryScores.
  pose proof (rubricChecks_hold skill) as H. unfold rubricChecks in *.
  cbn [combine map SCORING_CATEGORIES].
  repeat match type of H with
         | Forall _ (_ :: _) =>
             let H1 := fresh "R" in
             apply Forall_cons_iff in H; destruct H as [H1 H]
         end.
  repeat (apply Forall_cons; [eapply rowHolds_wellFormed;
                              [eassumption | reflexivity | discriminate]|]).
  apply Forall_nil.
Qed.

Lemma fold_left_weightedScore (cs : list CategoryScore.t) (acc : Q) :
  fold_left (fun sum cat => sum + CategoryScore.weightedScore cat) cs acc
  == acc + sumQ (map CategoryScore.weightedScore cs).
Proof.
  revert acc. induction cs as [|c cs IH]; intro acc.
  - cbn [fold_left map]. change (sumQ []) with 0. ring.
  - cbn [fold_left map]. rewrite IH.
    change (sumQ (CategoryScore.weightedScore c :: map CategoryScore.weightedScore cs))
      with (CategoryScore.weightedScore c + sumQ (map CategoryScore.weightedScore cs)).
    ring.
Qed.

Lemma wellFormed_weightedSum (cs : list CategoryScore.t) :
  Forall wellFormedCategory cs ->
  sumQ (map CategoryScore.weightedScore cs) == weightedSum cs
  /\ 0 <= weightedSum cs
  /\ weightedSum cs
     <= 10 * sumQ (map (fun c => ScoringCategory.weight (CategoryScore.category c)) cs).
Proof.
  unfold weightedSum.
  induction 1 as [|c cs (Hs & _ & _ & Hw & Hpos) _ (IHe & IHlo & IHhi)].
  - cbn [map]. change (sumQ []) with 0. split; [reflexivity|split; lra].
  - cbn [map].
    repeat match goal with
           | |- context [sumQ (?x :: ?l)] => change (sumQ (x :: l)) with (x + sumQ l)
           end.
    set (s := CategoryScore.score c) in *.
    set (w := ScoringCategory.weight (CategoryScore.category c)) in *.
    assert (0 <= s * w) by (apply Qmult_le_0_compat; [apply Hs|exact Hpos]).
    assert (s * w <= 10 * w) by (apply Qmult_le_compat_r; [apply Hs|exact Hpos]).
    split; [rewrite Hw, IHe; reflexivity|]. split; lra.
Qed.

(** The total is the weighted sum of the category scores, between 0 and
    10, and the percentage is the total out of 10. *)
Lemma scoreSkill_totalScore (skill : ParsedSkill.t) (now : Date) :
  SkillScore.totalScore (scoreSkill skill now)
  == weightedSum (SkillScore.categoryScores (scoreSkill skill now)).
Proof.
  destruct (wellFormed_weightedSum _ (scoreSkill_wellFormed skill now)) as (He & _ & _).
  change (SkillScore.totalScore (scoreSkill skill now))
    with (fold_left (fun sum cat => sum + CategoryScore.weightedScore cat)
                    (SkillScore.categoryScores (scoreSkill skill now)) 0).
  rewrite fold_left_weightedScore, He. ring.
Qed.

Lemma scoreSkill_totalScore_bounds (skill : ParsedSkill.t) (now : Date) :
  0 <= SkillScore.totalScore (scoreSkill skill now) <= 10.
Proof.
  destruct (wellFormed_weightedSum _ (scoreSkill_wellFormed skill now)) as (_ & Hlo & Hhi).
  assert (Hw : sumQ (map (fun c => ScoringCategory.weight (CategoryScore.category c))
                         (SkillScore.categoryScores (scoreSkill skill now))) == 1)
    by reflexivity.
  rewrite Hw in Hhi. rewrite scoreSkill_totalScore. split; lra.
Qed.

Lemma scoreSkill_percentage (skill : ParsedSkill.t) (now : Date) :
  SkillScore.percentage (scoreSkill skill now)
  == SkillScore.totalScore (scoreSkill skill now) * 10.
Proof.
  change (SkillScore.percentage (scoreSkill skill now))
    with (SkillScore.totalScore (scoreSkill skill now) / 10 * 100).
  field.
Qed.


(** ** The score is the sum of the points of the findings (C10) *)

Lemma rowHolds_scoredByRow (skill : ParsedSkill.t) (category : ScoringCategory.t)
  (id : string) (body : ParsedSkill.t -> Stmt.t) (bounds : list (Q * Q)) :
  rowHolds skill (id, body, bounds) ->
  ScoringCategory.id category = id ->
  scoredByRow skill (id, body, bounds) (categoryScoreOf category (Stmt.run (body skill))).
Proof.
  intros (Hhi & _ & [Hw Hs] & Hclamp) Hid.
  unfold scoredByRow, categoryScoreOf.
  cbn [CategoryScore.score CategoryScore.findings CategoryScore.category].
  split; [exact Hid|]. split; [exact Hhi|]. split; [exact Hw|].
  split; [exact Hs|]. split; [exact Hclamp|reflexivity].
Qed.

(** C10. For every parsed skill and each of the eight categories, the score
    returned equals the sum of the [points] of the findings returned; the
    maxima of the sub-checks of every category total exactly 10, and the
    score returned is the very value of [score] before the clamp
    [Math.min(score, 10)]. *)
Theorem score_is_sum_of_points (skill : ParsedSkill.t) (now : Date) :
  Forall2 (scoredByRow skill) rubricChecks
          (SkillScore.categoryScores (scoreSkill skill now)).
Proof.
  rewrite scoreSkill_categoryScores.
  pose proof (rubricChecks_hold skill) as H. unfold rubricChecks in *.
  cbn [combine map SCORING_CATEGORIES].
  repeat match type of H with
         | Forall _ (_ :: _) =>
             let H1 := fresh "R" in
             apply Forall_cons_iff in H; destruct H as [H1 H]
         end.
  repeat (apply Forall2_cons; [apply rowHolds_scoredByRow; [assumption|reflexivity]|]).
  apply Forall2_nil.
Qed.

(** ** The missing document (C7) *)








(** ** Facts about [includes] *)

Lemma append_assoc (a b c : string) : ((a ++ b) ++ c = a ++ (b ++ c))%string.
Proof. induction a as [|x a IH]; cbn; [reflexivity | rewrite IH; reflexivity]. Qed.

Lemma prefix_cons (a b : ascii) (p s : string) :
  prefix (String a p) (String b s) = true <-> a = b /\ prefix p s = true.
Proof.
  cbn. destruct (ascii_dec a b) as [E|N].
  - split; [intro H; split; assumption | intros [_ H]; exact H].
  - split; [discriminate | intros [E _]; contradiction].
Qed.

Lemma prefix_iff (p s : string) :
  prefix p s = true <-> exists r, s = (p ++ r)%string.
Proof.
  revert s. induction p as [|a p IH]; intro s.
  - split; [intros _; exists s; reflexivity | intros _; destruct s; reflexivity].
  - destruct s as [|b s].
    + split; [discriminate | intros [r Hr]; discriminate Hr].
    + rewrite prefix_cons, IH. split.
      * intros [E [r Hr]]. exists r. cbn. rewrite E, Hr. reflexivity.
      * intros [r Hr]. cbn in Hr. injection Hr as E Hs. split; [symmetry; exact E|].
        exists r. exact Hs.
Qed.

Lemma includes_iff (s p : string) :
  includes s p = true <-> exists a b, s = (a ++ p ++ b)%string.
Proof.
  induction s as [|c s IH].
  - cbn [includes]. rewrite orb_false_r, prefix_iff. split.
    + intros [r Hr]. exists EmptyString, r. exact Hr.
    + intros [a [b H]]. destruct a as [|x a]; [|discriminate H]. exists b. exact H.
  - cbn [includes]. rewrite orb_true_iff, IH, prefix_iff. split.
    + intros [[r Hr] | [a [b H]]].
      * exists EmptyString, r. exact Hr.
      * exists (String c a), b. cbn. rewrite H. reflexivity.
    + intros [a [b H]]. destruct a as [|x a].
      * left. exists b. exact H.
      * right. cbn in H. injection H as _ H. exists a, b. exact H.
Qed.


(** A text contains what a part of it contains. *)
Lemma includes_app_l (s t p : string) :
  includes s p = true -> includes (s ++ t) p = true.
Proof.
  rewrite !includes_iff. intros [a [b H]]. exists a, (b ++ t)%string.
  rewrite H, !append_assoc. reflexivity.
Qed.

Lemma includes_app_r (s t p : string) :
  includes t p = true -> includes (s ++ t) p = true.
Proof.
  rewrite !includes_iff. intros [a [b H]]. exists (s ++ a)%string, b.
  rewrite H, !append_assoc. reflexivity.
Qed.

Lemma toLowerCase_app (a b : string) :
  toLowerCase (a ++ b) = (toLowerCase a ++ toLowerCase b)%string.
Proof. induction a as [|x a IH]; cbn; [reflexivity | rewrite IH; reflexivity]. Qed.


(** [length (filter f l) === 0] says that [f] holds of no element. *)
Lemma length_filter_zero {A : Type} (f : A -> bool) (l : list A) :
  (List.length (filter f l) =? 0)%nat = negb (existsb f l).
Proof.
  induction l as [|x l IH]; cbn; [reflexivity|].
  destruct (f x); cbn; [reflexivity | exact IH].
Qed.

(** ** Safety and Error Handling when a safeguard is missing *)

Lemma destructiveCheck_tier (text : string) :
  awardsOne (destructiveTier text) (destructiveTier text)
            (destructiveCheck (toLowerCase text)).
Proof.
  unfold destructiveCheck, destructiveTier. cbv zeta.
  rewrite length_filter_zero.
  change (existsb _ _) with (hasDestructiveToken text).
  change (includes (toLowerCase text) "confirm" || includes (toLowerCase text) "ask"
          || includes (toLowerCase text) "prompt")
    with (mentions text "confirm" || mentions text "ask" || mentions text "prompt").
  replace (hasConfirmationLanguage text)
    with (mentions text "confirm" || mentions text "ask" || mentions text "prompt")
    by (unfold hasConfirmationLanguage; cbn [existsb]; rewrite orb_false_r, orb_assoc; reflexivity).
  destruct (hasDestructiveToken text); cbn [negb];
    [destruct (mentions text "confirm" || mentions text "ask" || mentions text "prompt")|];
    first [ apply awardsOne_add_push | apply awardsOne_push ]; split; apply Qle_refl.
Qed.





(** ** A destructive command without confirmation or fallback (C6) *)







(** ** Appending a word to a text *)

Lemma prefix_app_inv (p s t : string) :
  prefix p (s ++ t) = true ->
  prefix p s = true \/ exists p2, p = (s ++ p2)%string /\ p2 <> "" /\ prefix p2 t = true.
Proof.
  revert p. induction s as [|c s IH]; intros p H.
  - destruct p as [|a p].
    + left. reflexivity.
    + right. exists (String a p). split; [reflexivity|]. split; [discriminate|exact H].
  - destruct p as [|a p]; [left; reflexivity|].
    change ((String c s ++ t)%string) with (String c (s ++ t)) in H.
    apply prefix_cons in H. destruct H as [E H].
    destruct (IH p H) as [L | [p2 [Hp [Hn Hpre]]]].
    + left. apply prefix_cons. split; assumption.
    + right. exists p2. split; [cbn; rewrite E, Hp; reflexivity|]. split; assumption.
Qed.

Lemma straddles_intro (p1 p2 t : string) :
  p1 <> "" -> p2 <> "" -> prefix p2 t = true -> straddles (p1 ++ p2) t = true.
Proof.
  intros H1 H2 Hp. induction p1 as [|a p1 IH]; [contradiction|].
  cbn [append straddles]. destruct p1 as [|b p1].
  - cbn [append]. rewrite Hp. apply String.eqb_neq in H2. rewrite H2. reflexivity.
  - rewrite IH by discriminate. apply orb_true_r.
Qed.

Lemma includes_app_inv (s t p : string) :
  p <> "" ->
  includes (s ++ t) p = true ->
  includes s p = true \/ includes t p = true \/ straddles p t = true.
Proof.
  intros Hne. induction s as [|c s IH]; intro H.
  - right. left. exact H.
  - change ((String c s ++ t)%string) with (String c (s ++ t)) in H.
    cbn [includes] in H. apply orb_true_iff in H. destruct H as [H | H].
    + destruct (prefix_app_inv p (String c s) t H) as [L | [p2 [Hp [Hn Hpre]]]].
      * left. cbn [includes]. rewrite L. reflexivity.
      * right. right. rewrite Hp. apply straddles_intro; [discriminate|assumption..].
    + destruct (IH H) as [L | R].
      * left. cbn [includes]. rewrite L. apply orb_true_r.
      * right. exact R.
Qed.

(** Appending [t] to a text adds no occurrence of a pattern fresh in [t]. *)
Lemma includes_app_fresh (s t p : string) :
  freshIn t p = true -> includes (s ++ t) p = includes s p.
Proof.
  unfold freshIn. rewrite !andb_true_iff, !negb_true_iff.
  intros [[Hin Hst] Hne]. apply String.eqb_neq in Hne.
  destruct (includes s p) eqn:E.
  - apply includes_app_l. exact E.
  - destruct (includes (s ++ t) p) eqn:F; [|reflexivity].
    destruct (includes_app_inv s t p Hne F) as [H | [H | H]]; congruence.
Qed.

Lemma someIncluded_app_fresh (s t : string) (patterns : list string) :
  forallb (freshIn t) patterns = true ->
  someIncluded (s ++ t) patterns = someIncluded s patterns.
Proof.
  unfold someIncluded. induction patterns as [|p ps IH]; [reflexivity|].
  cbn [forallb existsb]. rewrite andb_true_iff. intros [Hp Hps].
  rewrite (includes_app_fresh s t p Hp), (IH Hps). reflexivity.
Qed.

Lemma filterIncluded_app_fresh (s t : string) (patterns : list string) :
  forallb (freshIn t) patterns = true ->
  filterIncluded (s ++ t) patterns = filterIncluded s patterns.
Proof.
  unfold filterIncluded. induction patterns as [|p ps IH]; [reflexivity|].
  cbn [forallb filter]. rewrite andb_true_iff. intros [Hp Hps].
  rewrite (includes_app_fresh s t p Hp), (IH Hps). reflexivity.
Qed.

(** ** The tiers of the Safety score (C5) *)

Ltac framed_check :=
  cbv zeta;
  repeat match goal with
         | |- framed (if ?c then _ else _) => destruct c
         end;
  intro st; unfold pointsOf, Stmt.seq, Stmt.addScore, Stmt.push, Stmt.start;
  cbn [ScoreResult.score]; ring.

Lemma destructiveCheck_framed (content : string) : framed (destructiveCheck content).
Proof. unfold destructiveCheck. framed_check. Qed.

Lemma secretCheck_framed (content : string) : framed (secretCheck content).
Proof. unfold secretCheck. framed_check. Qed.

Lemma loopCheck_framed (content : string) : framed (loopCheck content).
Proof. unfold loopCheck. framed_check. Qed.

Lemma networkCheck_framed (content : string) : framed (networkCheck content).
Proof. unfold networkCheck. framed_check. Qed.

Lemma permissionCheck_framed (content : string) : framed (permissionCheck content).
Proof. unfold permissionCheck. framed_check. Qed.

Lemma pointsOf_destructiveCheck (text : string) :
  pointsOf (destructiveCheck (toLowerCase text)) == destructiveTier text.
Proof.
  destruct (destructiveCheck_tier text Stmt.start) as (f & _ & Hs & Hlo & Hhi).
  unfold pointsOf. rewrite Hs.
  change (ScoreResult.score Stmt.start) with 0. lra.
Qed.

(** The Safety score is the tier of the destructive-operation sub-check
    plus the points of the other four sub-checks. *)
Lemma scoreSafety_tier (skill : ParsedSkill.t) :
  ScoreResult.score (scoreSafety skill)
  == destructiveTier (ParsedSkill.skillMdContent skill)
     + otherSafetyPoints (ParsedSkill.skillMdContent skill).
Proof.
  assert (Hmax : sumQ (map snd safetyBounds) <= 10) by discriminate.
  destruct (run_checklist _ _ (safetyChecks_awards skill) Hmax) as [_ Hclamp].
  unfold scoreSafety. rewrite Hclamp.
  unfold safetyChecks, otherSafetyPoints. cbv zeta. unfold Stmt.seq.
  rewrite (permissionCheck_framed _ _), (networkCheck_framed _ _), (loopCheck_framed _ _),
    (secretCheck_framed _ _), (destructiveCheck_framed _ _), pointsOf_destructiveCheck.
  change (ScoreResult.score Stmt.start) with 0. ring.
Qed.

Lemma mentions_app_l (a t p : string) :
  mentions a p = true -> mentions (a ++ t) p = true.
Proof. unfold mentions. rewrite toLowerCase_app. apply includes_app_l. Qed.

Lemma mentions_app_r (a t p : string) :
  mentions t p = true -> mentions (a ++ t) p = true.
Proof. unfold mentions. rewrite toLowerCase_app. apply includes_app_r. Qed.

Lemma hasDestructiveToken_app (a t : string) :
  hasDestructiveToken a = true -> hasDestructiveToken (a ++ t) = true.
Proof.
  unfold hasDestructiveToken. rewrite !existsb_exists.
  intros [p [Hin Hp]]. exists p. split; [exact Hin | apply mentions_app_l; exact Hp].
Qed.

(** A confirmation word appended after a space is confirmation language. *)
Lemma hasConfirmationLanguage_app (a word : string) :
  In word ["confirm"; "ask"; "prompt"] ->
  hasConfirmationLanguage (a ++ " " ++ word) = true.
Proof.
  intro H. unfold hasConfirmationLanguage. apply existsb_exists.
  exists word. split; [exact H|]. apply mentions_app_r.
  destruct H as [<- | [<- | [<- | []]]]; reflexivity.
Qed.

(** Appending a confirmation word after a space changes none of the signals
    the other four Safety sub-checks look at. *)
Lemma otherSafetyPoints_app (a word : string) :
  In word ["confirm"; "ask"; "prompt"] ->
  otherSafetyPoints (a ++ " " ++ word) = otherSafetyPoints a.
Proof.
  intro H. unfold otherSafetyPoints. cbv zeta. rewrite toLowerCase_app.
  unfold secretCheck, loopCheck, networkCheck, permissionCheck. cbv zeta.
  destruct H as [<- | [<- | [<- | []]]];
    match goal with
    | |- context [toLowerCase (" " ++ ?w)] =>
        let t := eval vm_compute in (toLowerCase (" " ++ w)) in
        change (toLowerCase (" " ++ w)) with t
    end;
    rewrite ?someIncluded_app_fresh, ?filterIncluded_app_fresh, ?includes_app_fresh
      by (vm_compute; reflexivity);
    reflexivity.
Qed.

(** C5, as the code has it.  A document with a destructive command token
    and no confirmation language scores exactly 2 points lower on Safety
    than the same document with a confirmation word appended after a space;
    and that one scores lower than any document that has no destructive
    token and earns at least as many points on the other four Safety
    sub-checks. *)
Theorem safety_tiers (skill1 skill2 skill3 : ParsedSkill.t) (word : string) :
  In word ["confirm"; "ask"; "prompt"] ->
  ParsedSkill.skillMdContent skill2
    = (ParsedSkill.skillMdContent skill1 ++ " " ++ word)%string ->
  hasDestructiveToken (ParsedSkill.skillMdContent skill1) = true ->
  hasConfirmationLanguage (ParsedSkill.skillMdContent skill1) = false ->
  hasDestructiveToken (ParsedSkill.skillMdContent skill3) = false ->
  otherSafetyPoints (ParsedSkill.skillMdContent skill2)
    <= otherSafetyPoints (ParsedSkill.skillMdContent skill3) ->
  ScoreResult.score (scoreSafety skill1) < ScoreResult.score (scoreSafety skill2)
  /\ ScoreResult.score (scoreSafety skill2) < ScoreResult.score (scoreSafety skill3)
  /\ ScoreResult.score (scoreSafety skill2) == ScoreResult.score (scoreSafety skill1) + 2.
Proof.
  intros Hword H2 Hd1 Hc1 Hd3 Hother.
  rewrite !scoreSafety_tier. rewrite H2 in *.
  rewrite (otherSafetyPoints_app _ _ Hword) in *.
  unfold destructiveTier.
  rewrite (hasDestructiveToken_app _ _ Hd1), (hasConfirmationLanguage_app _ _ Hword).
  rewrite Hd1, Hc1, Hd3.
  split; [lra|]. split; [lra|ring].
Qed.

Lemma safety_tiers_witness :
  In "confirm" ["confirm"; "ask"; "prompt"]
  /\ hasDestructiveToken "rm -rf build" = true
  /\ hasConfirmationLanguage "rm -rf build" = false
  /\ hasDestructiveToken "make build" = false
  /\ ScoreResult.score (scoreSafety (documentOf "rm -rf build"))
     < ScoreResult.score (scoreSafety (documentOf "rm -rf build confirm"))
  /\ ScoreResult.score (scoreSafety (documentOf "rm -rf build confirm"))
     < ScoreResult.score (scoreSafety (documentOf "make build")).
Proof.
  assert (Hw : In "confirm" ["confirm"; "ask"; "prompt"]) by (left; reflexivity).
  assert (H1 : hasDestructiveToken "rm -rf build" = true) by reflexivity.
  assert (H2 : hasConfirmationLanguage "rm -rf build" = false) by reflexivity.
  assert (H3 : hasDestructiveToken "make build" = false) by reflexivity.
  assert (H4 : otherSafetyPoints "rm -rf build confirm" <= otherSafetyPoints "make build")
    by (vm_compute; discriminate).
  pose proof (safety_tiers (documentOf "rm -rf build") (documentOf "rm -rf build confirm")
                (documentOf "make build") "confirm" Hw eq_refl H1 H2 H3 H4) as [A [B _]].
  repeat split; assumption.
Defined.

(** C5 as stated fails on its last step: [sudo make install] contains no
    destructive token at all, yet it scores 8 on Safety, below the 9 of
    [rm -rf build confirm], the confirmed version of [rm -rf build]. *)
Lemma safety_tiers_need_equal_other_checks :
  hasDestructiveToken "rm -rf build" = true
  /\ hasConfirmationLanguage "rm -rf build" = false
  /\ hasConfirmationLanguage "rm -rf build confirm" = true
  /\ hasDestructiveToken "sudo make install" = false
  /\ ScoreResult.score (scoreSafety (documentOf "rm -rf build")) == 7
  /\ ScoreResult.score (scoreSafety (documentOf "rm -rf build confirm")) == 9
  /\ ScoreResult.score (scoreSafety (documentOf "sudo make install")) == 8
  /\ ~ ScoreResult.score (scoreSafety (documentOf "rm -rf build confirm"))
       < ScoreResult.score (scoreSafety (documentOf "sudo make install")).
Proof.
  repeat match goal with
         | |- _ /\ _ => split
         end; try (vm_compute; reflexivity).
  vm_compute. discriminate.
Qed.

(** ** What a match is made of *)

Section ConsumesOnly.

(** The class of the characters a pattern can consume. *)
Variable A : ascii -> bool.

Lemma allChars_app (a b : string) :
  allChars A (a ++ b) = allChars A a && allChars A b.
Proof.
  induction a as [|c a IH]; [reflexivity|].
  cbn. rewrite IH, andb_assoc. reflexivity.
Qed.

Lemma consumesOnly_eps : consumesOnly A eps.
Proof.
  intros k prev s res H. exists EmptyString, s, prev, res.
  repeat split. exact H.
Qed.

Lemma consumesOnly_chr (P : ascii -> bool) :
  (forall c, P c = true -> A c = true) -> consumesOnly A (chr P).
Proof.
  intros HP k prev s res H. unfold chr in H. cbn [snd] in H.
  destruct s as [|c s]; [discriminate|].
  destruct (P c) eqn:E; [|discriminate].
  destruct (k (Some c, s)) as [res'|] eqn:K; [|discriminate].
  injection H as <-.
  exists (String c EmptyString), s, (Some c), res'.
  repeat split; [cbn; rewrite (HP c E); reflexivity | exact K].
Qed.

Lemma consumesOnly_seq (r1 r2 : re) :
  consumesOnly A r1 -> consumesOnly A r2 -> consumesOnly A (seq r1 r2).
Proof.
  intros H1 H2 k prev s res H. unfold seq in H.
  destruct (H1 _ _ _ _ H) as (m1 & s1 & p1 & res1 & Hs & Ha & Hk & Hr).
  destruct (H2 _ _ _ _ Hk) as (m2 & s2 & p2 & res2 & Hs2 & Ha2 & Hk2 & Hr2).
  exists (m1 ++ m2)%string, s2, p2, res2.
  split; [rewrite Hs, Hs2, append_assoc; reflexivity|].
  split; [rewrite allChars_app, Ha, Ha2; reflexivity|].
  split; [exact Hk2|]. rewrite Hr, Hr2, append_assoc. reflexivity.
Qed.

Lemma consumesOnly_alt (r1 r2 : re) :
  consumesOnly A r1 -> consumesOnly A r2 -> consumesOnly A (alt r1 r2).
Proof.
  intros H1 H2 k prev s res H. unfold alt, orElse in H.
  destruct (r1 k (prev, s)) as [x|] eqn:E.
  - injection H as <-. exact (H1 _ _ _ _ E).
  - exact (H2 _ _ _ _ H).
Qed.

Lemma consumesOnly_lit (p : string) :
  allChars A p = true -> consumesOnly A (lit p).
Proof.
  induction p as [|c p IH]; intro H.
  - apply consumesOnly_eps.
  - cbn in H. apply andb_true_iff in H. destruct H as [Hc Hp].
    cbn [lit]. apply consumesOnly_seq; [|exact (IH Hp)].
    apply consumesOnly_chr. intros x Hx. unfold isChar in Hx.
    apply Ascii.eqb_eq in Hx. subst x. exact Hc.
Qed.

Lemma consumesOnly_star (P : ascii -> bool) :
  (forall c, P c = true -> A c = true) -> consumesOnly A (star P).
Proof.
  intros HP k prev s. unfold star. cbn [fst snd].
  revert prev. induction s as [|c s IH]; intros prev res H.
  - exists EmptyString, EmptyString, prev, res. repeat split. exact H.
  - cbn [starFrom] in H. destruct (P c) eqn:E.
    + unfold orElse in H.
      destruct (consumed c (starFrom P k (Some c) s)) as [x|] eqn:F.
      * injection H as <-. unfold consumed in F.
        destruct (starFrom P k (Some c) s) as [y|] eqn:G; [|discriminate].
        injection F as <-.
        destruct (IH _ _ G) as (m & s' & p' & res' & Hs & Ha & Hk & Hr).
        exists (String c m), s', p', res'.
        split; [cbn; rewrite Hs; reflexivity|].
        split; [cbn; rewrite (HP c E), Ha; reflexivity|].
        split; [exact Hk|]. cbn. rewrite Hr. reflexivity.
      * exists EmptyString, (String c s), prev, res. repeat split. exact H.
    + exists EmptyString, (String c s), prev, res. repeat split. exact H.
Qed.

(** What [execAt] returns is at the front of the input and made of
    characters of the class. *)
Lemma execAt_consumesOnly (r : re) (prev : option ascii) (s m : string) :
  consumesOnly A r -> execAt r prev s = Some m ->
  allChars A m = true /\ exists s', s = (m ++ s')%string.
Proof.
  intros Hr H. unfold execAt in H.
  destruct (Hr _ _ _ _ H) as (m' & s' & p' & res' & Hs & Ha & Hk & Hres).
  injection Hk as <-. rewrite Hres.
  assert (E : (m' ++ "")%string = m') by (clear; induction m' as [|c m' IH]; cbn; congruence).
  rewrite E. split; [exact Ha | exists s'; exact Hs].
Qed.



End ConsumesOnly.

Lemma unixPathChar_pathAlphabet (c : ascii) : unixPathChar c = true -> pathAlphabet c = true.
Proof. intro H. unfold pathAlphabet. rewrite H. reflexivity. Qed.

Lemma windowsPathChar_pathAlphabet (c : ascii) :
  windowsPathChar c = true -> pathAlphabet c = true.
Proof. intro H. unfold pathAlphabet. rewrite H, orb_true_r. reflexivity. Qed.

Lemma isAlnum_pathAlphabet (c : ascii) : isAlnum c = true -> pathAlphabet c = true.
Proof.
  intro H. apply unixPathChar_pathAlphabet. unfold unixPathChar. rewrite H. reflexivity.
Qed.

Lemma isUpperAZ_pathAlphabet (c : ascii) : isUpperAZ c = true -> pathAlphabet c = true.
Proof. intro H. apply isAlnum_pathAlphabet. unfold isAlnum. rewrite H. reflexivity. Qed.

(** The rules by which a pattern is seen to consume characters of a class
    only, and the classes of the candidate pattern. *)
Create HintDb consumes.
#[local] Hint Resolve consumesOnly_eps consumesOnly_chr consumesOnly_seq consumesOnly_alt
  consumesOnly_lit consumesOnly_star : consumes.
#[local] Hint Resolve unixPathChar_pathAlphabet windowsPathChar_pathAlphabet
  isAlnum_pathAlphabet isUpperAZ_pathAlphabet : consumes.
#[local] Hint Extern 1 (allChars _ _ = true) => reflexivity : consumes.

(** Every candidate path is a text over [pathAlphabet]. *)
Lemma potentialPath_consumesOnly : consumesOnly pathAlphabet potentialPath.
Proof. unfold potentialPath. auto 8 with consumes. Qed.









(** ** Recall of the path classifier (C9) *)






(** ** Precision of the path classifier (C8) *)

(** Whatever the classifier returns is a candidate of the text that starts
    with one of the listed roots or with a drive letter, or has a segment
    that starts with a dot: a fragment of a URL is spared when the host and
    path it is found with have none of these shapes. *)
Lemma findHardcodedPaths_shape (content path : string) :
  In path (findHardcodedPaths content) ->
  In path (matchAll potentialPath content)
  /\ (startsWith path "/home/" || startsWith path "/Users/"
      || startsWith path "/usr/" || startsWith path "/opt/"
      || startsWith path "/etc/" || startsWith path "/var/"
      || startsWith path "/tmp/" || startsWith path "/bin/"
      || startsWith path "/sbin/" || testAtStart driveLetter path
      || includes path "/.") = true.
Proof.
  unfold findHardcodedPaths. cbv zeta. rewrite filter_In.
  intros [Hin H]. split; [exact Hin|].
  unfold isHardcodedPath in H.
  repeat match type of H with
         | (if ?c then _ else _) = true => destruct c
         end;
    try discriminate H; exact H.
Qed.

(** The two fragments the specification names, and the URLs of the
    [url-skill] fixture: no path is returned and the sub-check awards its 2
    points. *)
Lemma url_examples_not_flagged :
  findHardcodedPaths "https://cdn.example.com/CSS/styles.css and /api/v2/fetch" = []
  /\ nth_error (ScoreResult.findings
       (scorePortability
          (documentOf "https://cdn.example.com/CSS/styles.css and /api/v2/fetch"))) 1
     = Some (Finding.mk Finding.pass "No hardcoded absolute paths found" 2)
  /\ findHardcodedPaths
       "- Base URL: https://api.example.com/v1/
- Authentication: https://auth.example.com/oauth/token
- Data endpoint: https://data.example.com/api/v2/fetch
- File upload: https://files.example.com/upload
- CSS resources: https://cdn.example.com/CSS/styles.css
- Static assets: https://assets.example.com/beautifying/theme.css
- Natural language API: https://nlp.example.com/natural/language/process" = [].
Proof. vm_compute. repeat split. Qed.

(** C8 fails on the code: a text that holds nothing but a URL, whose path
    has a segment that starts with a dot, gets the host and path of the URL
    back as a hardcoded path, and the sub-check awards no point.  The
    candidate pattern starts a match at the second slash of [https://] and
    runs over the host, so none of the URL tests of the loop applies to
    it. *)
Lemma url_with_dot_segment_is_flagged :
  matchAll potentialPath "See https://example.com/.well-known/security.txt"
    = ["/example.com/.well-known/security.txt"]
  /\ findHardcodedPaths "See https://example.com/.well-known/security.txt"
     = ["/example.com/.well-known/security.txt"]
  /\ nth_error (ScoreResult.findings
       (scorePortability (documentOf "See https://example.com/.well-known/security.txt"))) 1
     = Some (Finding.mk Finding.fail
               "Hardcoded paths found: /example.com/.well-known/security.txt" 0).
Proof. vm_compute. repeat split. Qed.

(** ** Full marks are reached in every category

    The upper bounds of the sub-checks are maxima: each category has a
    document that scores 10 in it. *)
Lemma full_marks_attained :
  map (fun c => Qred (CategoryScore.score c))
      (SkillScore.categoryScores (scoreSkill cleanupSkill 0%Z))
    = [10; 10; 7; 10; 7; 10; 10; 10]
  /\ Qred (ScoreResult.score (scoreSafety (documentOf "make build"))) = 10
  /\ Qred (ScoreResult.score
             (scoreErrorHandling (documentOf "On error retry, check the status, mind the limit")))
     = 10.
Proof. vm_compute. repeat split. Qed.

(** ** The weights in binary64

    The weights are decimal fractions that binary64 rounds.  With the
    primitive floats of the kernel, which are binary64 with the rounding of
    IEEE 754, as the numbers of JavaScript are: the sum of the eight
    weights, taken in the order of [reduce], is exactly 1, so the load-time
    check passes on the machine numbers too; and eight scores of 10 give
    the total 10 and the percentage 100 exactly. *)

Lemma binary64_totalWeight_is_one :
  Binary64.totalWeight = Binary64.one /\ Binary64.weightCheckFails = false.
Proof. vm_compute. split; reflexivity. Qed.

Lemma binary64_totalOfFullScores_is_ten :
  Binary64.totalOfFullScores = Binary64.ten
  /\ Binary64.percentageOf Binary64.totalOfFullScores = Binary64.hundred.
Proof. vm_compute. split; reflexivity. Qed.

(** * Further properties of the engine *)

(** ** The least and the greatest score *)



(** The upper bounds are reached, from the parser on: there is a text such
    that a directory that holds it as [SKILL.md] and nothing else, whatever
    its path and whatever the YAML parser does, is parsed into a skill that
    scores 10 in every category, hence 100 percent and the grade A+. *)
Theorem full_marks_reachable :
  exists text : string,
    forall (yamlParse : string -> list (string * string)) (skillPath : string) (now : Date),
      let skill := SkillParser.parseSkill yamlParse skillPath true text ["SKILL.md"] in
      let r := scoreSkill skill now in
      Forall (fun c => CategoryScore.score c == 10) (SkillScore.categoryScores r)
      /\ SkillScore.percentage r == 100
      /\ SkillScore.letterGrade r = "A+".
Proof.
  exists perfectText. intros yamlParse skillPath now. cbv zeta.
  change (SkillParser.parseSkill yamlParse skillPath true perfectText ["SKILL.md"])
    with (ParsedSkill.mk skillPath true perfectText "Build Helper"
            "Use when the build output must be listed. Not for source files."
            ["SKILL.md"] []
            (FileStructure.mk true false false false 1 [] [(".md", 1%nat)])).
  split; [|split].
  - rewrite scoreSkill_categoryScores. vm_compute.
    repeat (apply Forall_cons; [reflexivity|]). apply Forall_nil.
  - vm_compute. reflexivity.
  - vm_compute. reflexivity.
Qed.

(** ** Tables other than the rubric *)

Lemma rowHolds_bounds (skill : ParsedSkill.t)
  (id : string) (body : ParsedSkill.t -> Stmt.t) (bounds : list (Q * Q)) :
  rowHolds skill (id, body, bounds) ->
  0 <= ScoreResult.score (Stmt.run (body skill)) <= 10.
Proof.
  intros (Hhi & Hlo & Hc & _). exact (checklist_bounds _ _ Hc Hhi Hlo).
Qed.


(** The [switch] of [scoreCategory] has no [default]: a category whose id
    is none of the eight keeps the initial score 0 and the empty list of
    findings, so its weighted score is 0, and so is its percentage when its
    maximum is not 0. *)
Theorem unknown_category_scores_nothing (skill : ParsedSkill.t) (category : ScoringCategory.t) :
  ~ In (ScoringCategory.id category) (map ScoringCategory.id SCORING_CATEGORIES) ->
  ~ ScoringCategory.maxScore category == 0 ->
  let c := scoreCategory skill category in
  CategoryScore.score c = 0
  /\ CategoryScore.findings c = []
  /\ CategoryScore.percentage c == 0
  /\ CategoryScore.weightedScore c == 0.
Proof.
  intros Hid Hmax. cbv zeta. unfold scoreCategory. cbv zeta.
  cbn [map SCORING_CATEGORIES ScoringCategory.id In] in Hid.
  repeat match goal with
         | |- context [String.eqb ?a ?b] =>
             destruct (String.eqb_spec a b) as [E|_];
             [exfalso; apply Hid; rewrite E; tauto|]
         end.
  cbn [CategoryScore.score CategoryScore.findings CategoryScore.percentage
       CategoryScore.weightedScore ScoreResult.score ScoreResult.findings].
  split; [reflexivity|]. split; [reflexivity|]. split.
  - field. exact Hmax.
  - ring.
Qed.

(** A category [style] of maximum 10 is none of the eight. *)
Lemma unknown_category_scores_nothing_witness :
  let c := scoreCategory perfectSkill (ScoringCategory.mk "style" "Style" "" 0.5 10) in
  CategoryScore.score c = 0
  /\ CategoryScore.findings c = []
  /\ CategoryScore.percentage c == 0
  /\ CategoryScore.weightedScore c == 0.
Proof.
  apply (unknown_category_scores_nothing perfectSkill
           (ScoringCategory.mk "style" "Style" "" 0.5 10)).
  - cbn. intros [H|[H|[H|[H|[H|[H|[H|[H|H]]]]]]]]; try discriminate H; exact H.
  - discriminate.
Defined.





(** ** Texts that grow *)

Lemma someIncluded_grows (content pre post : string) (patterns : list string) :
  someIncluded content patterns = true ->
  someIncluded (pre ++ content ++ post) patterns = true.
Proof.
  unfold someIncluded. rewrite !existsb_exists.
  intros [p [Hin Hp]]. exists p. split; [exact Hin|].
  apply includes_app_r, includes_app_l. exact Hp.
Qed.

(** Decides, one after the other, the keyword tests of a text [c1] and of a
    text [c2] that contains it, a test that holds of [c1] holding of [c2]. *)
Ltac keyword_cases c1 c2 M :=
  repeat match goal with
         | |- context [someIncluded c1 ?ps] =>
             let E := fresh "E" in
             destruct (someIncluded c1 ps) eqn:E;
             [ rewrite (M ps E) | destruct (someIncluded c2 ps) ]
         end.

(** The sub-checks of Dependencies and of Error Handling only ask whether
    the text mentions one of their keywords: text added before or after a
    document never lowers either score. *)
Theorem added_text_never_lowers_keyword_scores
  (skill1 skill2 : ParsedSkill.t) (pre post : string) :
  ParsedSkill.skillMdContent skill2
    = (pre ++ ParsedSkill.skillMdContent skill1 ++ post)%string ->
  ScoreResult.score (scoreDependencies skill1) <= ScoreResult.score (scoreDependencies skill2)
  /\ ScoreResult.score (scoreErrorHandling skill1)
     <= ScoreResult.score (scoreErrorHandling skill2).
Proof.
  intro H.
  unfold scoreDependencies, scoreErrorHandling, dependenciesChecks, errorHandlingChecks.
  cbv zeta. rewrite H, !toLowerCase_app.
  set (c1 := toLowerCase (ParsedSkill.skillMdContent skill1)).
  set (c2 := (toLowerCase pre ++ c1 ++ toLowerCase post)%string).
  assert (M : forall ps, someIncluded c1 ps = true -> someIncluded c2 ps = true)
    by (intros ps; apply someIncluded_grows).
  split; keyword_cases c1 c2 M; vm_compute; discriminate.
Qed.

(** A line about retries added to a document that says nothing. *)
Lemma added_text_never_lowers_keyword_scores_witness :
  ScoreResult.score (scoreDependencies (documentOf "make build"))
  <= ScoreResult.score (scoreDependencies
                          (documentOf "First, install make. Then: make build, or retry."))
  /\ ScoreResult.score (scoreErrorHandling (documentOf "make build"))
     <= ScoreResult.score (scoreErrorHandling
                             (documentOf "First, install make. Then: make build, or retry.")).
Proof.
  apply (added_text_never_lowers_keyword_scores
           (documentOf "make build")
           (documentOf "First, install make. Then: make build, or retry.")
           "First, install make. Then: " ", or retry.").
  reflexivity.
Defined.

(** ** Texts without a path separator *)

Lemma noSeparator_no_candidate (prev : option ascii) (s : string) :
  noSeparator s = true -> execAt potentialPath prev s = None.
Proof.
  unfold noSeparator. intro H.
  destruct s as [|c r]; [reflexivity|].
  cbn [allChars] in H. apply andb_true_iff in H. destruct H as [Hc Hr].
  apply andb_true_iff in Hc. destruct Hc as [Hslash _].
  apply negb_true_iff in Hslash. rewrite Ascii.eqb_sym in Hslash.
  cbv [execAt potentialPath alt seq lit chr isChar plus star eps snd fst].
  rewrite Hslash. cbn [orElse].
  destruct (isUpperAZ c); [|reflexivity].
  destruct r as [|c1 r]; [reflexivity|].
  destruct (Ascii.eqb ":" c1); [|reflexivity].
  destruct r as [|c2 r]; [reflexivity|].
  cbn [allChars] in Hr.
  apply andb_true_iff in Hr. destruct Hr as [_ Hr].
  apply andb_true_iff in Hr. destruct Hr as [Hc2 _].
  apply andb_true_iff in Hc2. destruct Hc2 as [_ Hback].
  apply negb_true_iff in Hback. rewrite Ascii.eqb_sym in Hback.
  rewrite Hback. reflexivity.
Qed.

Lemma noSeparator_matchAllFrom (skip : nat) (prev : option ascii) (s : string) :
  noSeparator s = true -> matchAllFrom potentialPath skip prev s = [].
Proof.
  revert skip prev. induction s as [|c r IH]; intros skip prev H; [reflexivity|].
  assert (Hr : noSeparator r = true).
  { unfold noSeparator in *. cbn [allChars] in H.
    apply andb_true_iff in H. exact (proj2 H). }
  cbn [matchAllFrom]. destruct skip as [|n].
  - rewrite (noSeparator_no_candidate prev _ H). exact (IH 0%nat (Some c) Hr).
  - exact (IH n (Some c) Hr).
Qed.

(** A text that has neither a slash nor a backslash holds no candidate
    path: nothing is reported as hardcoded, the sub-checks on hardcoded and
    on relative paths give their 2 points each, and Portability scores at
    least 5. *)
Theorem no_separator_no_hardcoded_path (skill : ParsedSkill.t) :
  noSeparator (ParsedSkill.skillMdContent skill) = true ->
  findHardcodedPaths (ParsedSkill.skillMdContent skill) = []
  /\ nth_error (ScoreResult.findings (scorePortability skill)) 1
     = Some (Finding.mk Finding.pass "No hardcoded absolute paths found" 2)
  /\ nth_error (ScoreResult.findings (scorePortability skill)) 3
     = Some (Finding.mk Finding.pass "Uses relative paths appropriately" 2)
  /\ 5 <= ScoreResult.score (scorePortability skill).
Proof.
  intro H.
  assert (E : findHardcodedPaths (ParsedSkill.skillMdContent skill) = []).
  { unfold findHardcodedPaths, matchAll. cbv zeta.
    rewrite (noSeparator_matchAllFrom 0 None _ H). reflexivity. }
  split; [exact E|].
  unfold scorePortability, portabilityChecks. cbv zeta. rewrite E.
  cbn [List.length Nat.eqb orb].
  rewrite orb_true_r.
  repeat match goal with
         | |- context [if ?c then _ else _] => destruct c
         end;
    (split; [reflexivity|]; split; [reflexivity|]; vm_compute; discriminate).
Qed.

(** The text [Run cmd.exe] names an OS-specific command and no path. *)
Lemma no_separator_no_hardcoded_path_witness :
  noSeparator "Run cmd.exe" = true
  /\ findHardcodedPaths "Run cmd.exe" = []
  /\ 5 <= ScoreResult.score (scorePortability (documentOf "Run cmd.exe")).
Proof.
  assert (H : noSeparator (ParsedSkill.skillMdContent (documentOf "Run cmd.exe")) = true)
    by reflexivity.
  split; [exact H|].
  split.
  - exact (proj1 (no_separator_no_hardcoded_path (documentOf "Run cmd.exe") H)).
  - exact (proj2 (proj2 (proj2 (no_separator_no_hardcoded_path (documentOf "Run cmd.exe") H)))).
Defined.

(** ** The criteria tables and the scorers *)





(** ** Progress bars and colours of the terminal report *)

Import JsBuiltins TerminalReporter.

Lemma roundZ_spec (x : Q) :
  inject_Z (roundZ x) <= x + 0.5 /\ x + 0.5 < inject_Z (roundZ x + 1).
Proof. unfold roundZ. split; [apply Qfloor_le | apply Qlt_floor]. Qed.


Lemma inject_Z_lt (a b : Z) : inject_Z a < inject_Z b <-> (a < b)%Z.
Proof. rewrite <- Zlt_Qlt. reflexivity. Qed.

(** The bar once the number of full blocks is known. *)
Lemma createProgressBar_filled (percentage : Q) :
  let n := roundZ (percentage / 5) in
  createProgressBar percentage defaultWidth
  = if ((n <? 0) || (20 - n <? 0))%Z then None
    else Some (getScoreColor percentage, barOf (Z.to_nat n) 20).
Proof.
  cbv zeta. unfold createProgressBar, defaultWidth. cbv zeta.
  assert (E : roundZ (percentage / 100 * inject_Z 20) = roundZ (percentage / 5)).
  { unfold roundZ. apply Qfloor_comp. field. }
  rewrite E. unfold repeatGlyph.
  destruct (Z.ltb_spec (roundZ (percentage / 5)) 0) as [Hn|Hn]; [reflexivity|].
  destruct (Z.ltb_spec (20 - roundZ (percentage / 5)) 0) as [Hm|Hm]; [reflexivity|].
  cbn [orb concatGlyphs]. unfold barOf.
  replace (Z.to_nat (20 - roundZ (percentage / 5)))
    with (20 - Z.to_nat (roundZ (percentage / 5)))%nat by lia.
  unfold getScoreColor.
  destruct (ge percentage 80); [reflexivity|].
  destruct (ge percentage 60); reflexivity.
Qed.


(** The colour of the letter grade goes by bands of ten points: green from
    90, blue from 80, yellow from 70, magenta from 60 and red below, always
    bold. *)
Theorem grade_colour_by_band (percentage : Q) :
  getGradeColor (getLetterGrade percentage)
  = Chalk.bold (if ge percentage 90 then Chalk.green
                else if ge percentage 80 then Chalk.blue
                else if ge percentage 70 then Chalk.yellow
                else if ge percentage 60 then Chalk.magenta
                else Chalk.red).
Proof.
  grade_cases percentage;
    case_ge percentage 90; try (exfalso; lra);
    case_ge percentage 80; try (exfalso; lra);
    case_ge percentage 70; try (exfalso; lra);
    case_ge percentage 60; try (exfalso; lra);
    reflexivity.
Qed.

(** ** What a category block of the terminal report lists *)

Lemma filter_length_eq {A : Type} (f : A -> bool) (l : list A) :
  List.length (filter f l) = List.length l -> filter f l = l.
Proof.
  induction l as [|x l IH]; [reflexivity|].
  cbn [filter]. destruct (f x).
  - cbn [List.length]. intro H. injection H as H. rewrite (IH H). reflexivity.
  - intro H. pose proof (filter_length_le f l) as L. cbn [List.length] in H. lia.
Qed.

(** Without [--verbose] a category block lists the first findings, three at
    most, among the failures and the passes that gave points, in the order
    of the scorer; a closing line counts the findings that are not listed,
    warnings and notes among them, and is left out only when every finding
    is listed.  With [--verbose] every finding is listed and there is no
    closing line. *)
Theorem hidden_findings_are_counted (findings : list Finding.t) :
  let shown := findingsToShow false findings in
  (List.length shown <= 3)%nat
  /\ Forall (fun f => isImportant f = true) shown
  /\ (exists rest, filter isImportant findings = (shown ++ rest)%list)
  /\ match remaining false findings with
     | Some n => (0 < n)%nat /\ (List.length shown + n = List.length findings)%nat
     | None => shown = findings
     end
  /\ findingsToShow true findings = findings
  /\ remaining true findings = None.
Proof.
  cbv zeta. unfold remaining, findingsToShow, slice0. cbv zeta.
  cbn [negb andb].
  set (important := filter isImportant findings).
  split; [apply firstn_le_length|].
  split.
  { apply Forall_forall. intros f Hf.
    assert (Hin : In f important).
    { rewrite <- (firstn_skipn 3 important). apply in_or_app. left. exact Hf. }
    unfold important in Hin. apply filter_In in Hin. exact (proj2 Hin). }
  split; [exists (skipn 3 important); symmetry; apply firstn_skipn|].
  split; [|split; reflexivity].
  pose proof (filter_length_le isImportant findings) as L1. fold important in L1.
  pose proof (firstn_le_length 3 important) as L3.
  assert (L2 : (List.length (firstn 3 important) <= List.length important)%nat).
  { rewrite length_firstn. lia. }
  destruct (Nat.ltb_spec (List.length (firstn 3 important)) (List.length findings)) as [Hlt|Hge].
  - cbv iota. split; lia.
  - cbv iota.
    assert (E1 : List.length important = List.length findings) by lia.
    assert (E2 : important = findings) by (apply filter_length_eq; exact E1).
    rewrite E2 in *. apply firstn_all2. lia.
Qed.

(** ** Scores have one binary digit after the point *)

Lemma halfIntegral_comp (a b : Q) : a == b -> halfIntegral a -> halfIntegral b.
Proof. intros E [z Hz]. exists z. rewrite <- E. exact Hz. Qed.

Lemma halfIntegral_plus (a b : Q) : halfIntegral a -> halfIntegral b -> halfIntegral (a + b).
Proof.
  intros [x Hx] [y Hy]. exists (x + y)%Z. rewrite Hx, Hy.
  unfold Qeq, Qplus. cbn. lia.
Qed.

Lemma halfIntegral_sumPoints (fs : list Finding.t) :
  halfPoints fs -> halfIntegral (sumPoints fs).
Proof.
  induction 1 as [|f fs Hf _ IH].
  - exists 0%Z. reflexivity.
  - change (sumPoints (f :: fs)) with (Finding.points f + sumPoints fs).
    apply halfIntegral_plus; assumption.
Qed.

Lemma keepsHalves_seq (a b : Stmt.t) :
  keepsHalves a -> keepsHalves b -> keepsHalves (a ;; b)%stmt.
Proof. intros Ha Hb st H. unfold Stmt.seq. apply Hb, Ha, H. Qed.

Lemma keepsHalves_addScore (q : Q) : keepsHalves (Stmt.addScore q).
Proof. intros st H. exact H. Qed.

Lemma keepsHalves_push (k : Finding.kind) (m : string) (q : Q) :
  halfIntegral q -> keepsHalves (Stmt.push k m q).
Proof.
  intros Hq st H. unfold Stmt.push. cbn [ScoreResult.findings].
  apply Forall_app. split; [exact H|]. constructor; [exact Hq|constructor].
Qed.

(** A number of points that is closed once the conditions in it are
    decided. *)
Ltac half_closed :=
  repeat match goal with
         | |- context [if ?c then _ else _] => destruct c
         end;
  match goal with
  | |- halfIntegral ?q => exists (Qfloor (q * 2)); vm_compute; reflexivity
  end.

(** A whole body: its statements one after the other. *)
Ltac halves :=
  repeat match goal with
         | |- keepsHalves (Stmt.seq _ _) => apply keepsHalves_seq
         | |- keepsHalves (Stmt.addScore _) => apply keepsHalves_addScore
         | |- keepsHalves (Stmt.push _ _ _) => apply keepsHalves_push; half_closed
         | |- keepsHalves (if ?c then _ else _) => destruct c
         end.

Lemma rubricChecks_keepHalves (skill : ParsedSkill.t) :
  Forall (fun row => keepsHalves (snd (fst row) skill)) rubricChecks.
Proof.
  unfold rubricChecks.
  repeat (apply Forall_cons; [cbn [fst snd]|]); [..|apply Forall_nil].
  - unfold structureChecks. cbv zeta. halves.
  - unfold clarityChecks. cbv zeta. halves.
  - unfold safetyChecks, destructiveCheck, secretCheck, loopCheck, networkCheck,
      permissionCheck. cbv zeta. halves.
  - unfold dependenciesChecks. cbv zeta. halves.
  - unfold errorHandlingChecks. cbv zeta. halves.
  - unfold scopeChecks. cbv zeta. halves.
  - unfold documentationChecks. cbv zeta. halves.
  - unfold portabilityChecks. cbv zeta. halves.
Qed.

Lemma row_score_halfIntegral (skill : ParsedSkill.t)
  (id : string) (body : ParsedSkill.t -> Stmt.t) (bounds : list (Q * Q)) :
  rowHolds skill (id, body, bounds) -> keepsHalves (body skill) ->
  halfIntegral (ScoreResult.score (Stmt.run (body skill))).
Proof.
  intros (_ & _ & [_ Hs] & _) Hk.
  apply (halfIntegral_comp (sumPoints (ScoreResult.findings (Stmt.run (body skill))))).
  - symmetry. exact Hs.
  - apply halfIntegral_sumPoints.
    change (ScoreResult.findings (Stmt.run (body skill)))
      with (ScoreResult.findings (body skill Stmt.start)).
    apply Hk. constructor.
Qed.

Lemma row_halfScored (skill : ParsedSkill.t) (category : ScoringCategory.t)
  (id : string) (body : ParsedSkill.t -> Stmt.t) (bounds : list (Q * Q)) :
  rowHolds skill (id, body, bounds) -> keepsHalves (body skill) ->
  ScoringCategory.maxScore category == 10 ->
  halfScored (categoryScoreOf category (Stmt.run (body skill))).
Proof.
  intros R K Hmax. unfold halfScored, categoryScoreOf.
  cbn [CategoryScore.score CategoryScore.percentage].
  split; [exact (row_score_halfIntegral _ _ _ _ R K)|].
  split; [exact (rowHolds_bounds _ _ _ _ R)|].
  rewrite Hmax. field.
Qed.

Lemma scoreSkill_halfScored (skill : ParsedSkill.t) (now : Date) :
  Forall halfScored (SkillScore.categoryScores (scoreSkill skill now)).
Proof.
  rewrite scoreSkill_categoryScores.
  pose proof (rubricChecks_hold skill) as H.
  pose proof (rubricChecks_keepHalves skill) as K.
  unfold rubricChecks in *.
  cbn [combine map SCORING_CATEGORIES].
  repeat match type of H with
         | Forall _ (_ :: _) =>
             let H1 := fresh "R" in
             apply Forall_cons_iff in H; destruct H as [H1 H]
         end.
  repeat match type of K with
         | Forall _ (_ :: _) =>
             let K1 := fresh "K" in
             apply Forall_cons_iff in K; destruct K as [K1 K]
         end.
  cbn [fst snd] in *.
  repeat (apply Forall_cons; [eapply row_halfScored; [eassumption|assumption|reflexivity]|]).
  apply Forall_nil.
Qed.

Lemma roundZ_inject_Z (x : Q) (z : Z) : x == inject_Z z -> roundZ x = z.
Proof.
  intro E. destruct (roundZ_spec x) as [Hlo Hhi].
  generalize dependent (roundZ x). intros n Hlo Hhi.
  rewrite inject_Z_plus in Hhi. change (inject_Z 1) with 1 in Hhi.
  assert (L1 : inject_Z n < inject_Z (z + 1)).
  { rewrite inject_Z_plus. change (inject_Z 1) with 1. lra. }
  assert (L2 : inject_Z z < inject_Z (n + 1)).
  { rewrite inject_Z_plus. change (inject_Z 1) with 1. lra. }
  rewrite <- Zlt_Qlt in L1, L2. lia.
Qed.

Lemma Qmake_half (z : Z) : z # 2 == inject_Z z * (1 # 2).
Proof. unfold Qeq, Qmult, inject_Z. cbn. lia. Qed.

(** In the report of a scored skill, the bar of every category is drawn,
    with two full blocks for each point of the score: the scores are
    half-integral, so that nothing is rounded. *)
Theorem category_bars (skill : ParsedSkill.t) (now : Date) :
  Forall (fun c =>
            exists filled : nat,
              createProgressBar (CategoryScore.percentage c) defaultWidth
                = Some (getScoreColor (CategoryScore.percentage c), barOf filled 20)
              /\ inject_Z (Z.of_nat filled) == 2 * CategoryScore.score c)
         (SkillScore.categoryScores (scoreSkill skill now)).
Proof.
  eapply Forall_impl; [|exact (scoreSkill_halfScored skill now)].
  intros c ([z Hz] & [Hlo Hhi] & Hp). cbv beta.
  assert (E : CategoryScore.percentage c / 5 == inject_Z z).
  { rewrite Hp, Hz, Qmake_half. field. }
  assert (Hs : 2 * CategoryScore.score c == inject_Z z).
  { rewrite Hz, Qmake_half. field. }
  assert (L1 : inject_Z 0 <= inject_Z z) by (change (inject_Z 0) with 0; lra).
  assert (L2 : inject_Z z <= inject_Z 20) by (change (inject_Z 20) with 20; lra).
  rewrite <- Zle_Qle in L1, L2.
  exists (Z.to_nat z).
  rewrite (createProgressBar_filled (CategoryScore.percentage c)). cbv zeta.
  rewrite (roundZ_inject_Z _ _ E).
  destruct (Z.ltb_spec z 0) as [Hn|_]; [lia|].
  destruct (Z.ltb_spec (20 - z) 0) as [Hm|_]; [lia|].
  split; [reflexivity|].
  rewrite Z2Nat.id by exact L1. rewrite Hs. reflexivity.
Qed.

(** ** The JSON report *)

Import JsonReporter.









(** ** GitHub addresses on the command line *)

Import Cli.

Lemma append_empty_r (s : string) : (s ++ "")%string = s.
Proof. induction s as [|c s IH]; cbn; congruence. Qed.

Lemma splitChar_not_nil (sep : ascii) (s : string) : splitChar sep s <> [].
Proof.
  destruct s as [|c r]; cbn [splitChar]; [discriminate|].
  destruct (Ascii.eqb c sep); [discriminate|].
  destruct (splitChar sep r); discriminate.
Qed.

(** [s.split(sep).join(sep)] is [s]. *)
Lemma join_splitChar (sep : ascii) (s : string) :
  join (String sep "") (splitChar sep s) = s.
Proof.
  unfold join. induction s as [|c r IH]; [reflexivity|].
  cbn [splitChar]. destruct (Ascii.eqb_spec c sep) as [->|N].
  - pose proof (splitChar_not_nil sep r) as Hn.
    destruct (splitChar sep r) as [|w ws]; [contradiction|].
    change (String.concat (String sep "") ("" :: w :: ws))
      with (String sep (String.concat (String sep "") (w :: ws))).
    rewrite IH. reflexivity.
  - pose proof (splitChar_not_nil sep r) as Hn.
    destruct (splitChar sep r) as [|w ws]; [contradiction|].
    rewrite <- IH. destruct ws; reflexivity.
Qed.

(** A text splits into one piece exactly when it does not contain the
    separator. *)
Lemma splitChar_one_piece (sep : ascii) (s : string) :
  includes s (String sep "") = false <-> splitChar sep s = [s].
Proof.
  induction s as [|c r IH].
  - split; reflexivity.
  - cbn [includes splitChar prefix].
    destruct (ascii_dec sep c) as [E|N].
    + subst c. rewrite Ascii.eqb_refl.
      split; [destruct r; discriminate|].
      intro H. injection H as H _. discriminate H.
    + assert (Ec : Ascii.eqb c sep = false)
        by (apply Ascii.eqb_neq; intro E; apply N; symmetry; exact E).
      rewrite Ec, orb_false_l, IH. split.
      * intros ->. reflexivity.
      * intro H. pose proof (splitChar_not_nil sep r) as Hn.
        destruct (splitChar sep r) as [|w ws]; [contradiction|].
        injection H as Hw Hws. subst. reflexivity.
Qed.

(** What the shorthand branch of [parseGitHubUrl] does with any input: it
    throws when the input has no slash, and otherwise returns the first two
    pieces as user and repository and the rest, if any, as the path, the
    input being these joined by slashes again. *)
Lemma parse_shorthand_cases (pathnameOf : string -> string) (input : string) :
  startsWith input "https://github.com/" = false ->
  startsWith input "http://github.com/" = false ->
  (includes input "/" = false
   /\ parseGitHubUrl pathnameOf input
      = inl (Error "Invalid shorthand format: expected user/repo or user/repo/path"))
  \/ (includes input "/" = true
      /\ exists user repo pathParts,
           splitChar "/" input = user :: repo :: pathParts
           /\ parseGitHubUrl pathnameOf input
              = inr (GitHubRepo.mk ("https://github.com/" ++ user ++ "/" ++ repo ++ ".git")
                       (match pathParts with
                        | [] => None
                        | _ => Some (join "/" pathParts)
                        end))
           /\ input = (user ++ "/" ++ repo
                       ++ match pathParts with
                          | [] => ""
                          | _ => "/" ++ join "/" pathParts
                          end)%string).
Proof.
  intros H1 H2. unfold parseGitHubUrl. rewrite H1, H2. cbn [orb].
  pose proof (join_splitChar "/" input) as J.
  pose proof (splitChar_one_piece "/" input) as O.
  pose proof (splitChar_not_nil "/" input) as Hn.
  destruct (splitChar "/" input) as [|user [|repo pathParts]]; [contradiction| |].
  - left. split; [|reflexivity]. apply O. cbn in J. rewrite J. reflexivity.
  - right. split.
    + destruct (includes input "/"); [reflexivity|].
      discriminate (proj1 O eq_refl).
    + exists user, repo, pathParts. split; [reflexivity|]. split.
      * destruct pathParts; reflexivity.
      * rewrite <- J at 1. unfold join.
        destruct pathParts; [cbn [String.concat]; rewrite append_empty_r; reflexivity|].
        change (String.concat "/" (user :: repo :: s :: pathParts))
          with (user ++ "/" ++ String.concat "/" (repo :: s :: pathParts))%string.
        change (String.concat "/" (repo :: s :: pathParts))
          with (repo ++ "/" ++ String.concat "/" (s :: pathParts))%string.
        reflexivity.
Qed.

(** Without a GitHub address in front, [parseGitHubUrl] throws exactly on
    the inputs that have no slash; any other input, [/] itself included, is
    taken as user, repository and path, and is these joined by slashes:
    nothing of the input is lost and nothing is checked. *)
Theorem shorthand_parse_throws_iff_no_slash (pathnameOf : string -> string) (input : string) :
  startsWith input "https://github.com/" = false ->
  startsWith input "http://github.com/" = false ->
  ((exists e, parseGitHubUrl pathnameOf input = inl e) <-> includes input "/" = false)
  /\ (forall result, parseGitHubUrl pathnameOf input = inr result ->
        exists user repo,
          GitHubRepo.repoUrl result
            = ("https://github.com/" ++ user ++ "/" ++ repo ++ ".git")%string
          /\ input = (user ++ "/" ++ repo
                      ++ match GitHubRepo.subPath result with
                         | Some p => "/" ++ p
                         | None => ""
                         end)%string).
Proof.
  intros H1 H2.
  destruct (parse_shorthand_cases pathnameOf input H1 H2)
    as [[Hno Hp] | (Hyes & user & repo & pathParts & _ & Hp & Hin)]; rewrite Hp.
  - split.
    + split; [intros _; exact Hno | intros _; eexists; reflexivity].
    + intros result H. discriminate H.
  - split.
    + split; [intros [e He]; discriminate He | intro H; rewrite H in Hyes; discriminate Hyes].
    + intros result H. injection H as <-. exists user, repo.
      cbn [GitHubRepo.repoUrl GitHubRepo.subPath]. split; [reflexivity|].
      destruct pathParts; exact Hin.
Qed.

(** The shorthand [vercel-labs/skills/find-skills] of the help text. *)
Lemma shorthand_parse_throws_iff_no_slash_witness :
  (exists e, parseGitHubUrl (fun _ => "") "vercel-labs/skills/find-skills" = inl e)
  <-> includes "vercel-labs/skills/find-skills" "/" = false.
Proof.
  exact (proj1 (shorthand_parse_throws_iff_no_slash
                  (fun _ => "") "vercel-labs/skills/find-skills" eq_refl eq_refl)).
Defined.

Lemma chr_inv (P : ascii -> bool) (k : cont) (prev : option ascii) (s res : string) :
  chr P k (prev, s) = Some res ->
  exists c r res', s = String c r /\ P c = true /\ k (Some c, r) = Some res'.
Proof.
  unfold chr. cbn [snd]. destruct s as [|c r]; [discriminate|].
  destruct (P c) eqn:E; [|discriminate].
  destruct (k (Some c, r)) as [res'|] eqn:K; [|discriminate].
  intros _. exists c, r, res'. repeat split; assumption.
Qed.

(** What the shorthand pattern accepts: a non-empty run of its characters,
    a slash, and one more of its characters, whatever follows. *)
Lemma shorthandPattern_shape (input : string) :
  testAtStart shorthandPattern input = true ->
  exists user c rest,
    input = (user ++ "/" ++ String c rest)%string
    /\ user <> "" /\ allChars shorthandChar user = true /\ shorthandChar c = true.
Proof.
  unfold testAtStart.
  destruct (execAt shorthandPattern None input) as [m|] eqn:H; [intros _|discriminate].
  unfold execAt, shorthandPattern, plus, seq in H.
  apply chr_inv in H. destruct H as (c0 & r0 & res0 & -> & Hc0 & H).
  apply (consumesOnly_star shorthandChar shorthandChar (fun c Hc => Hc)) in H.
  destruct H as (m1 & s1 & p1 & res1 & -> & Hm1 & H & _).
  cbn [lit] in H. unfold seq, eps in H.
  apply chr_inv in H. destruct H as (x & r1 & res2 & -> & Hx & H).
  unfold isChar in Hx. apply Ascii.eqb_eq in Hx. subst x.
  apply chr_inv in H. destruct H as (c1 & rest & res3 & -> & Hc1 & _).
  exists (String c0 m1), c1, rest.
  split; [reflexivity|]. split; [discriminate|].
  split; [cbn [allChars]; rewrite Hc0, Hm1; reflexivity | exact Hc1].
Qed.

Lemma splitChar_app (sep : ascii) (u t : string) :
  allChars (fun c => negb (Ascii.eqb c sep)) u = true ->
  splitChar sep (u ++ String sep t) = u :: splitChar sep t.
Proof.
  induction u as [|c u IH]; intro H.
  - cbn [append splitChar]. rewrite Ascii.eqb_refl. reflexivity.
  - cbn [allChars] in H. apply andb_true_iff in H. destruct H as [Hc Hu].
    apply negb_true_iff in Hc.
    cbn [append splitChar]. rewrite Hc, (IH Hu). reflexivity.
Qed.

Lemma allChars_impl (P Q : ascii -> bool) (s : string) :
  (forall c, P c = true -> Q c = true) -> allChars P s = true -> allChars Q s = true.
Proof.
  intro HPQ. induction s as [|c s IH]; [reflexivity|].
  cbn [allChars]. intro H. apply andb_true_iff in H. destruct H as [Hc Hs].
  rewrite (HPQ c Hc), (IH Hs). reflexivity.
Qed.

Lemma shorthandChar_not_slash (c : ascii) :
  shorthandChar c = true -> negb (Ascii.eqb c "/") = true.
Proof.
  intro H. destruct (Ascii.eqb_spec c "/") as [->|_]; [discriminate H|reflexivity].
Qed.

(** An input that [isGitHubUrl] recognises as a shorthand is one that
    [parseGitHubUrl] can parse: the flag [--github] was given, the user and
    the repository it returns are not empty, the user is made of letters,
    digits, [_], [.] and [-], and the input is user, repository and path
    joined by slashes. *)
Theorem recognised_shorthand_parses
  (pathnameOf : string -> string) (input : string) (githubFlag : bool) :
  isGitHubUrl input githubFlag = true ->
  startsWith input "https://github.com/" = false ->
  startsWith input "http://github.com/" = false ->
  githubFlag = true
  /\ exists user repo subPath,
       parseGitHubUrl pathnameOf input
         = inr (GitHubRepo.mk ("https://github.com/" ++ user ++ "/" ++ repo ++ ".git") subPath)
       /\ user <> "" /\ allChars shorthandChar user = true
       /\ repo <> ""
       /\ input = (user ++ "/" ++ repo
                   ++ match subPath with
                      | Some p => "/" ++ p
                      | None => ""
                      end)%string.
Proof.
  intros H H1 H2. unfold isGitHubUrl in H. rewrite H1, H2 in H. cbn [orb] in H.
  destruct githubFlag; [|discriminate H]. cbn [negb] in H.
  split; [reflexivity|].
  destruct (startsWith input "./" || startsWith input "../" || startsWith input "/"
            || includes input "\"); [discriminate H|].
  destruct (shorthandPattern_shape input H) as (user & c & rest & Hin & Hu & Hau & Hc).
  destruct (parse_shorthand_cases pathnameOf input H1 H2)
    as [[Hno _] | (_ & user' & repo & pathParts & Hsplit & Hp & Hjoin)].
  - exfalso. rewrite Hin in Hno.
    assert (Hyes : includes (user ++ "/" ++ String c rest) "/" = true)
      by (apply includes_app_r; reflexivity).
    rewrite Hyes in Hno. discriminate Hno.
  - rewrite Hin in Hsplit.
    change (user ++ "/" ++ String c rest)%string
      with (user ++ String "/" (String c rest))%string in Hsplit.
    rewrite splitChar_app in Hsplit
      by (exact (allChars_impl _ _ _ shorthandChar_not_slash Hau)).
    cbn [splitChar] in Hsplit.
    apply shorthandChar_not_slash, negb_true_iff in Hc. rewrite Hc in Hsplit.
    pose proof (splitChar_not_nil "/" rest) as Hn.
    destruct (splitChar "/" rest) as [|w ws]; [contradiction|].
    injection Hsplit as <- <- <-.
    exists user, (String c w),
      (match ws with [] => None | _ => Some (join "/" ws) end).
    split; [exact Hp|]. split; [exact Hu|]. split; [exact Hau|].
    split; [discriminate|].
    destruct ws; exact Hjoin.
Qed.

(** The shorthand [user/repo/skills/my-skill] with [--github]. *)
Lemma recognised_shorthand_parses_witness :
  exists user repo subPath,
    parseGitHubUrl (fun _ => "") "user/repo/skills/my-skill"
      = inr (GitHubRepo.mk ("https://github.com/" ++ user ++ "/" ++ repo ++ ".git") subPath)
    /\ user <> "" /\ allChars shorthandChar user = true
    /\ repo <> ""
    /\ "user/repo/skills/my-skill"
       = (user ++ "/" ++ repo
          ++ match subPath with
             | Some p => "/" ++ p
             | None => ""
             end)%string.
Proof.
  exact (proj2 (recognised_shorthand_parses (fun _ => "") "user/repo/skills/my-skill" true
                  eq_refl eq_refl eq_refl)).
Defined.

(** ** The file structure the parser computes *)

Import SkillParser.

Lemma countOf_countExt (ext x : string) (fileTypes : list (string * nat)) :
  countOf (countExt ext fileTypes) x
  = if String.eqb ext x then S (countOf fileTypes x) else countOf fileTypes x.
Proof.
  unfold countOf. induction fileTypes as [|[k n] rest IH].
  - cbn [countExt find fst snd]. destruct (String.eqb ext x); reflexivity.
  - cbn [countExt]. destruct (String.eqb_spec k ext) as [->|N].
    + cbn [find fst snd]. destruct (String.eqb ext x); reflexivity.
    + cbn [find fst]. destruct (String.eqb_spec k x) as [->|Nx].
      * cbn [snd]. destruct (String.eqb_spec ext x) as [E|_]; [|reflexivity].
        exfalso. apply N. symmetry. exact E.
      * exact IH.
Qed.

Lemma countTotal_countExt (ext : string) (fileTypes : list (string * nat)) :
  countTotal (countExt ext fileTypes) = S (countTotal fileTypes).
Proof.
  unfold countTotal. induction fileTypes as [|[k n] rest IH]; [reflexivity|].
  cbn [countExt]. destruct (String.eqb k ext); cbn [fold_right snd].
  - reflexivity.
  - rewrite IH. lia.
Qed.

Lemma keys_countExt (ext : string) (fileTypes : list (string * nat)) :
  map fst (countExt ext fileTypes)
  = if existsb (String.eqb ext) (map fst fileTypes) then map fst fileTypes
    else (map fst fileTypes ++ [ext])%list.
Proof.
  induction fileTypes as [|[k n] rest IH]; [reflexivity|].
  cbn [countExt map fst existsb]. rewrite (String.eqb_sym ext k).
  destruct (String.eqb k ext); [reflexivity|].
  cbn [map fst orb]. rewrite IH.
  destruct (existsb (String.eqb ext) (map fst rest)); reflexivity.
Qed.

Lemma existsb_eqb_In (x : string) (l : list string) :
  existsb (String.eqb x) l = true <-> In x l.
Proof.
  rewrite existsb_exists. split.
  - intros [y [Hin E]]. apply String.eqb_eq in E. subst y. exact Hin.
  - intro H. exists x. split; [exact H | apply String.eqb_refl].
Qed.

Lemma NoDup_snoc (x : string) (l : list string) :
  NoDup l -> ~ In x l -> NoDup (l ++ [x]).
Proof.
  intros Hl Hx. induction Hl as [|y l Hy Hl IH]; cbn [app].
  - constructor; [intros []|constructor].
  - constructor.
    + intro H. apply in_app_or in H. destruct H as [H|[H|[]]].
      * exact (Hy H).
      * apply Hx. left. symmetry. exact H.
    + apply IH. intro H. apply Hx. right. exact H.
Qed.

Lemma In_keys_countExt (ext x : string) (fileTypes : list (string * nat)) :
  In x (map fst (countExt ext fileTypes)) <-> x = ext \/ In x (map fst fileTypes).
Proof.
  rewrite keys_countExt.
  destruct (existsb (String.eqb ext) (map fst fileTypes)) eqn:E.
  - apply existsb_eqb_In in E. split; [intro H; right; exact H|].
    intros [->|H]; assumption.
  - rewrite in_app_iff. cbn [In]. split.
    + intros [H|[H|[]]]; [right; exact H | left; symmetry; exact H].
    + intros [->|H]; [right; left; reflexivity | left; exact H].
Qed.

Lemma NoDup_keys_countExt (ext : string) (fileTypes : list (string * nat)) :
  NoDup (map fst fileTypes) -> NoDup (map fst (countExt ext fileTypes)).
Proof.
  intro H. rewrite keys_countExt.
  destruct (existsb (String.eqb ext) (map fst fileTypes)) eqn:E; [exact H|].
  apply NoDup_snoc; [exact H|].
  intro Hin. apply existsb_eqb_In in Hin. rewrite Hin in E. discriminate E.
Qed.

(** The histogram after the loop, from any histogram before it. *)
Lemma fileTypes_fold (files : list string) (fileTypes : list (string * nat))
  (directories : list string) :
  let result := fst (fold_left analyzeFile files (fileTypes, directories)) in
  (forall ext, countOf result ext
               = (countOf fileTypes ext + filesWithExtension files ext)%nat)
  /\ (forall ext, In ext (map fst result)
                  <-> In ext (map fst fileTypes)
                      \/ exists file, In file files /\ extensionOf file = ext)
  /\ countTotal result = (countTotal fileTypes + List.length files)%nat
  /\ (NoDup (map fst fileTypes) -> NoDup (map fst result)).
Proof.
  cbv zeta. revert fileTypes directories.
  induction files as [|file files IH]; intros fileTypes directories.
  - cbn [fold_left fst List.length]. unfold filesWithExtension. cbn [filter List.length].
    split; [intro ext; lia|].
    split; [intro ext; split; [intro H; left; exact H | intros [H|[f [[] _]]]; exact H]|].
    split; [lia|]. intro H; exact H.
  - cbn [fold_left].
    destruct (analyzeFile (fileTypes, directories) file) as [fileTypes' directories'] eqn:E.
    assert (Ef : fileTypes' = countExt (extensionOf file) fileTypes).
    { unfold analyzeFile in E. cbv zeta in E. injection E as <- _. reflexivity. }
    destruct (IH fileTypes' directories') as (Hc & Hk & Ht & Hn).
    split; [|split; [|split]].
    + intro ext. rewrite Hc, Ef, countOf_countExt.
      unfold filesWithExtension. cbn [filter].
      destruct (String.eqb (extensionOf file) ext); cbn [List.length]; lia.
    + intro ext. rewrite Hk, Ef, In_keys_countExt. cbn [In]. split.
      * intros [[->|H]|[f [Hf Hx]]].
        -- right. exists file. split; [left; reflexivity|reflexivity].
        -- left. exact H.
        -- right. exists f. split; [right; exact Hf|exact Hx].
      * intros [H|[f [[->|Hf] Hx]]].
        -- left. right. exact H.
        -- left. left. symmetry. exact Hx.
        -- right. exists f. split; assumption.
    + rewrite Ht, Ef, countTotal_countExt. cbn [List.length]. lia.
    + intro H. apply Hn. rewrite Ef. apply NoDup_keys_countExt. exact H.
Qed.

(** The extension histogram accounts for every file once: the count under
    an extension is the number of files with that extension, letter case
    apart; the extensions that have an entry are those of the files, none
    having two entries; and the counts add up to [totalFiles], the number
    of files. *)
Theorem fileTypes_count_every_file (files : list string) :
  let structure := analyzeStructure files in
  (forall ext, countOf (FileStructure.fileTypes structure) ext = filesWithExtension files ext)
  /\ (forall ext, In ext (map fst (FileStructure.fileTypes structure))
                  <-> exists file, In file files /\ extensionOf file = ext)
  /\ NoDup (map fst (FileStructure.fileTypes structure))
  /\ countTotal (FileStructure.fileTypes structure) = FileStructure.totalFiles structure
  /\ FileStructure.totalFiles structure = List.length files.
Proof.
  cbv zeta. unfold analyzeStructure.
  destruct (fileTypes_fold files [] []) as (Hc & Hk & Ht & Hn).
  destruct (fold_left analyzeFile files ([], [])) as [fileTypes directories].
  cbn [fst FileStructure.fileTypes FileStructure.totalFiles] in *.
  split; [intro ext; rewrite Hc; reflexivity|].
  split; [|split; [apply Hn; constructor|split; [exact Ht|reflexivity]]].
  intro ext. rewrite Hk. split; [intros [[]|H]; exact H | intro H; right; exact H].
Qed.

(** ** The directories the parser lists *)

Lemma beforeLastSlash_Some (s d : string) :
  Path.beforeLastSlash s = Some d -> exists t, s = (d ++ "/" ++ t)%string.
Proof.
  revert d. induction s as [|c r IH]; intros d H; [discriminate H|].
  cbn [Path.beforeLastSlash] in H.
  destruct (Path.beforeLastSlash r) as [d'|].
  - injection H as <-. destruct (IH d' eq_refl) as [t Ht].
    exists t. cbn [append]. rewrite Ht. reflexivity.
  - destruct (Ascii.eqb_spec c "/") as [->|_]; [|discriminate H].
    injection H as <-. exists r. reflexivity.
Qed.

Lemma dropTrailingSlashes_prefix (s : string) :
  exists t, s = (Path.dropTrailingSlashes s ++ t)%string.
Proof.
  induction s as [|c r [t IH]]; [exists ""; reflexivity|].
  cbn [Path.dropTrailingSlashes].
  destruct (Path.dropTrailingSlashes r) as [|c' r'] eqn:E.
  - destruct (Ascii.eqb c "/").
    + exists (String c r). reflexivity.
    + exists t. cbn [append] in *. rewrite <- IH. reflexivity.
  - exists t. cbn [append] in *. rewrite <- IH. reflexivity.
Qed.

(** The first piece of a text: the text is the piece, or the piece, the
    separator and more; the piece does not hold the separator. *)
Lemma hd_splitChar (s : string) :
  exists q,
    s = (hd "" (splitChar "/" s) ++ q)%string
    /\ (q = "" \/ exists q', q = String "/" q')
    /\ allChars notSlash (hd "" (splitChar "/" s)) = true.
Proof.
  induction s as [|c r (q & Hs & Hq & Ha)].
  - exists "". repeat split. left. reflexivity.
  - cbn [splitChar]. destruct (Ascii.eqb c "/") eqn:E.
    + apply Ascii.eqb_eq in E. subst c. exists (String "/" r).
      repeat split. right. exists r. reflexivity.
    + pose proof (splitChar_not_nil "/" r) as Hn.
      destruct (splitChar "/" r) as [|w ws]; [contradiction|].
      cbn [hd] in *. exists q.
      split; [cbn [append]; rewrite <- Hs; reflexivity|].
      split; [exact Hq|].
      cbn [allChars]. unfold notSlash at 1. rewrite E, Ha. reflexivity.
Qed.

Lemma notSlash_includes (d : string) :
  allChars notSlash d = true <-> includes d "/" = false.
Proof.
  induction d as [|c d IH]; [split; reflexivity|].
  cbn [allChars includes prefix]. unfold notSlash at 1.
  destruct (ascii_dec "/" c) as [<-|N].
  - cbn. split; [discriminate|destruct d; discriminate].
  - assert (E : Ascii.eqb c "/" = false)
      by (apply Ascii.eqb_neq; intro E; apply N; symmetry; exact E).
    rewrite E. cbn [negb andb orb]. exact IH.
Qed.

Lemma dirname_cases (file : string) :
  Path.dirname file = "." \/ Path.dirname file = "/" \/ Path.dirname file = "//"
  \/ exists more, file = (Path.dirname file ++ "/" ++ more)%string.
Proof.
  destruct file as [|c0 rest]; [left; reflexivity|].
  unfold Path.dirname. cbv zeta.
  destruct (Path.beforeLastSlash (Path.dropTrailingSlashes rest)) as [dd|] eqn:B.
  - destruct (Ascii.eqb c0 "/" && String.eqb dd ""); [right; right; left; reflexivity|].
    right. right. right.
    destruct (beforeLastSlash_Some _ _ B) as [t Ht].
    destruct (dropTrailingSlashes_prefix rest) as [t' Ht'].
    exists (t ++ t')%string. cbn [append]. rewrite Ht' at 1. rewrite Ht.
    rewrite !append_assoc. reflexivity.
  - destruct (Ascii.eqb c0 "/"); [right; left; reflexivity | left; reflexivity].
Qed.

(** A directory that is added is the first piece of the path of the file:
    not empty, without a slash, and followed by a slash in the path. *)
Lemma topDirectory_sound (file d : string) :
  topDirectory file = Some d ->
  d <> "" /\ includes d "/" = false /\ startsWith file (d ++ "/") = true.
Proof.
  unfold topDirectory. cbv zeta.
  destruct (dirname_cases file) as [E|[E|[E|[more Hfile]]]];
    try (rewrite E; cbn; discriminate).
  destruct (negb (String.eqb (Path.dirname file) ".")); [|discriminate].
  destruct (hd_splitChar (Path.dirname file)) as (q & Hs & Hq & Ha).
  unfold truthy.
  destruct (String.eqb_spec (hd "" (splitChar "/" (Path.dirname file))) "") as [E|N];
    [discriminate|].
  cbn [negb]. intro H. injection H as <-.
  split; [exact N|]. split; [apply notSlash_includes; exact Ha|].
  unfold startsWith. apply prefix_iff.
  destruct Hq as [->|[q' ->]].
  - rewrite append_empty_r in Hs. exists more. rewrite Hfile at 1. rewrite <- Hs.
    rewrite append_assoc. reflexivity.
  - exists (q' ++ "/" ++ more)%string. rewrite Hfile at 1. rewrite Hs at 1.
    rewrite !append_assoc. reflexivity.
Qed.

Lemma dropTrailingSlashes_app (a b : string) :
  allChars (Ascii.eqb "/") b = false ->
  Path.dropTrailingSlashes (a ++ b) = (a ++ Path.dropTrailingSlashes b)%string
  /\ Path.dropTrailingSlashes b <> "".
Proof.
  intro H.
  assert (Hb : Path.dropTrailingSlashes b <> "").
  { induction b as [|c b IH]; [discriminate H|].
    cbn [allChars] in H. cbn [Path.dropTrailingSlashes].
    destruct (Path.dropTrailingSlashes b) as [|c' b'] eqn:E; [|discriminate].
    rewrite Ascii.eqb_sym in H.
    destruct (Ascii.eqb c "/"); [|discriminate].
    cbn [andb] in H. exfalso. exact (IH H eq_refl). }
  split; [|exact Hb].
  induction a as [|c a IH]; [reflexivity|].
  cbn [append Path.dropTrailingSlashes]. rewrite IH.
  destruct (a ++ Path.dropTrailingSlashes b)%string eqn:E; [|reflexivity].
  exfalso. destruct a; [cbn in E; exact (Hb E) | discriminate E].
Qed.

Lemma beforeLastSlash_app (a b : string) :
  exists q,
    Path.beforeLastSlash (a ++ String "/" b) = Some (a ++ q)%string
    /\ (q = "" \/ exists q', q = String "/" q').
Proof.
  induction a as [|c a (q & IH & Hq)].
  - cbn [append Path.beforeLastSlash].
    destruct (Path.beforeLastSlash b) as [d'|].
    + exists (String "/" d'). split; [reflexivity|]. right. exists d'. reflexivity.
    + exists "". split; [reflexivity|]. left. reflexivity.
  - exists q. split; [|exact Hq].
    cbn [append Path.beforeLastSlash]. rewrite IH. reflexivity.
Qed.

(** A file under a first directory that is neither empty nor [.], followed
    by something that is not only slashes, has that directory added. *)
Lemma topDirectory_complete (d name : string) :
  d <> "" -> d <> "." -> includes d "/" = false ->
  allChars (Ascii.eqb "/") name = false ->
  topDirectory (d ++ "/" ++ name) = Some d.
Proof.
  intros Hne Hdot Hslash Hname.
  apply notSlash_includes in Hslash.
  destruct d as [|c0 d0]; [contradiction|].
  cbn [allChars] in Hslash. apply andb_true_iff in Hslash. destruct Hslash as [Hc0 Hd0].
  unfold notSlash in Hc0. apply negb_true_iff in Hc0.
  destruct (dropTrailingSlashes_app (d0 ++ "/") name Hname) as [Ed _].
  destruct (beforeLastSlash_app d0 (Path.dropTrailingSlashes name)) as (q & Eb & Hq).
  assert (Edir : Path.dirname (String c0 d0 ++ "/" ++ name) = (String c0 d0 ++ q)%string).
  { cbn [append]. unfold Path.dirname. cbv zeta.
    change (d0 ++ String "/" name)%string with (d0 ++ "/" ++ name)%string.
    rewrite <- append_assoc, Ed, append_assoc.
    change ("/" ++ Path.dropTrailingSlashes name)%string
      with (String "/" (Path.dropTrailingSlashes name)).
    rewrite Eb, Hc0. reflexivity. }
  unfold topDirectory. cbv zeta. rewrite Edir.
  assert (Ehd : hd "" (splitChar "/" (String c0 d0 ++ q)) = String c0 d0).
  { destruct Hq as [->|[q' ->]].
    - rewrite append_empty_r.
      assert (E1 : splitChar "/" (String c0 d0) = [String c0 d0]).
      { apply splitChar_one_piece. apply notSlash_includes.
        cbn [allChars]. unfold notSlash at 1. rewrite Hc0, Hd0. reflexivity. }
      rewrite E1. reflexivity.
    - rewrite splitChar_app; [reflexivity|].
      cbn [allChars]. rewrite Hc0. exact Hd0. }
  rewrite Ehd.
  destruct (String.eqb_spec (String c0 d0 ++ q) ".") as [E|_].
  - exfalso. destruct Hq as [->|[q' ->]].
    + rewrite append_empty_r in E. exact (Hdot E).
    + cbn [append] in E. injection E as _ E. destruct d0; discriminate E.
  - reflexivity.
Qed.

(** The directories after the loop, from any directories before it. *)
Lemma directories_fold (files : list string) (fileTypes : list (string * nat))
  (directories : list string) :
  let result := snd (fold_left analyzeFile files (fileTypes, directories)) in
  (forall d, In d result
             <-> In d directories
                 \/ exists file, In file files /\ topDirectory file = Some d)
  /\ (List.length result <= List.length directories + List.length files)%nat
  /\ (NoDup directories -> NoDup result).
Proof.
  cbv zeta. revert fileTypes directories.
  induction files as [|file files IH]; intros fileTypes directories.
  - cbn [fold_left snd List.length].
    split; [intro d; split; [intro H; left; exact H | intros [H|[f [[] _]]]; exact H]|].
    split; [lia|]. intro H. exact H.
  - cbn [fold_left].
    destruct (analyzeFile (fileTypes, directories) file) as [fileTypes' directories'] eqn:E.
    assert (Ed : directories'
                 = match topDirectory file with
                   | Some d => addDirectory d directories
                   | None => directories
                   end).
    { unfold analyzeFile in E. cbv zeta in E. injection E as _ <-.
      unfold topDirectory. cbv zeta.
      destruct (negb (String.eqb (Path.dirname file) ".")); [|reflexivity].
      destruct (truthy (hd "" (splitChar "/" (Path.dirname file)))); reflexivity. }
    destruct (IH fileTypes' directories') as (Hin & Hlen & Hnd).
    assert (Hadd : forall d x, In x (addDirectory d directories) <-> x = d \/ In x directories).
    { intros d x. unfold addDirectory, arrayIncludes.
      destruct (existsb (String.eqb d) directories) eqn:Ex.
      - apply existsb_eqb_In in Ex. split; [intro H; right; exact H|].
        intros [->|H]; assumption.
      - rewrite in_app_iff. cbn [In]. split.
        + intros [H|[H|[]]]; [right; exact H | left; symmetry; exact H].
        + intros [->|H]; [right; left; reflexivity | left; exact H]. }
    split; [|split].
    + intro d. rewrite Hin. cbn [In]. rewrite Ed. split.
      * intros [H|[f [Hf Hx]]].
        -- destruct (topDirectory file) as [d'|] eqn:T.
           ++ apply Hadd in H. destruct H as [->|H].
              ** right. exists file. split; [left; reflexivity|exact T].
              ** left. exact H.
           ++ left. exact H.
        -- right. exists f. split; [right; exact Hf|exact Hx].
      * intros [H|[f [[->|Hf] Hx]]].
        -- left. destruct (topDirectory file); [apply Hadd; right; exact H|exact H].
        -- left. rewrite Hx. apply Hadd. left. reflexivity.
        -- right. exists f. split; assumption.
    + assert (L : (List.length directories' <= S (List.length directories))%nat).
      { rewrite Ed. destruct (topDirectory file) as [d'|]; [|lia].
        unfold addDirectory. destruct (arrayIncludes directories d'); [lia|].
        rewrite length_app. cbn [List.length]. lia. }
      cbn [List.length]. lia.
    + intro H. apply Hnd. rewrite Ed.
      destruct (topDirectory file) as [d'|]; [|exact H].
      unfold addDirectory, arrayIncludes.
      destruct (existsb (String.eqb d') directories) eqn:Ex; [exact H|].
      apply NoDup_snoc; [exact H|].
      intro Hd. apply existsb_eqb_In in Hd. rewrite Hd in Ex. discriminate Ex.
Qed.

(** [directories] lists the top-level directories of the skill, each once:
    every entry is a name without a slash that some file path starts with,
    followed by a slash; and the first piece of every file path that has
    one is listed, unless it is [.].  There are no more directories than
    files. *)
Theorem directories_are_top_level (files : list string) :
  let directories := FileStructure.directories (analyzeStructure files) in
  NoDup directories
  /\ (List.length directories <= List.length files)%nat
  /\ (forall d, In d directories ->
        d <> "" /\ includes d "/" = false
        /\ exists file, In file files /\ startsWith file (d ++ "/") = true)
  /\ (forall d name, In (d ++ "/" ++ name)%string files ->
        d <> "" -> d <> "." -> includes d "/" = false ->
        allChars (Ascii.eqb "/") name = false ->
        In d directories).
Proof.
  cbv zeta. unfold analyzeStructure.
  destruct (directories_fold files [] []) as (Hin & Hlen & Hnd).
  destruct (fold_left analyzeFile files ([], [])) as [fileTypes directories].
  cbn [snd FileStructure.directories List.length] in *.
  split; [apply Hnd; constructor|]. split; [exact Hlen|]. split.
  - intros d Hd. apply Hin in Hd. destruct Hd as [[]|[file [Hf Ht]]].
    destruct (topDirectory_sound _ _ Ht) as (H1 & H2 & H3).
    split; [exact H1|]. split; [exact H2|]. exists file. split; assumption.
  - intros d name Hf H1 H2 H3 H4. apply Hin. right.
    exists (d ++ "/" ++ name)%string. split; [exact Hf|].
    apply topDirectory_complete; assumption.
Qed.

(** The files of a skill with a script directory. *)
Lemma directories_are_top_level_witness :
  In "scripts"
     (FileStructure.directories
        (analyzeStructure ["SKILL.md"; "scripts/lib/run.sh"; "scripts/check.sh"])).
Proof.
  apply (proj2 (proj2 (proj2 (directories_are_top_level
                                ["SKILL.md"; "scripts/lib/run.sh"; "scripts/check.sh"])))
           "scripts" "lib/run.sh").
  - right. left. reflexivity.
  - discriminate.
  - discriminate.
  - reflexivity.
  - reflexivity.
Defined.

(** ** Letter case *)

Lemma lowerChar_digit_stop (c : ascii) :
  isDigit (lowerChar c) = isDigit c /\ Ascii.eqb "." (lowerChar c) = Ascii.eqb "." c.
Proof.
  destruct c as [[] [] [] [] [] [] [] []]; split; reflexivity.
Qed.

Lemma sameDigitsAndStops_toLowerCase (s : string) :
  sameDigitsAndStops s (toLowerCase s) = true.
Proof.
  induction s as [|c s IH]; [reflexivity|].
  cbn [toLowerCase sameDigitsAndStops].
  destruct (lowerChar_digit_stop c) as [-> ->].
  rewrite !Bool.eqb_reflx, IH. reflexivity.
Qed.

Lemma sameDigitsAndStops_sym (s t : string) :
  sameDigitsAndStops s t = sameDigitsAndStops t s.
Proof.
  revert t. induction s as [|a s IH]; intros [|b t]; try reflexivity.
  cbn [sameDigitsAndStops]. rewrite IH.
  destruct (isDigit a), (isDigit b), (Ascii.eqb "." a), (Ascii.eqb "." b); reflexivity.
Qed.

Lemma sameDigitsAndStops_trans (s t u : string) :
  sameDigitsAndStops s t = true -> sameDigitsAndStops t u = true ->
  sameDigitsAndStops s u = true.
Proof.
  revert t u. induction s as [|a s IH]; intros [|b t] [|c u]; try discriminate; [reflexivity|].
  cbn [sameDigitsAndStops]. intros H1 H2.
  apply andb_true_iff in H1. destruct H1 as [H1 H1'].
  apply andb_true_iff in H2. destruct H2 as [H2 H2'].
  rewrite (IH _ _ H1' H2'), andb_true_r.
  destruct (isDigit a), (isDigit b), (isDigit c),
    (Ascii.eqb "." a), (Ascii.eqb "." b), (Ascii.eqb "." c);
    try reflexivity; discriminate.
Qed.

(** The pattern of a numbered step looks at nothing but where the digits
    and the full stops are. *)
Lemma numberedStep_shape (p q : option ascii) (s t : string) :
  sameDigitsAndStops s t = true ->
  found (execAt numberedStep p s) = found (execAt numberedStep q t).
Proof.
  unfold execAt, numberedStep, plus, seq. cbn [lit]. unfold seq, eps.
  set (k := fun _ : position => Some "").
  assert (Hdot : forall p q s t, sameDigitsAndStops s t = true ->
                   found (chr (isChar ".") k (p, s)) = found (chr (isChar ".") k (q, t))).
  { intros p' q' [|a s'] [|b t'] H; try discriminate H; [reflexivity|].
    cbn [sameDigitsAndStops] in H.
    apply andb_true_iff in H. destruct H as [H _].
    apply andb_true_iff in H. destruct H as [_ H]. apply Bool.eqb_prop in H.
    unfold chr, isChar. cbn [snd]. rewrite H. destruct (Ascii.eqb "." b); reflexivity. }
  assert (Hstar : forall s t p q, sameDigitsAndStops s t = true ->
                    found (starFrom isDigit (chr (isChar ".") k) p s)
                    = found (starFrom isDigit (chr (isChar ".") k) q t)).
  { clear p q s t. induction s as [|a s IH]; intros [|b t] p q H; try discriminate H.
    - reflexivity.
    - pose proof H as H0. cbn [sameDigitsAndStops] in H.
      apply andb_true_iff in H. destruct H as [H Hr].
      apply andb_true_iff in H. destruct H as [Hd _]. apply Bool.eqb_prop in Hd.
      cbn [starFrom]. rewrite Hd.
      pose proof (Hdot p q _ _ H0) as Hk.
      destruct (isDigit b); [|exact Hk].
      pose proof (IH t (Some a) (Some b) Hr) as Hi.
      destruct (starFrom isDigit (chr (isChar ".") k) (Some a) s),
        (starFrom isDigit (chr (isChar ".") k) (Some b) t);
        try discriminate Hi; cbn [consumed orElse found]; try reflexivity.
      exact Hk. }
  intro H. destruct s as [|a s], t as [|b t]; try discriminate H; [reflexivity|].
  cbn [sameDigitsAndStops] in H.
  apply andb_true_iff in H. destruct H as [H Hr].
  apply andb_true_iff in H. destruct H as [Hd _]. apply Bool.eqb_prop in Hd.
  unfold chr at 1 3. cbn [snd]. rewrite Hd. destruct (isDigit b); [|reflexivity].
  unfold star. cbn [fst snd].
  pose proof (Hstar s t (Some a) (Some b) Hr) as Hi.
  destruct (starFrom isDigit (chr (isChar ".") k) (Some a) s),
    (starFrom isDigit (chr (isChar ".") k) (Some b) t);
    try discriminate Hi; reflexivity.
Qed.

Lemma testFrom_numberedStep_shape (s t : string) (p q : option ascii) :
  sameDigitsAndStops s t = true ->
  testFrom numberedStep p s = testFrom numberedStep q t.
Proof.
  revert t p q. induction s as [|a s IH]; intros [|b t] p q H; try discriminate H.
  - reflexivity.
  - pose proof (numberedStep_shape p q _ _ H) as Hf.
    cbn [sameDigitsAndStops] in H. apply andb_true_iff in H. destruct H as [_ Hr].
    cbn [testFrom].
    destruct (execAt numberedStep p (String a s)),
      (execAt numberedStep q (String b t)); try discriminate Hf; try reflexivity.
    exact (IH t (Some a) (Some b) Hr).
Qed.

(** Clarity, Safety, Dependencies and Error Handling do not see the case of
    the letters: two documents that are the same once lower-cased get the
    same score and the same findings in these four categories. *)
Theorem letter_case_is_ignored (skill1 skill2 : ParsedSkill.t) :
  toLowerCase (ParsedSkill.skillMdContent skill1)
    = toLowerCase (ParsedSkill.skillMdContent skill2) ->
  scoreClarity skill1 = scoreClarity skill2
  /\ scoreSafety skill1 = scoreSafety skill2
  /\ scoreDependencies skill1 = scoreDependencies skill2
  /\ scoreErrorHandling skill1 = scoreErrorHandling skill2.
Proof.
  intro H.
  assert (Hn : test numberedStep (ParsedSkill.skillMdContent skill1)
               = test numberedStep (ParsedSkill.skillMdContent skill2)).
  { unfold test. apply testFrom_numberedStep_shape.
    apply (sameDigitsAndStops_trans _ (toLowerCase (ParsedSkill.skillMdContent skill1))).
    - apply sameDigitsAndStops_toLowerCase.
    - rewrite H, sameDigitsAndStops_sym. apply sameDigitsAndStops_toLowerCase. }
  unfold scoreClarity, clarityChecks, scoreSafety, safetyChecks,
    scoreDependencies, dependenciesChecks, scoreErrorHandling, errorHandlingChecks.
  cbv zeta. rewrite H, Hn. repeat split.
Qed.

(** The same steps, shouted. *)
Lemma letter_case_is_ignored_witness :
  scoreClarity (documentOf "1. RUN `RM -RF BUILD` WHEN DONE")
    = scoreClarity (documentOf "1. run `rm -rf build` when done")
  /\ scoreSafety (documentOf "1. RUN `RM -RF BUILD` WHEN DONE")
     = scoreSafety (documentOf "1. run `rm -rf build` when done")
  /\ scoreDependencies (documentOf "1. RUN `RM -RF BUILD` WHEN DONE")
     = scoreDependencies (documentOf "1. run `rm -rf build` when done")
  /\ scoreErrorHandling (documentOf "1. RUN `RM -RF BUILD` WHEN DONE")
     = scoreErrorHandling (documentOf "1. run `rm -rf build` when done").
Proof.
  apply (letter_case_is_ignored (documentOf "1. RUN `RM -RF BUILD` WHEN DONE")
           (documentOf "1. run `rm -rf build` when done")).
  reflexivity.
Defined.

(** ** The name and the description the parser extracts *)

Import RegexGroup.

Lemma lastChar_None (s : string) : lastChar s = None -> s = "".
Proof.
  induction s as [|c s IH]; [reflexivity|].
  cbn [lastChar]. destruct s as [|d s]; [discriminate|].
  intro H. discriminate (IH H).
Qed.

(** The search for a group goes over a text in which the pattern matches
    nowhere. *)
Lemma groupFrom_skip (r : re) (pre rest : string) :
  (forall p a x, pre = (a ++ x)%string -> x <> "" -> r group (p, (x ++ rest)%string) = None) ->
  forall prev,
    groupFrom r prev (pre ++ rest)
    = groupFrom r (match lastChar pre with Some c => Some c | None => prev end) rest.
Proof.
  induction pre as [|c pre IH]; intros H prev; [reflexivity|].
  cbn [append groupFrom].
  assert (H0 : r group (prev, String c (pre ++ rest)) = None)
    by (apply (H prev "" (String c pre) eq_refl); discriminate).
  rewrite H0, IH.
  - cbn [lastChar]. destruct pre as [|d pre]; [reflexivity|].
    destruct (lastChar (String d pre)) eqn:L; [reflexivity|].
    discriminate (lastChar_None _ L).
  - intros p a x E Hx. apply (H p (String c a) x); [cbn; rewrite E; reflexivity|exact Hx].
Qed.

Lemma groupFrom_none (r : re) (s : string) :
  (forall p a x, s = (a ++ x)%string -> r group (p, x) = None) ->
  forall prev, groupFrom r prev s = None.
Proof.
  induction s as [|c s IH]; intros H prev.
  - cbn [groupFrom]. rewrite (H prev "" "" eq_refl). reflexivity.
  - cbn [groupFrom]. rewrite (H prev "" (String c s) eq_refl).
    apply IH. intros p a x E. apply (H p (String c a) x). cbn. rewrite E. reflexivity.
Qed.

(** A literal outside the group matches only where the text starts with
    it. *)
Lemma skipLit_prefix (lit : string) (k : cont) (p : option ascii) (s : string) :
  prefix lit s = false -> skipLit lit k (p, s) = None.
Proof.
  revert p s. induction lit as [|c lit IH]; intros p s H.
  - destruct s; discriminate H.
  - cbn [skipLit]. unfold seq, skipChr, isChar. cbn [snd].
    destruct s as [|d s]; [reflexivity|].
    cbn [prefix] in H. destruct (ascii_dec c d) as [<-|N].
    + rewrite Ascii.eqb_refl. apply IH. exact H.
    + destruct (Ascii.eqb_spec c d) as [E|_]; [contradiction|reflexivity].
Qed.

Lemma skipLit_match (lit : string) (k : cont) (p : option ascii) (s : string) :
  lit <> "" ->
  skipLit lit k (p, (lit ++ s)%string) = k (lastChar lit, s).
Proof.
  revert p. induction lit as [|c lit IH]; intros p H; [contradiction|].
  cbn [skipLit append]. unfold seq, skipChr, isChar. cbn [snd].
  rewrite Ascii.eqb_refl.
  destruct lit as [|d lit]; [reflexivity|].
  rewrite (IH (Some c)) by discriminate. reflexivity.
Qed.

Lemma includes_suffix (a x p : string) :
  includes (a ++ x) p = false -> includes x p = false.
Proof.
  intro H. destruct (includes x p) eqn:E; [|reflexivity].
  rewrite (includes_app_r a x p E) in H. discriminate H.
Qed.

Lemma includes_prefix_false (x p : string) : includes x p = false -> prefix p x = false.
Proof.
  intro H. destruct x; cbn [includes] in H; apply orb_false_elim in H; exact (proj1 H).
Qed.

(** A text that does not hold a literal has no line that starts with it. *)
Lemma line_pattern_none (lit : string) (r : re) (s : string) :
  includes s lit = false ->
  forall prev, groupFrom (bolM >> skipLit lit >> r)%regex prev s = None.
Proof.
  intro H. apply groupFrom_none. intros p a x E.
  unfold seq, bolM. cbn [fst].
  assert (F : skipLit lit (r group) (p, x) = None).
  { apply skipLit_prefix, includes_prefix_false. rewrite E in H.
    exact (includes_suffix _ _ _ H). }
  destruct p as [c|]; [destruct (isLineTerminator c)|]; first [exact F | reflexivity].
Qed.

(** The greedy run of [.] of a group, up to the end of the line. *)
Lemma starFrom_dot_line (m post : string) :
  allChars dot m = true -> endsLine post = true ->
  forall prev, starFrom dot (eolM group) prev (m ++ post) = Some m.
Proof.
  intros Hm Hp. induction m as [|x m IH]; intro prev.
  - cbn [append]. unfold endsLine in Hp. destruct post as [|c post].
    + reflexivity.
    + cbn [starFrom]. unfold dot. rewrite Hp. cbn [negb].
      unfold eolM. cbn [snd]. rewrite Hp. reflexivity.
  - cbn [allChars] in Hm. apply andb_true_iff in Hm. destruct Hm as [Hx Hm].
    cbn [append starFrom]. rewrite Hx, (IH Hm). reflexivity.
Qed.

(** A document is named by its first heading line: when the first [# ] of
    the text starts a line and is followed on that line by a title, the
    name is the title without the white space of its ends, whatever the
    front matter and the directory are. *)
Theorem name_is_first_heading
  (pre title post skillPath : string) (frontmatter : list (string * string)) :
  includes pre "# " = false -> startsLine pre = true ->
  title <> "" -> allChars dot title = true -> endsLine post = true ->
  extractName (pre ++ "# " ++ title ++ post) skillPath frontmatter = trim title.
Proof.
  intros Hpre Hstart Htitle Hdot Hend.
  unfold extractName. cbv zeta.
  assert (Hc : truthy (pre ++ "# " ++ title ++ post) = true)
    by (destruct pre; reflexivity).
  rewrite Hc. cbn [negb].
  assert (Hm : matchGroup headingLine (pre ++ "# " ++ title ++ post) = Some title).
  { unfold matchGroup. rewrite groupFrom_skip.
    - destruct title as [|t0 title]; [contradiction|].
      cbn [allChars] in Hdot. apply andb_true_iff in Hdot. destruct Hdot as [Ht0 Hdot].
      assert (Hb : forall k s, bolM k (match lastChar pre with
                                        | Some c => Some c
                                        | None => None
                                        end, s)
                               = k (match lastChar pre with
                                    | Some c => Some c
                                    | None => None
                                    end, s)).
      { intros k s. unfold bolM. cbn [fst]. unfold startsLine in Hstart.
        destruct (lastChar pre) as [c|]; [rewrite Hstart|]; reflexivity. }
      cbn [append groupFrom]. unfold headingLine, seq at 1. rewrite Hb.
      unfold seq at 1.
      change (String "#" (String " " (String t0 (title ++ post))))
        with ("# " ++ String t0 (title ++ post))%string.
      rewrite skipLit_match by discriminate.
      unfold seq, plus, seq, chr at 1. cbn [snd]. rewrite Ht0.
      unfold star. cbn [fst snd].
      rewrite (starFrom_dot_line _ _ Hdot Hend). reflexivity.
    - intros p a x E Hx.
      unfold headingLine, seq, bolM. cbn [fst].
      assert (F : forall k, skipLit "# " k (p, (x ++ "# " ++ title ++ post)%string) = None).
      { intro k. apply skipLit_prefix.
        rewrite E in Hpre. apply includes_suffix, includes_prefix_false in Hpre.
        destruct x as [|c x]; [contradiction|].
        cbn [append prefix] in *.
        destruct (ascii_dec "#" c) as [<-|_]; [|reflexivity].
        destruct x as [|d x]; [reflexivity|].
        cbn [append prefix] in Hpre |- *.
        destruct (ascii_dec " " d); [destruct x; discriminate Hpre | reflexivity]. }
      destruct p as [c|]; [destruct (isLineTerminator c)|]; first [apply F | reflexivity]. }
  rewrite Hm. cbn [present].
  assert (Ht : truthy title = true) by (destruct title; [contradiction|reflexivity]).
  rewrite Ht. reflexivity.
Qed.

(** The heading [# Build Helper] of a document with front matter. *)
Lemma name_is_first_heading_witness :
  extractName ("---
name: helper
---
" ++ "# " ++ "Build Helper " ++ "

Use when the build output must be listed.") "/skills/build-helper" [("name", "helper")]
  = trim "Build Helper ".
Proof.
  apply (name_is_first_heading "---
name: helper
---
" "Build Helper " "

Use when the build output must be listed." "/skills/build-helper" [("name", "helper")]).
  - reflexivity.
  - reflexivity.
  - discriminate.
  - reflexivity.
  - reflexivity.
Defined.

(** Without a heading, a name in the front matter or a [name:] line, the
    skill is named after its directory: a text that holds neither [# ] nor
    [name:], the empty text of a missing [SKILL.md] included, gets the last
    portion of the path of the skill as its name. *)
Theorem name_falls_back_to_directory
  (content skillPath : string) (frontmatter : list (string * string)) :
  includes content "# " = false -> includes content "name:" = false ->
  present (field frontmatter "name") = false ->
  extractName content skillPath frontmatter = Path.basename skillPath.
Proof.
  intros Hh Hn Hf. unfold extractName. cbv zeta.
  destruct (truthy content); [|reflexivity]. cbn [negb].
  unfold matchGroup.
  rewrite (line_pattern_none "# " (plus dot >> eolM)%regex content Hh None : 
             groupFrom headingLine None content = None).
  cbn [present]. rewrite Hf.
  rewrite (line_pattern_none "name:" (skipStar isSpace >> plus dot >> eolM)%regex content Hn None :
             groupFrom nameLine None content = None).
  reflexivity.
Qed.

(** A text of plain steps in the directory [/skills/build-helper/]. *)
Lemma name_falls_back_to_directory_witness :
  extractName "Run make, then make check." "/skills/build-helper/" []
  = Path.basename "/skills/build-helper/".
Proof.
  apply (name_falls_back_to_directory "Run make, then make check." "/skills/build-helper/" []);
    reflexivity.
Defined.

Lemma silent_group : silent group.
Proof. intros p res H. injection H as <-. reflexivity. Qed.

Lemma silent_skipLit (lit : string) (k : cont) : silent k -> silent (skipLit lit k).
Proof.
  revert k. induction lit as [|c lit IH]; intros k Hk; [exact Hk|].
  cbn [skipLit]. unfold seq, skipChr. intros [p s] res. cbn [snd].
  destruct s as [|d s]; [discriminate|].
  destruct (isChar c d); [|discriminate].
  apply (IH k Hk).
Qed.

Lemma silent_skipStar (P : ascii -> bool) (k : cont) : silent k -> silent (skipStar P k).
Proof.
  intros Hk [p s] res. unfold skipStar. cbn [fst snd].
  revert p. induction s as [|c s IH]; intro p; cbn [skipStarFrom].
  - apply Hk.
  - destruct (P c); [|apply Hk].
    unfold orElse. destruct (skipStarFrom P k (Some c) s) eqn:E.
    + intro H. injection H as <-. exact (IH _ E).
    + apply Hk.
Qed.

(** A greedy run outside the group, when what follows it matches. *)
Lemma skipStarFrom_run (P : ascii -> bool) (k : cont) (m rest res : string) :
  allChars P m = true ->
  match rest with
  | EmptyString => True
  | String c _ => P c = false
  end ->
  (forall p, k (p, rest) = Some res) ->
  forall prev, skipStarFrom P k prev (m ++ rest) = Some res.
Proof.
  intros Hm Hr Hk. induction m as [|x m IH]; intro prev.
  - cbn [append]. destruct rest as [|c rest]; cbn [skipStarFrom]; [apply Hk|].
    rewrite Hr. apply Hk.
  - cbn [allChars] in Hm. apply andb_true_iff in Hm. destruct Hm as [Hx Hm].
    cbn [append skipStarFrom]. rewrite Hx, (IH Hm). reflexivity.
Qed.

Lemma afterParagraph_inside (p : option ascii) (x post : string) :
  x <> "" -> tightLines x = true -> afterParagraph (p, (x ++ post)%string) = None.
Proof.
  intros Hx Ht. destruct x as [|c x]; [contradiction|].
  cbn [tightLines] in Ht. apply andb_true_iff in Ht. destruct Ht as [Hc _].
  unfold afterParagraph, alt, seq, eol. cbn [append snd].
  destruct (Ascii.eqb_spec c "010") as [->|N].
  - destruct x as [|d x]; [discriminate Hc|].
    apply andb_true_iff in Hc. destruct Hc as [Hd Hh].
    apply negb_true_iff in Hd, Hh.
    change (String "010" (String d x ++ post))
      with (LF ++ String d (x ++ post))%string.
    rewrite !skipLit_match by discriminate.
    unfold skipStar. cbn [fst snd skipStarFrom]. rewrite Hd.
    assert (F1 : skipLit LF group (lastChar LF, String d (x ++ post)) = None).
    { apply skipLit_prefix. cbn [LF prefix].
      destruct (ascii_dec "010" d) as [<-|_]; [discriminate Hd|reflexivity]. }
    assert (F2 : skipLit "#" group (lastChar LF, String d (x ++ post)) = None).
    { apply skipLit_prefix. cbn [prefix].
      destruct (ascii_dec "#" d) as [<-|_]; [discriminate Hh|reflexivity]. }
    rewrite F1, F2. reflexivity.
  - assert (F : forall k, skipLit LF k (p, String c (x ++ post)) = None).
    { intro k. apply skipLit_prefix. cbn [LF prefix].
      destruct (ascii_dec "010" c) as [E|_]; [|reflexivity].
      exfalso. apply N. symmetry. exact E. }
    rewrite !F. reflexivity.
Qed.

Lemma afterParagraph_end (p : option ascii) (post : string) :
  endsParagraph post = true -> afterParagraph (p, post) = Some "".
Proof.
  intro H.
  assert (S1 : silent ((skipLit LF >> skipStar isSpace >> skipLit LF)%regex group)).
  { unfold seq. apply silent_skipLit, silent_skipStar, silent_skipLit, silent_group. }
  unfold afterParagraph, alt.
  destruct ((skipLit LF >> skipStar isSpace >> skipLit LF)%regex group (p, post))
    as [res|] eqn:E1.
  - rewrite (S1 _ _ E1). reflexivity.
  - cbn [orElse]. unfold endsParagraph in H.
    destruct post as [|c r]; [reflexivity|].
    apply andb_true_iff in H. destruct H as [Hc Hr].
    apply Ascii.eqb_eq in Hc. subst c.
    apply orb_true_iff in Hr. destruct Hr as [Hr|Hr].
    + (* a blank line: the first alternative cannot have failed *)
      exfalso. unfold startsWith in Hr. apply prefix_iff in Hr. destruct Hr as [r' ->].
      unfold seq in E1.
      change (String "010" (LF ++ r')) with (LF ++ (LF ++ r'))%string in E1.
      rewrite skipLit_match in E1 by discriminate.
      unfold skipStar in E1. cbn [fst snd LF append skipStarFrom] in E1.
      change (isSpace "010") with true in E1. cbv iota in E1.
      unfold orElse in E1.
      destruct (skipStarFrom isSpace (skipLit LF group) (Some "010"%char) r');
        [discriminate E1|].
      change (String "010" r') with (LF ++ r')%string in E1.
      rewrite skipLit_match in E1 by discriminate. discriminate E1.
    + unfold startsWith in Hr. apply prefix_iff in Hr. destruct Hr as [r' ->].
      unfold seq.
      change (String "010" ("#" ++ r')) with (LF ++ ("#" ++ r'))%string.
      rewrite skipLit_match by discriminate.
      rewrite skipLit_match by discriminate.
      reflexivity.
Qed.

(** The lazy run of a group, up to the first place where what follows it
    matches. *)
Lemma lazyStarFrom_paragraph (x post : string) :
  tightLines x = true -> endsParagraph post = true ->
  forall prev, lazyStarFrom anyChar afterParagraph prev (x ++ post) = Some x.
Proof.
  intros Ht Hp. induction x as [|c x IH]; intro prev.
  - cbn [append]. destruct post as [|d post]; cbn [lazyStarFrom];
      rewrite (afterParagraph_end prev _ Hp); reflexivity.
  - pose proof (afterParagraph_inside prev (String c x) post) as F.
    cbn [append] in F |- *. cbn [lazyStarFrom].
    rewrite F by (discriminate || exact Ht).
    cbn [tightLines] in Ht. apply andb_true_iff in Ht. destruct Ht as [_ Ht].
    cbn [orElse anyChar]. unfold anyChar. rewrite (IH Ht). reflexivity.
Qed.

(** The description of a document that opens with a heading line and a
    blank line is its first paragraph: the text up to the next blank line,
    the next line that starts with [#], or the end, its line feeds turned
    into spaces and the white space of its ends removed, when neither the
    front matter nor a [description:] line gives one. *)
Theorem description_is_first_paragraph
  (title para post : string) (frontmatter : list (string * string)) :
  let content := ("#" ++ title ++ LF ++ LF ++ para ++ post)%string in
  present (field frontmatter "description") = false ->
  includes content "description:" = false ->
  allChars notLineFeed title = true ->
  startsWithText para = true -> tightLines para = true ->
  endsParagraph post = true ->
  extractDescription content frontmatter = replaceLineFeeds (trim para).
Proof.
  cbv zeta. intros Hf Hd Htitle Hstart Htight Hend.
  unfold extractDescription. cbv zeta.
  change (truthy ("#" ++ title ++ LF ++ LF ++ para ++ post)) with true.
  cbn [negb]. rewrite Hf.
  unfold matchGroup at 1.
  rewrite (line_pattern_none "description:" (skipStar isSpace >> plus dot >> eolM)%regex _ Hd None :
             groupFrom descriptionLine None _ = None).
  cbn [present].
  destruct para as [|c0 para]; [discriminate Hstart|].
  cbn [startsWithText] in Hstart. apply negb_true_iff in Hstart.
  assert (Hrest : headingAndBlank remainder
                    (None, ("#" ++ title ++ LF ++ LF ++ String c0 para ++ post)%string)
                  = Some (String c0 para ++ post)%string).
  { unfold headingAndBlank, seq.
    rewrite skipLit_match by discriminate.
    unfold skipStar at 1. cbn [fst snd].
    apply skipStarFrom_run; [exact Htitle|reflexivity|].
    intro p. rewrite skipLit_match by discriminate.
    unfold skipStar. cbn [fst snd LF append skipStarFrom].
    change (isSpace "010") with true. cbv iota. rewrite Hstart.
    assert (F : skipLit LF remainder (Some "010"%char, String c0 (para ++ post)) = None).
    { apply skipLit_prefix. cbn [LF prefix].
      destruct (ascii_dec "010" c0) as [<-|_]; [discriminate Hstart|reflexivity]. }
    rewrite F. cbn [orElse].
    change (String "010" (String c0 (para ++ post)))
      with (LF ++ String c0 (para ++ post))%string.
    rewrite skipLit_match by discriminate. reflexivity. }
  rewrite Hrest.
  assert (Hpara : matchGroupAtStart firstParagraph (String c0 para ++ post)
                  = Some (String c0 para)).
  { unfold matchGroupAtStart, firstParagraph, seq at 1, lazyPlusAny, seq, chr.
    cbn [append snd anyChar]. unfold anyChar at 1. unfold lazyStar. cbn [fst snd].
    cbn [tightLines] in Htight. apply andb_true_iff in Htight. destruct Htight as [_ Htight].
    change (fun p => orElse _ _) with afterParagraph.
    rewrite (lazyStarFrom_paragraph _ _ Htight Hend). reflexivity. }
  rewrite Hpara. reflexivity.
Qed.

(** The opening of a skill: heading, blank line, a paragraph of two lines,
    blank line. *)
Lemma description_is_first_paragraph_witness :
  extractDescription ("#" ++ " Build Helper" ++ LF ++ LF ++ "Use when the build output
must be listed. " ++ "

## Steps") []
  = replaceLineFeeds (trim "Use when the build output
must be listed. ").
Proof.
  apply (description_is_first_paragraph " Build Helper" "Use when the build output
must be listed. " "

## Steps" []); reflexivity.
Defined.

(** ** The front matter the parser reads *)

Import RegexGroup.

Lemma skipLit_inv (lit : string) (k : cont) (p : option ascii) (s g : string) :
  skipLit lit k (p, s) = Some g ->
  exists q rest, s = (lit ++ rest)%string /\ k (q, rest) = Some g.
Proof.
  revert p s. induction lit as [|c lit IH]; intros p s H.
  - exists p, s. split; [reflexivity | exact H].
  - cbn [skipLit] in H. unfold seq, skipChr, isChar in H. cbn [snd] in H.
    destruct s as [|d s]; [discriminate H|].
    destruct (Ascii.eqb_spec c d) as [<-|_]; [|discriminate H].
    destruct (IH _ _ H) as [q [rest [E K]]].
    exists q, rest. split; [cbn [append]; rewrite E; reflexivity | exact K].
Qed.

Lemma afterBlock_closing (p : option ascii) (rest : string) :
  afterBlock (p, (closing ++ rest)%string) = Some "".
Proof.
  change afterBlock with (skipLit closing group).
  rewrite skipLit_match by discriminate. reflexivity.
Qed.

Lemma afterBlock_none (p : option ascii) (s : string) :
  prefix closing s = false -> afterBlock (p, s) = None.
Proof.
  change afterBlock with (skipLit closing group). apply skipLit_prefix.
Qed.

Lemma afterBlock_inv (p : option ascii) (s g : string) :
  afterBlock (p, s) = Some g -> g = "" /\ exists rest, s = (closing ++ rest)%string.
Proof.
  change afterBlock with (skipLit closing group). intro H.
  destruct (skipLit_inv _ _ _ _ _ H) as [q [rest [E K]]].
  injection K as <-. split; [reflexivity | exists rest; exact E].
Qed.

(** The closing line does not overlap itself: inside a text that does not
    hold it, and up to its end, no suffix followed by the closing line
    starts with the closing line. *)
Lemma closing_not_before (a b rest : string) :
  b <> "" -> includes (a ++ b) closing = false ->
  prefix closing (b ++ closing ++ rest) = false.
Proof.
  intros Hb H. apply includes_suffix, includes_prefix_false in H.
  destruct b as [|c1 [|c2 [|c3 [|c4 b]]]]; [contradiction| | | |].
  - cbn [closing LF append prefix].
    destruct (ascii_dec "010" c1); reflexivity.
  - cbn [closing LF append prefix].
    destruct (ascii_dec "010" c1); [|reflexivity].
    destruct (ascii_dec "-" c2); reflexivity.
  - cbn [closing LF append prefix].
    destruct (ascii_dec "010" c1); [|reflexivity].
    destruct (ascii_dec "-" c2); [|reflexivity].
    destruct (ascii_dec "-" c3); reflexivity.
  - cbn [closing LF append prefix] in H |- *.
    destruct (ascii_dec "010" c1); [|reflexivity].
    destruct (ascii_dec "-" c2); [|reflexivity].
    destruct (ascii_dec "-" c3); [|reflexivity].
    destruct (ascii_dec "-" c4); [|reflexivity].
    destruct b; discriminate H.
Qed.

(** The lazy group stops at the first closing line. *)
Lemma lazyStarFrom_block (a body rest : string) :
  includes (a ++ body) closing = false ->
  forall prev,
    lazyStarFrom anyChar afterBlock prev (body ++ closing ++ rest) = Some body.
Proof.
  revert a. induction body as [|c body IH]; intros a H prev.
  - pose proof (afterBlock_closing prev rest) as K.
    cbn [append closing LF] in K |- *. cbn [lazyStarFrom]. rewrite K. reflexivity.
  - pose proof (closing_not_before a (String c body) rest) as F.
    cbn [append] in F |- *. cbn [lazyStarFrom].
    rewrite afterBlock_none by (apply F; [discriminate | exact H]).
    cbn [orElse]. unfold anyChar.
    rewrite (IH (a ++ String c "")%string).
    + reflexivity.
    + rewrite append_assoc. exact H.
Qed.

Lemma prefix_app (p x y : string) : prefix p x = true -> prefix p (x ++ y) = true.
Proof.
  rewrite !prefix_iff. intros [r ->]. exists (r ++ y)%string.
  rewrite append_assoc. reflexivity.
Qed.

(** Where the lazy group stops, a closing line follows and the group holds
    none. *)
Lemma lazyStarFrom_block_inv (s g : string) :
  forall prev,
    lazyStarFrom anyChar afterBlock prev s = Some g ->
    includes g closing = false /\ exists rest, s = (g ++ closing ++ rest)%string.
Proof.
  revert g. induction s as [|c s IH]; intros g prev H.
  - cbn [lazyStarFrom] in H. rewrite afterBlock_none in H by reflexivity.
    discriminate H.
  - cbn [lazyStarFrom] in H.
    destruct (afterBlock (prev, String c s)) as [g0|] eqn:K.
    + cbn [orElse] in H. injection H as <-.
      destruct (afterBlock_inv _ _ _ K) as [-> [rest E]].
      split; [reflexivity | exists rest; exact E].
    + cbn [orElse] in H. unfold anyChar in H.
      destruct (lazyStarFrom (fun _ => true) afterBlock (Some c) s) as [g'|] eqn:L;
        [|discriminate H].
      cbn [consumed] in H. injection H as <-.
      destruct (IH g' (Some c) L) as [I [rest E]].
      split.
      * cbn [includes]. rewrite I, orb_false_r.
        destruct (prefix closing (String c g')) eqn:P; [|reflexivity].
        apply (prefix_app _ _ (closing ++ rest)) in P.
        cbn [append] in P. rewrite <- E in P.
        apply prefix_iff in P. destruct P as [r P].
        rewrite P, afterBlock_closing in K. discriminate K.
      * exists rest. cbn [append]. rewrite E. reflexivity.
Qed.

Lemma truthy_nonempty (s : string) : s <> "" -> truthy s = true.
Proof. destruct s; [contradiction | reflexivity]. Qed.

Lemma frontmatterBlock_group (p : option ascii) (s : string) :
  frontmatterBlock group (p, (opening ++ s)%string)
  = lazyStarFrom anyChar afterBlock (Some "010"%char) s.
Proof. reflexivity. Qed.

(** A document that opens with a line of three dashes has as front matter
    what the YAML parser makes of the lines up to the first later line that
    starts with three dashes, when there is at least one character between
    the two: the text between them is handed to the parser as it is. *)
Theorem front_matter_is_the_leading_block
  (yamlParse : string -> list (string * string)) (body rest : string) :
  body <> "" -> includes body closing = false ->
  parseFrontmatter yamlParse (opening ++ body ++ closing ++ rest) = yamlParse body.
Proof.
  intros Hb H. unfold parseFrontmatter, matchGroupAtStart.
  rewrite frontmatterBlock_group.
  rewrite (lazyStarFrom_block "" body rest H).
  rewrite (truthy_nonempty body Hb). reflexivity.
Qed.

Lemma front_matter_is_the_leading_block_witness :
  parseFrontmatter (fun text => [("raw", text)])
    (opening ++ "name: demo" ++ closing ++ String "010" "# Demo")
  = [("raw", "name: demo")].
Proof.
  apply (front_matter_is_the_leading_block (fun text => [("raw", text)])
           "name: demo" (String "010" "# Demo")); [discriminate | reflexivity].
Defined.

(** Front matter comes from nowhere else: when the parser returns entries,
    the document opens with a line of three dashes, a later line starts
    with three dashes, the text between the first such pair is not empty,
    and the entries are what the YAML parser makes of that text. *)
Theorem front_matter_only_from_the_leading_block
  (yamlParse : string -> list (string * string)) (content : string) :
  parseFrontmatter yamlParse content <> [] ->
  exists body rest,
    content = (opening ++ body ++ closing ++ rest)%string
    /\ body <> ""
    /\ includes body closing = false
    /\ parseFrontmatter yamlParse content = yamlParse body.
Proof.
  unfold parseFrontmatter, matchGroupAtStart. intro H.
  destruct (truthy content); cbn [negb] in H |- *; [|contradiction].
  destruct (frontmatterBlock group (None, content)) as [g|] eqn:M; [|contradiction].
  destruct (truthy g) eqn:T; [|contradiction].
  unfold frontmatterBlock, seq in M.
  destruct (skipLit_inv _ _ _ _ _ M) as [q1 [s1 [E1 M1]]].
  destruct (skipLit_inv _ _ _ _ _ M1) as [q2 [s2 [E2 M2]]].
  unfold lazyStar in M2. cbn [fst snd] in M2.
  destruct (lazyStarFrom_block_inv _ _ _ M2) as [I [rest E3]].
  exists g, rest. repeat split.
  - rewrite E1, E2, E3. reflexivity.
  - intros ->. discriminate T.
  - exact I.
Qed.

Lemma front_matter_only_from_the_leading_block_witness :
  exists body rest,
    ("---" ++ LF ++ "name: demo" ++ LF ++ "---" ++ LF ++ "# Demo")%string
    = (opening ++ body ++ closing ++ rest)%string
    /\ body <> ""
    /\ includes body closing = false
    /\ parseFrontmatter (fun text => [("raw", text)])
         ("---" ++ LF ++ "name: demo" ++ LF ++ "---" ++ LF ++ "# Demo")
       = (fun text => [("raw", text)]) body.
Proof.
  apply (front_matter_only_from_the_leading_block (fun text => [("raw", text)])
           ("---" ++ LF ++ "name: demo" ++ LF ++ "---" ++ LF ++ "# Demo")).
  vm_compute. discriminate.
Defined.

(** The skill that gets full marks is what the parser makes of a directory
    that holds its text as [SKILL.md] and nothing else, whatever the YAML
    parser does. *)
Lemma perfectSkill_as_parsed (yamlParse : string -> list (string * string)) :
  parseSkill yamlParse "/skills/build-helper" true perfectText ["SKILL.md"] = perfectSkill.
Proof. reflexivity. Qed.

(** ** The summary of a batch *)

Lemma sum_percentages_bounds (rs : list BatchResult.t) (acc : Q) :
  Forall inRange rs -> Forall (fun r => hasScore r = true) rs ->
  acc <= fold_left
           (fun sum r =>
              sum + match BatchResult.score r with
                    | Some score => SkillScore.percentage score
                    | None => 0
                    end) rs acc
  /\ fold_left
       (fun sum r =>
          sum + match BatchResult.score r with
                | Some score => SkillScore.percentage score
                | None => 0
                end) rs acc
     <= acc + 100 * inject_Z (Z.of_nat (List.length rs)).
Proof.
  intros Hr Hs. revert acc. induction Hr as [|r rs Hin _ IH]; intro acc.
  - cbn [fold_left List.length]. change (inject_Z (Z.of_nat 0)) with 0. split; lra.
  - apply Forall_cons_iff in Hs. destruct Hs as [Hsr Hs].
    cbn [fold_left List.length].
    destruct (IH Hs (acc + match BatchResult.score r with
                           | Some score => SkillScore.percentage score
                           | None => 0
                           end)) as [Hlo Hhi].
    unfold inRange in Hin. unfold hasScore in Hsr.
    destruct (BatchResult.score r) as [score|]; [|discriminate Hsr].
    rewrite Nat2Z.inj_succ, <- Z.add_1_r, inject_Z_plus in *.
    change (inject_Z 1) with 1 in *. split; lra.
Qed.

Lemma executeBatchScore_results
  (resolveAndParse : string -> string + ParsedSkill.t) (clock : string -> Date)
  (skillPaths : list string) :
  let results := executeBatchScore resolveAndParse clock skillPaths in
  Forall inRange results
  /\ List.length results = List.length (filter truthy skillPaths)
  /\ map BatchResult.path results = filter truthy skillPaths
  /\ List.length results
     = (successful results + failed results
        + List.length (filter hasEmptyError results))%nat.
Proof.
  cbv zeta. unfold successful, failed.
  induction skillPaths as [|skillPath skillPaths (IH1 & IH2 & IH3 & IH4)].
  - cbn. repeat split. constructor.
  - cbn [executeBatchScore flat_map filter].
    change (flat_map _ skillPaths) with (executeBatchScore resolveAndParse clock skillPaths).
    destruct (truthy skillPath); cbn [negb]; [|cbn [app]; repeat split; assumption].
    destruct (resolveAndParse skillPath) as [message|skill]; cbn [app].
    + split; [constructor; [exact I|exact IH1]|].
      split; [cbn [List.length]; rewrite IH2; reflexivity|].
      split; [cbn [map BatchResult.path]; rewrite IH3; reflexivity|].
      cbn [filter hasScore hasError hasEmptyError BatchResult.score BatchResult.error].
      unfold truthy.
      destruct (String.eqb message ""); cbn [negb List.length]; lia.
    + split.
      * constructor; [|exact IH1]. unfold inRange. cbn [BatchResult.score].
        pose proof (scoreSkill_totalScore_bounds skill (clock skillPath)) as Hb.
        rewrite scoreSkill_percentage. split; lra.
      * split; [cbn [List.length]; rewrite IH2; reflexivity|].
        split; [cbn [map BatchResult.path]; rewrite IH3; reflexivity|].
        cbn [filter hasScore hasError hasEmptyError BatchResult.score BatchResult.error
             List.length].
        lia.
Qed.

(** The summary of a batch counts every path that is not empty once: as
    successful when it was parsed and scored, as failed when something was
    thrown with a message, and as neither when the message thrown was
    empty.  The results keep the order of the paths.  The average is taken
    over the successful ones and lies between 0 and 100; it is 0 when
    there is none. *)
Theorem batch_summary_counts
  (resolveAndParse : string -> string + ParsedSkill.t) (clock : string -> Date)
  (skillPaths : list string) :
  let results := executeBatchScore resolveAndParse clock skillPaths in
  map BatchResult.path results = filter truthy skillPaths
  /\ (successful results + failed results + List.length (filter hasEmptyError results)
      = List.length (filter truthy skillPaths))%nat
  /\ 0 <= avgScore results <= 100
  /\ (successful results = 0%nat -> avgScore results = 0).
Proof.
  cbv zeta.
  destruct (executeBatchScore_results resolveAndParse clock skillPaths)
    as (Hr & Hlen & Hpaths & Hcount).
  split; [exact Hpaths|]. split; [rewrite <- Hcount; exact Hlen|].
  set (results := executeBatchScore resolveAndParse clock skillPaths) in *.
  unfold avgScore, successful. cbv zeta.
  assert (Hr' : Forall inRange (filter hasScore results)).
  { apply Forall_forall. intros r Hin. apply filter_In in Hin.
    rewrite Forall_forall in Hr. exact (Hr r (proj1 Hin)). }
  assert (Hs' : Forall (fun r => hasScore r = true) (filter hasScore results)).
  { apply Forall_forall. intros r Hin. apply filter_In in Hin. exact (proj2 Hin). }
  destruct (sum_percentages_bounds _ 0 Hr' Hs') as [Hlo Hhi].
  destruct (Nat.ltb_spec 0 (List.length (filter hasScore results))) as [Hpos|Hzero].
  - split; [|intro H; lia].
    set (total := fold_left _ _ 0) in *.
    set (n := inject_Z (Z.of_nat (List.length (filter hasScore results)))) in *.
    assert (Hn : 0 < n).
    { unfold n. change 0 with (inject_Z 0). rewrite <- Zlt_Qlt. lia. }
    split.
    + apply Qle_shift_div_l; [exact Hn|]. lra.
    + apply Qle_shift_div_r; [exact Hn|]. lra.
  - split; [split; discriminate | reflexivity].
Qed.

(** ** What the path classifier reports *)

(** Every match of a global search was found at some index of the text. *)
Lemma matchAllFrom_origin (r : re) (s : string) :
  forall (skip : nat) (prev : option ascii) (m : string),
    In m (matchAllFrom r skip prev s) ->
    exists a prev' s', s = (a ++ s')%string /\ execAt r prev' s' = Some m.
Proof.
  induction s as [|c rest IH]; intros skip prev m H; [destruct H|].
  cbn [matchAllFrom] in H.
  assert (Hrest : forall skip', In m (matchAllFrom r skip' (Some c) rest) ->
                    exists a prev' s', String c rest = (a ++ s')%string
                                       /\ execAt r prev' s' = Some m).
  { intros skip' Hin. destruct (IH _ _ _ Hin) as (a & prev' & s' & E & Hm).
    exists (String c a), prev', s'. split; [cbn; rewrite E; reflexivity|exact Hm]. }
  destruct skip as [|n]; [|exact (Hrest _ H)].
  destruct (execAt r prev (String c rest)) as [m0|] eqn:E; [|exact (Hrest _ H)].
  destruct H as [<-|H]; [|exact (Hrest _ H)].
  exists "", prev, (String c rest). split; [reflexivity|exact E].
Qed.

(** A candidate path starts with a slash, or with a drive letter, a colon
    and a backslash. *)
Lemma potentialPath_starts (prev : option ascii) (s m : string) :
  execAt potentialPath prev s = Some m ->
  startsWith m "/" = true \/ testAtStart driveLetter m = true.
Proof.
  cbv [execAt potentialPath alt seq lit chr isChar plus star eps snd fst].
  destruct s as [|c s]; [discriminate|].
  destruct (Ascii.eqb_spec "/" c) as [<-|N].
  - change (isUpperAZ "/") with false. cbv iota.
    match goal with
    | |- orElse (consumed _ ?X) _ = _ -> _ => destruct X as [x|]
    end; [|discriminate].
    cbn [consumed orElse]. intro H. injection H as <-.
    left. unfold startsWith. apply prefix_iff. exists x. reflexivity.
  - cbn [orElse]. destruct (isUpperAZ c) eqn:U; [|discriminate].
    destruct s as [|c1 s]; [discriminate|].
    destruct (Ascii.eqb_spec ":" c1) as [<-|_]; [|discriminate].
    destruct s as [|c2 s]; [discriminate|].
    destruct (Ascii.eqb_spec "\" c2) as [<-|_]; [|discriminate].
    destruct (starFrom windowsPathChar _ _ _) as [y|]; [|discriminate].
    cbn [consumed]. intro H. injection H as <-. right.
    cbv [testAtStart execAt driveLetter seq lit chr isChar eps snd fst].
    rewrite U. reflexivity.
Qed.

(** The classifier makes nothing up: a path it reports stands in the text,
    is made of the characters of a path, has at least four of them, starts
    with a slash or a drive letter, and is nowhere in the text preceded by
    [http:], [https:] or [ftp:]. *)
Theorem reported_paths_occur_in_text (content path : string) :
  In path (findHardcodedPaths content) ->
  includes content path = true
  /\ allChars pathAlphabet path = true
  /\ (4 <= String.length path)%nat
  /\ (startsWith path "/" = true \/ testAtStart driveLetter path = true)
  /\ includes content ("http:" ++ path) = false
  /\ includes content ("https:" ++ path) = false
  /\ includes content ("ftp:" ++ path) = false.
Proof.
  unfold findHardcodedPaths. cbv zeta. rewrite filter_In. intros [Hin H].
  unfold matchAll in Hin.
  destruct (matchAllFrom_origin _ _ _ _ _ Hin) as (a & prev' & s' & E & Hm).
  destruct (execAt_consumesOnly pathAlphabet potentialPath prev' s' path
              potentialPath_consumesOnly Hm) as [Ha [s'' Hs']].
  split; [apply includes_iff; exists a, s''; rewrite E, Hs'; reflexivity|].
  split; [exact Ha|].
  split; [|split; [exact (potentialPath_starts _ _ _ Hm)|]].
  - unfold isHardcodedPath in H.
    destruct (testAtStart (lit "//") path || includes content ("http:" ++ path)
              || includes content ("https:" ++ path) || includes content ("ftp:" ++ path));
      [discriminate H|].
    destruct ((includes content "http://" || includes content "https://")
              && test (urlPattern path) content); [discriminate H|].
    destruct (Nat.ltb_spec (String.length path) 4) as [L|L]; [|exact L].
    rewrite !orb_true_r in H. discriminate H.
  - unfold isHardcodedPath in H.
    destruct (includes content ("http:" ++ path)); [rewrite !orb_true_r in H; discriminate H|].
    destruct (includes content ("https:" ++ path));
      [rewrite !orb_true_r in H; cbn in H; discriminate H|].
    destruct (includes content ("ftp:" ++ path)); [rewrite !orb_true_r in H; discriminate H|].
    repeat split.
Qed.

(** The path of the text [cd /opt/tools/bin]. *)
Lemma reported_paths_occur_in_text_witness :
  In "/opt/tools/bin" (findHardcodedPaths "cd /opt/tools/bin")
  /\ includes "cd /opt/tools/bin" "/opt/tools/bin" = true.
Proof.
  assert (H : In "/opt/tools/bin" (findHardcodedPaths "cd /opt/tools/bin"))
    by (left; reflexivity).
  split; [exact H|].
  exact (proj1 (reported_paths_occur_in_text "cd /opt/tools/bin" "/opt/tools/bin" H)).
Defined.
